(** * geomag-plots: time-window resolution, range validation and the
      synchronisation controller

    A shallow embedding of

    - [src/htdocs/js/TimeseriesApp.js] (module [TimeseriesApp] below): the
      minute rounding helper, the configuration-change cycle, the fetch
      callbacks, the metadata merge and the sort comparator;
    - the selection view (module [TimeseriesSelectView] below): the click
      handlers, the time-change handler and the three validators.

    JavaScript values are modelled as follows.

    - A number that is an integer or NaN is [num]: [NaN] or [Num z] with
      [z : Z].  Every integer that passes [TimeClip] is below 2^53 in
      absolute value, so the double arithmetic of the source is exact on
      it; a difference of two time values can exceed 2^53 but is only
      compared with small constants, which rounding cannot cross.
    - A [Date] object is its time value, a [num] ([NaN] is the Invalid
      Date); [null] is [None] of an [option].
    - The calendar arithmetic of [Date] ([getUTC*], [Date.UTC]) follows the
      definitions of the ECMAScript standard ([Day], [YearFromTime],
      [MakeDay], ...).
    - A latitude is an exact rational ([Q]): every finite double is one, and
      the comparator only uses the sign of a difference, which rounding
      preserves.
    - An exception ends a handler in the state it has reached
      ([completion]).
    - The configuration tells its 'change' listeners only when a [set]
      changes a value ([Config.anyChanged]); a Date handed to [set] is a
      new object and always counts as a change.

    What is written to the page (element contents, class lists other than
    the loading mark and the custom mark) is not modelled.

    The definitions come first: the platform ([JS], [ESDate]), the data
    ([Config], [Metadata], [Timeseries], [Observatory]), the two source
    files, names for the parts of a cycle ([Cycle]), concrete data
    ([Examples], [IsoFormat]) and the rounding as the specification words
    it ([Specification]); then the text of dates ([ESDateText]), the
    formatting, [render] and the description with their text
    ([Rendering]), the events of the view ([Selection]) and what a
    well-kept application looks like ([Order]).  The facts follow, file by
    file: the cycle and its timers, validation, the published order,
    formatting and reading dates, the view and the controller together,
    and switching the mode and coming back. *)

From Stdlib Require Import ZArith Lia Bool List String Ascii QArith.
From Stdlib Require Import Sorted Permutation.
Import ListNotations.

Local Open Scope Z_scope.

(** ** JavaScript numbers *)

Module JS.

Inductive num : Type :=
| NaN
| Num (z : Z).

Definition num_eqb (a b : num) : bool :=
  match a, b with
  | Num x, Num y => x =? y
  | _, _ => false
  end.

(** [a - b] *)
Definition sub (a b : num) : num :=
  match a, b with
  | Num x, Num y => Num (x - y)
  | _, _ => NaN
  end.

(** [a + b] *)
Definition add (a b : num) : num :=
  match a, b with
  | Num x, Num y => Num (x + y)
  | _, _ => NaN
  end.

(** [a * b] *)
Definition mul (a b : num) : num :=
  match a, b with
  | Num x, Num y => Num (x * y)
  | _, _ => NaN
  end.

(** [Math.floor(a / b)] for a non-zero divisor; [Z.div] rounds towards
    minus infinity, as [Math.floor] does. *)
Definition floor_div (a b : num) : num :=
  match a, b with
  | Num x, Num y => if y =? 0 then NaN else Num (x / y)
  | _, _ => NaN
  end.

(** [a <= b]: false as soon as one side is NaN. *)
Definition le (a b : num) : bool :=
  match a, b with
  | Num x, Num y => x <=? y
  | _, _ => false
  end.

(** [a > b]: false as soon as one side is NaN. *)
Definition gt (a b : num) : bool :=
  match a, b with
  | Num x, Num y => x >? y
  | _, _ => false
  end.

(** [isNaN(a)] *)
Definition isNaN (a : num) : bool :=
  match a with
  | NaN => true
  | Num _ => false
  end.

(** Truthiness of a number: [0] and [NaN] are falsy. *)
Definition truthy (a : num) : bool :=
  match a with
  | NaN => false
  | Num z => negb (z =? 0)
  end.

End JS.

(** ** The ECMAScript Date algorithms *)

Module ESDate.

Import JS.

Definition msPerDay : Z := 86400000.
Definition msPerHour : Z := 3600000.
Definition msPerMinute : Z := 60000.
Definition msPerSecond : Z := 1000.
Definition HoursPerDay : Z := 24.
Definition MinutesPerHour : Z := 60.

(** The largest time value of a Date: 8.64e15 ms on either side of the
    epoch. *)
Definition maxTimeValue : Z := 8640000000000000.

Definition Day (t : Z) : Z := t / msPerDay.
Definition TimeWithinDay (t : Z) : Z := t mod msPerDay.

Definition isLeapYear (y : Z) : bool :=
  if negb (y mod 4 =? 0) then false
  else if negb (y mod 100 =? 0) then true
  else if negb (y mod 400 =? 0) then false
  else true.

Definition DaysInYear (y : Z) : Z := if isLeapYear y then 366 else 365.

Definition DayFromYear (y : Z) : Z :=
  365 * (y - 1970) + (y - 1969) / 4 - (y - 1901) / 100 + (y - 1601) / 400.

Definition TimeFromYear (y : Z) : Z := msPerDay * DayFromYear y.

(** [YearFromTime t] is the largest [y] with [TimeFromYear y <= t].  The
    mean year has 146097/400 days, so the quotient below is off by at most
    one, which the two tests repair ([YearFromTime_spec]). *)
Definition YearFromDay (d : Z) : Z :=
  let y0 := 1970 + (400 * d) / 146097 in
  if d <? DayFromYear y0 then y0 - 1
  else if DayFromYear (y0 + 1) <=? d then y0 + 1
  else y0.

Definition YearFromTime (t : Z) : Z := YearFromDay (Day t).

Definition InLeapYear (t : Z) : Z :=
  if isLeapYear (YearFromTime t) then 1 else 0.

Definition DayWithinYear (t : Z) : Z := Day t - DayFromYear (YearFromTime t).

Definition MonthFromTime (t : Z) : Z :=
  let d := DayWithinYear t in
  let l := InLeapYear t in
  if d <? 31 then 0
  else if d <? 59 + l then 1
  else if d <? 90 + l then 2
  else if d <? 120 + l then 3
  else if d <? 151 + l then 4
  else if d <? 181 + l then 5
  else if d <? 212 + l then 6
  else if d <? 243 + l then 7
  else if d <? 273 + l then 8
  else if d <? 304 + l then 9
  else if d <? 334 + l then 10
  else 11.

Definition DateFromTime (t : Z) : Z :=
  let d := DayWithinYear t in
  let l := InLeapYear t in
  match MonthFromTime t with
  | 0 => d + 1
  | 1 => d - 30
  | 2 => d - 58 - l
  | 3 => d - 89 - l
  | 4 => d - 119 - l
  | 5 => d - 150 - l
  | 6 => d - 180 - l
  | 7 => d - 211 - l
  | 8 => d - 242 - l
  | 9 => d - 272 - l
  | 10 => d - 303 - l
  | _ => d - 333 - l
  end.

Definition HourFromTime (t : Z) : Z := (t / msPerHour) mod HoursPerDay.
Definition MinFromTime (t : Z) : Z := (t / msPerMinute) mod MinutesPerHour.
Definition SecFromTime (t : Z) : Z := (t / msPerSecond) mod 60.
Definition msFromTime (t : Z) : Z := t mod msPerSecond.

Definition MakeTime (hour min sec ms : Z) : Z :=
  hour * msPerHour + min * msPerMinute + sec * msPerSecond + ms.

(** Day number, within its year, of the first day of month [mn] (0..11). *)
Definition DayOfMonthStart (mn : Z) (leap : bool) : Z :=
  let l := if leap then 1 else 0 in
  match mn with
  | 0 => 0
  | 1 => 31
  | 2 => 59 + l
  | 3 => 90 + l
  | 4 => 120 + l
  | 5 => 151 + l
  | 6 => 181 + l
  | 7 => 212 + l
  | 8 => 243 + l
  | 9 => 273 + l
  | 10 => 304 + l
  | _ => 334 + l
  end.

(** [MakeDay]: the day number of the first of month [mn] of year [ym],
    plus [date - 1] ([MakeDay_first] shows that this day is the one the
    standard asks for). *)
Definition MakeDay (year month date : Z) : Z :=
  let ym := year + month / 12 in
  let mn := month mod 12 in
  DayFromYear ym + DayOfMonthStart mn (isLeapYear ym) + date - 1.

Definition MakeDate (day time : Z) : Z := day * msPerDay + time.

Definition TimeClip (time : num) : num :=
  match time with
  | NaN => NaN
  | Num t => if Z.abs t >? maxTimeValue then NaN else Num t
  end.

(** Years 0 to 99 given to [Date.UTC] mean 1900 to 1999. *)
Definition MakeFullYear (y : Z) : Z :=
  if (0 <=? y) && (y <=? 99) then 1900 + y else y.

(** A Date object: its time value. *)
Record Date : Type := mkDate { DateValue : num }.

(** [new Date(v)] *)
Definition new_Date (v : num) : Date := mkDate (TimeClip v).

(** [d.getTime()] *)
Definition getTime (d : Date) : num := DateValue d.

Definition on_time (f : Z -> Z) (d : Date) : num :=
  match DateValue d with
  | NaN => NaN
  | Num t => Num (f t)
  end.

Definition getUTCFullYear : Date -> num := on_time YearFromTime.
Definition getUTCMonth : Date -> num := on_time MonthFromTime.
Definition getUTCDate : Date -> num := on_time DateFromTime.
Definition getUTCHours : Date -> num := on_time HourFromTime.
Definition getUTCMinutes : Date -> num := on_time MinFromTime.

(** [Date.UTC(year, month, date, hours, minutes)] *)
Definition Date_UTC (year month date hours minutes : num) : num :=
  match year, month, date, hours, minutes with
  | Num y, Num m, Num dt, Num h, Num mi =>
      TimeClip (Num (MakeDate (MakeDay (MakeFullYear y) m dt)
                              (MakeTime h mi 0 0)))
  | _, _, _, _, _ => NaN
  end.

End ESDate.

(** ** The configuration model

    The configuration is an [mvc/Model] of the web utilities the
    application is built on.  It is modelled through its interface: [get]
    reads an attribute and [set] replaces the attributes named in its
    argument, leaving the others as they are; [set] tells the 'change'
    listeners only when one of the attributes it names gets a value that
    is not ([!==]) the stored one. *)

Module Config.

Import ESDate.

Record t : Type := mk {
  channel : option string;
  endtime : option Date;
  observatory : option string;
  starttime : option Date;
  timemode : string
}.

(** The argument of a [set] call: [None] for an attribute the object
    literal does not name, [Some v] for one it sets to [v] ([v] itself is
    [None] for [null]). *)
Record patch : Type := mkPatch {
  set_channel : option (option string);
  set_endtime : option (option Date);
  set_observatory : option (option string);
  set_starttime : option (option Date);
  set_timemode : option string
}.

Definition upd {A : Type} (new : option A) (old : A) : A :=
  match new with
  | Some v => v
  | None => old
  end.

(** [config.set(p)] *)
Definition set (p : patch) (c : t) : t :=
  {| channel := upd (set_channel p) (channel c);
     endtime := upd (set_endtime p) (endtime c);
     observatory := upd (set_observatory p) (observatory c);
     starttime := upd (set_starttime p) (starttime c);
     timemode := upd (set_timemode p) (timemode c) |}.

(** [v !== old] for an attribute that holds a string or null. *)
Definition differs_string (v old : option string) : bool :=
  match v, old with
  | Some x, Some y => negb (x =? y)%string
  | None, None => false
  | _, _ => true
  end.

(** [v !== old] for an attribute that holds a Date or null.  Objects are
    compared by identity, and a Date in the argument of a [set] call is an
    object made for that call ([_parseDate] makes a new one each time, and
    no other code writes the times), so it is never the stored object. *)
Definition differs_date (v old : option Date) : bool :=
  match v, old with
  | None, None => false
  | _, _ => true
  end.

Definition named {A : Type} (differs : A -> A -> bool) (new : option A)
  (old : A) : bool :=
  match new with
  | Some v => differs v old
  | None => false
  end.

(** Whether [config.set(p)] changes any value, and so tells the 'change'
    listeners. *)
Definition anyChanged (p : patch) (c : t) : bool :=
  named differs_string (set_channel p) (channel c)
  || named differs_date (set_endtime p) (endtime c)
  || named differs_string (set_observatory p) (observatory c)
  || named differs_date (set_starttime p) (starttime c)
  || named (fun v old => negb (v =? old)%string) (set_timemode p) (timemode c).

(** The object literal [{timemode: m}]. *)
Definition timemode_only (m : string) : patch :=
  {| set_channel := None;
     set_endtime := None;
     set_observatory := None;
     set_starttime := None;
     set_timemode := Some m |}.

(** The defaults of [_initialize] in TimeseriesApp.js, lines 126-132. *)
Definition defaults : t :=
  {| channel := Some "H"%string;
     endtime := None;
     observatory := None;
     starttime := None;
     timemode := "pasthour"%string |}.

End Config.

(** ** Series records and the reference collection *)

Module Metadata.

(** [latitude], [longitude] and [name] are [None] when the attribute is
    absent or null. *)
Record t : Type := mk {
  observatory : string;
  name : option string;
  latitude : option Q;
  longitude : option Q
}.

End Metadata.

Module Timeseries.

Record t : Type := mk {
  channel : string;
  metadata : Metadata.t;
  samples : list (Z * Q)
}.

End Timeseries.

Module Observatory.

(** An entry of the reference collection; [id] is the observatory code the
    collection is looked up by. *)
Record t : Type := mk {
  id : string;
  name : option string;
  latitude : option Q;
  longitude : option Q
}.

End Observatory.

(** ** TimeseriesApp.js *)

Module TimeseriesApp.

Import JS ESDate.

Inductive exn : Type :=
| TypeError
| RangeError.

(** How a call ends: normally, or by an exception thrown in the state
    reached so far. *)
Inductive completion (S : Type) : Type :=
| Normal (s : S)
| Throw (e : exn) (s : S).

Arguments Normal {S} s.
Arguments Throw {S} e s.

(** [__roundUpToNearestNMinutes], lines 29-40.  [n] is an integer, as the
    documentation of the function says. *)
Definition __roundUpToNearestNMinutes (dt : Date) (n : Z) : Date :=
  let y := getUTCFullYear dt in
  let m := getUTCMonth dt in
  let d := getUTCDate dt in
  let h := getUTCHours dt in
  let i := getUTCMinutes dt in
  (* n = n || 5 *)
  let n := if n =? 0 then 5 else n in
  (* i = n * Math.floor((i + n) / n) *)
  let i := mul (Num n) (floor_div (add i (Num n)) (Num n)) in
  new_Date (Date_UTC y m d h i).

(** [__formatDate], lines 48-53.  The text goes to the page and is not
    modelled; what is kept is how the call ends: [toISOString] throws a
    RangeError on an Invalid Date. *)
Definition __formatDate (d : option Date) : option exn :=
  match d with
  | None => None
  | Some d => if isNaN (getTime d) then Some RangeError else None
  end.

(** The variable [_autoUpdateTimeout]: never assigned before the first
    cycle, then [null] or the handle [setTimeout] returned. *)
Inductive timeout_ref : Type :=
| Undefined
| Null
| TimeoutId (id : nat).

(** The argument of [TimeseriesFactory.getTimeseries], without the two
    callbacks (they are always [_onTimeseriesLoad] and
    [_onTimeseriesError]). *)
Record Request : Type := mkRequest {
  req_channel : option string;
  req_observatory : option string;
  req_channels : option (list string);
  req_endtime : Date;
  req_starttime : Date;
  req_seconds : bool
}.

(** The variables of the application closure that the cycle reads or
    writes, and the part of the platform it acts on: the timeouts that are
    pending, each with its delay, and the requests given to the factory. *)
Record App : Type := mkApp {
  _autoUpdateTimeout : timeout_ref;
  _channels : list string;
  _config : Config.t;
  _observatories : list Observatory.t;
  _timeseries : list Timeseries.t;
  (* [_timeseriesEl.classList] contains 'loading' *)
  loading : bool;
  (* pending timeouts (handle, delay in ms) and the next handle *)
  timers : list (nat * Z);
  next_timer : nat;
  (* calls of getTimeseries, the latest first *)
  requests : list Request
}.

Definition with_autoUpdateTimeout (r : timeout_ref) (a : App) : App :=
  mkApp r (_channels a) (_config a) (_observatories a) (_timeseries a)
        (loading a) (timers a) (next_timer a) (requests a).

Definition with_config (c : Config.t) (a : App) : App :=
  mkApp (_autoUpdateTimeout a) (_channels a) c (_observatories a)
        (_timeseries a) (loading a) (timers a) (next_timer a) (requests a).

Definition with_timeseries (ts : list Timeseries.t) (a : App) : App :=
  mkApp (_autoUpdateTimeout a) (_channels a) (_config a) (_observatories a)
        ts (loading a) (timers a) (next_timer a) (requests a).

Definition with_loading (b : bool) (a : App) : App :=
  mkApp (_autoUpdateTimeout a) (_channels a) (_config a) (_observatories a)
        (_timeseries a) b (timers a) (next_timer a) (requests a).

(** [clearTimeout(r)]: a handle that is not pending, [undefined] and
    [null] are ignored. *)
Definition clearTimeout (r : timeout_ref) (a : App) : App :=
  match r with
  | TimeoutId id =>
      mkApp (_autoUpdateTimeout a) (_channels a) (_config a)
            (_observatories a) (_timeseries a) (loading a)
            (filter (fun t => negb (Nat.eqb (fst t) id)) (timers a))
            (next_timer a) (requests a)
  | _ => a
  end.

(** [setTimeout(_onAutoUpdate, ms)]: a fresh handle. *)
Definition setTimeout (ms : Z) (a : App) : nat * App :=
  (next_timer a,
   mkApp (_autoUpdateTimeout a) (_channels a) (_config a) (_observatories a)
         (_timeseries a) (loading a) ((next_timer a, ms) :: timers a)
         (S (next_timer a)) (requests a)).

(** [_timeseriesFactory.getTimeseries(r)]: the request is handed to the
    factory, which answers later through one of the two callbacks. *)
Definition getTimeseries (r : Request) (a : App) : App :=
  mkApp (_autoUpdateTimeout a) (_channels a) (_config a) (_observatories a)
        (_timeseries a) (loading a) (timers a) (next_timer a)
        (r :: requests a).

(** [_onConfigChange], lines 177-242.  [now] is the clock reading that
    [new Date()] returns.  Hiding the off-canvas panel (lines 187-190)
    concerns the page only and is left out. *)
Definition _onConfigChange (now : Z) (a : App) : completion App :=
  let a :=
    match _autoUpdateTimeout a with
    | Null => a
    | r => with_autoUpdateTimeout Null (clearTimeout r a)
    end in
  let channel := Config.channel (_config a) in
  let observatory := Config.observatory (_config a) in
  let timemode := Config.timemode (_config a) in
  let '(endtime, starttime, autoUpdateTime) :=
    if (timemode =? "realtime")%string then
      let endtime := __roundUpToNearestNMinutes (new_Date (Num now)) 1 in
      (Some endtime,
       Some (new_Date (sub (getTime endtime) (Num 900000))),
       Some 300000)
    else if (timemode =? "pastday")%string then
      let endtime := __roundUpToNearestNMinutes (new_Date (Num now)) 5 in
      (Some endtime,
       Some (new_Date (sub (getTime endtime) (Num 86400000))),
       Some 300000)
    else
      (Config.endtime (_config a), Config.starttime (_config a), None) in
  (* endtime.getTime() - starttime.getTime(): a TypeError on null *)
  match endtime, starttime with
  | Some endtime, Some starttime =>
      let seconds :=
        le (sub (getTime endtime) (getTime starttime)) (Num 1800000) in
      let a := with_loading true a in
      let channels :=
        match observatory with
        | Some _ => Some (_channels a)
        | None => None
        end in
      let a :=
        getTimeseries
          {| req_channel := channel;
             req_observatory := observatory;
             req_channels := channels;
             req_endtime := endtime;
             req_starttime := starttime;
             req_seconds := seconds |} a in
      match autoUpdateTime with
      | Some ms =>
          let '(id, a) := setTimeout ms a in
          Normal (with_autoUpdateTimeout (TimeoutId id) a)
      | None => Normal a
      end
  | _, _ => Throw TypeError a
  end.

(** [_onAutoUpdate], lines 170-172. *)
Definition _onAutoUpdate (now : Z) (a : App) : completion App :=
  _onConfigChange now a.

(** [_onTimeseriesError], lines 247-250. *)
Definition _onTimeseriesError (a : App) : App :=
  with_timeseries [] (with_loading false a).

(** [_observatories.get(id)]: the entry with this id, or null. *)
Definition Collection_get (c : list Observatory.t) (id : string)
  : option Observatory.t :=
  find (fun o => (Observatory.id o =? id)%string) c.

(** The callback of [timeseries.forEach], lines 261-271. *)
Definition copy_metadata (obs : list Observatory.t) (t : Timeseries.t)
  : Timeseries.t :=
  let metadata := Timeseries.metadata t in
  match Collection_get obs (Metadata.observatory metadata) with
  | Some observatory =>
      Timeseries.mk (Timeseries.channel t)
        (Metadata.mk (Metadata.observatory metadata)
                     (Observatory.name observatory)
                     (Observatory.latitude observatory)
                     (Observatory.longitude observatory))
        (Timeseries.samples t)
  | None => t
  end.

(** Truthiness of a latitude key: absent, null and 0 are falsy. *)
Definition truthy_key (k : option Q) : bool :=
  match k with
  | Some q => negb (Qeq_bool q 0)
  | None => false
  end.

(** The number a truthy latitude key stands for. *)
Definition key_number (k : option Q) : Q :=
  match k with
  | Some q => q
  | None => 0%Q
  end.

(** The comparator given to [timeseries.sort], lines 273-293. *)
Definition compare_timeseries (a b : Timeseries.t) : Q :=
  let aMeta := Timeseries.metadata a in
  let bMeta := Timeseries.metadata b in
  let aKey := Metadata.latitude aMeta in
  let bKey := Metadata.latitude bMeta in
  if truthy_key aKey && truthy_key bKey
  then (key_number bKey - key_number aKey)%Q
  else
    let aKey := Metadata.observatory aMeta in
    let bKey := Metadata.observatory bMeta in
    if String.ltb aKey bKey then (-1)%Q
    else if String.ltb bKey aKey then 1%Q
    else 0%Q.

(** [Array.prototype.sort] with a comparator: the standard asks for a
    stable sort and leaves the method open; an insertion sort that moves an
    element past those it compares greater than is one such sort. *)
Fixpoint sort_insert {A : Type} (cmp : A -> A -> Q) (x : A) (l : list A)
  : list A :=
  match l with
  | [] => [x]
  | y :: l' =>
      if negb (Qle_bool (cmp x y) 0) then y :: sort_insert cmp x l'
      else x :: l
  end.

Fixpoint Array_sort {A : Type} (cmp : A -> A -> Q) (l : list A) : list A :=
  match l with
  | [] => []
  | x :: l' => sort_insert cmp x (Array_sort cmp l')
  end.

(** [_updateDescription], lines 304-339.  The title and the text are
    written to the page and are not modelled; what is kept is how the call
    ends: outside the realtime and pastday modes it formats the configured
    start and end. *)
Definition _updateDescription (a : App) : option exn :=
  let endtime := Config.endtime (_config a) in
  let starttime := Config.starttime (_config a) in
  let timemode := Config.timemode (_config a) in
  if (timemode =? "realtime")%string then None
  else if (timemode =? "pastday")%string then None
  else
    match __formatDate starttime with
    | Some e => Some e
    | None => __formatDate endtime
    end.

(** [_onTimeseriesLoad], lines 258-299.  [response] stands for
    [response.getTimeseries()]. *)
Definition _onTimeseriesLoad (response : list Timeseries.t) (a : App)
  : completion App :=
  let timeseries := map (copy_metadata (_observatories a)) response in
  let timeseries := Array_sort compare_timeseries timeseries in
  let a := with_timeseries timeseries a in
  match _updateDescription a with
  | Some e => Throw e a
  | None => Normal (with_loading false a)
  end.

(** *** The controller as a machine

    What can happen to a running application: [set] is called on the
    configuration, a pending timeout fires, or the factory answers a
    request.  [cycle] names the request an answer belongs to, counted from
    the first one; no handler reads it. *)
Inductive event : Type :=
| ConfigSet (p : Config.patch) (now : Z)
| TimeoutFires (id : nat) (now : Z)
| FetchLoads (cycle : nat) (response : list Timeseries.t)
| FetchFails (cycle : nat).

Definition state_of (c : completion App) : App :=
  match c with
  | Normal a => a
  | Throw _ a => a
  end.

(** One event, handled to the end; an exception ends the handler and
    leaves the state it reached.  [_onConfigChange] is a 'change' listener
    of the configuration (line 133): a [set] that changes a value runs it,
    a [set] that changes none leaves the values as they are and runs
    nothing. *)
Definition step (a : App) (e : event) : App :=
  match e with
  | ConfigSet p now =>
      if Config.anyChanged p (_config a)
      then state_of (_onConfigChange now
                       (with_config (Config.set p (_config a)) a))
      else a
  | TimeoutFires id now =>
      if existsb (fun t => Nat.eqb (fst t) id) (timers a)
      then state_of (_onAutoUpdate now (clearTimeout (TimeoutId id) a))
      else a
  | FetchLoads _ response => state_of (_onTimeseriesLoad response a)
  | FetchFails _ => _onTimeseriesError a
  end.

Definition run (a : App) (es : list event) : App := fold_left step es a.

(** The application when [_initialize] reaches its call of
    [_onConfigChange], line 164, with the reference collection given and
    no series yet. *)
Definition initial (channels : list string) (config : Config.t)
  (observatories : list Observatory.t) : App :=
  {| _autoUpdateTimeout := Undefined;
     _channels := channels;
     _config := config;
     _observatories := observatories;
     _timeseries := [];
     loading := false;
     timers := [];
     next_timer := 0;
     requests := [] |}.

End TimeseriesApp.

(** ** TimeseriesSelectView *)

Module TimeseriesSelectView.

Import JS ESDate.

(** [s.replace(pat, rep)] with a string pattern: the first occurrence. *)
Fixpoint replace_first (pat rep s : string) : string :=
  if prefix pat s
  then rep ++ substring (String.length pat)
                        (String.length s - String.length pat) s
  else
    match s with
    | EmptyString => EmptyString
    | String c s' => String c (replace_first pat rep s')
    end.

(** The elements of the page the handlers read and write. *)
Record View : Type := mkView {
  _timeCustom_checked : bool;
  _timeRealtime_checked : bool;
  _timePastday_checked : bool;
  _startTime_value : string;
  _endTime_value : string;
  (* the message shown in [_timeError], [None] when it is cleared *)
  _timeError : option string;
  (* [_timeEl.classList] contains 'custom' *)
  _timeEl_custom : bool
}.

Definition with_timeError (m : option string) (v : View) : View :=
  mkView (_timeCustom_checked v) (_timeRealtime_checked v)
         (_timePastday_checked v) (_startTime_value v) (_endTime_value v)
         m (_timeEl_custom v).

Definition with_timeEl_custom (b : bool) (v : View) : View :=
  mkView (_timeCustom_checked v) (_timeRealtime_checked v)
         (_timePastday_checked v) (_startTime_value v) (_endTime_value v)
         (_timeError v) b.

(** The element an event of the time controls comes from. *)
Inductive target : Type :=
| TimeRealtime
| TimePastday
| TimeCustom
| StartTime
| EndTime
| TimeUpdate.

Definition is_timeCustom (e : target) : bool :=
  match e with
  | TimeCustom => true
  | _ => false
  end.

(** A Date or null used as a number: null is 0. *)
Definition ToNumber (d : option Date) : num :=
  match d with
  | None => Num 0
  | Some d => DateValue d
  end.

(** [_onChannelClick], lines 162-171.  [id] is the [data-id] attribute of
    the element clicked, [None] when it has none.  The result is the
    argument of the [_config.set] call, [None] when there is no call. *)
Definition _onChannelClick (id : option string) : option Config.patch :=
  match id with
  | Some id =>
      if (id =? "")%string then None
      else Some {| Config.set_channel := Some (Some id);
                   Config.set_endtime := None;
                   Config.set_observatory := Some None;
                   Config.set_starttime := None;
                   Config.set_timemode := None |}
  | None => None
  end.

(** [_onObservatoryClick], lines 176-185. *)
Definition _onObservatoryClick (id : option string) : option Config.patch :=
  match id with
  | Some id =>
      if (id =? "")%string then None
      else Some {| Config.set_channel := Some None;
                   Config.set_endtime := None;
                   Config.set_observatory := Some (Some id);
                   Config.set_starttime := None;
                   Config.set_timemode := None |}
  | None => None
  end.

(** [_setTimeError], lines 251-261. *)
Definition _setTimeError (message : option string) (v : View) : View :=
  with_timeError message v.

(** [_timeOrder], lines 276-285. *)
Definition _timeOrder (start end_ : option Date) (v : View) : bool * View :=
  if gt (ToNumber start) (ToNumber end_)
  then (false,
        _setTimeError (Some "Start Time must come before End Time."%string) v)
  else (true, _setTimeError None v).

(** [_validateTime], lines 295-303. *)
Definition _validateTime (time : option Date) (v : View) : bool * View :=
  match time with
  | None =>
      (false, _setTimeError (Some "Please enter a valid time."%string) v)
  | Some d =>
      if isNaN (DateValue d)
      then (false, _setTimeError (Some "Please enter a valid time."%string) v)
      else (true, _setTimeError None v)
  end.

(** [_validateRange], lines 315-323. *)
Definition _validateRange (start end_ : option Date) (v : View)
  : bool * View :=
  if gt (sub (ToNumber end_) (ToNumber start)) (Num 2678400000)
  then (false,
        _setTimeError (Some "Please select less than 1 month of data."%string)
                      v)
  else (true, _setTimeError None v).

Section Parsing.

(** [Date.parse]: how an engine reads a string is its own business beyond
    the formats the standard fixes, so the parser is left open. *)
Variable Date_parse : string -> num.

(** [_parseDate], lines 236-243. *)
Definition _parseDate (s : string) : option Date :=
  if (s =? "")%string then None
  else
    Some (new_Date
            (Date_parse (replace_first "Z" "" (replace_first " " "T" s)
                         ++ "Z"))).

(** [_onTimeChange], lines 190-226.  The result is the view after the
    handler's own writes and the argument of its [_config.set] call,
    [None] when there is no call; the call is the last thing the handler
    does, the listeners of the configuration run inside it. *)
Definition _onTimeChange (e : target) (v : View)
  : View * option Config.patch :=
  if _timeCustom_checked v then
    let v := with_timeEl_custom true v in
    if is_timeCustom e then (v, None)
    else
      let endTime := _parseDate (_endTime_value v) in
      let startTime := _parseDate (_startTime_value v) in
      let '(ok, v) := _validateTime startTime v in
      if negb ok then (v, None) else
      let '(ok, v) := _validateTime endTime v in
      if negb ok then (v, None) else
      let '(ok, v) := _timeOrder startTime endTime v in
      if negb ok then (v, None) else
      let '(ok, v) := _validateRange startTime endTime v in
      if negb ok then (v, None) else
      (v, Some {| Config.set_channel := None;
                  Config.set_endtime := Some endTime;
                  Config.set_observatory := None;
                  Config.set_starttime := Some startTime;
                  Config.set_timemode := Some "custom"%string |})
  else
    let v := with_timeEl_custom false v in
    if _timeRealtime_checked v then
      (v, Some (Config.timemode_only "realtime"))
    else if _timePastday_checked v then
      (v, Some (Config.timemode_only "pastday"))
    else (v, None).

End Parsing.

(** The configuration after a handler: [set] is called with the patch,
    or not at all. *)
Definition commit (p : option Config.patch) (c : Config.t) : Config.t :=
  match p with
  | Some p => Config.set p c
  | None => c
  end.

(** The time controls told of a sequence of events, each with the page as
    it is then; the configuration takes the [set] calls in turn. *)
Definition handle_all (Date_parse : string -> num)
  (events : list (target * View)) (c : Config.t) : Config.t :=
  fold_left
    (fun c ev => commit (snd (_onTimeChange Date_parse (fst ev) (snd ev))) c)
    events c.

(** An event that can switch the mode without submitting times: a button
    other than custom is the checked one, or the custom button itself is
    the target. *)
Definition mode_switch (ev : target * View) : Prop :=
  _timeCustom_checked (snd ev) = false \/ fst ev = TimeCustom.

(** The browser checks a radio button of the group and unchecks the two
    others before it tells the handler. *)
Definition check_radio (e : target) (v : View) : View :=
  match e with
  | TimeRealtime =>
      mkView false true false (_startTime_value v) (_endTime_value v)
             (_timeError v) (_timeEl_custom v)
  | TimePastday =>
      mkView false false true (_startTime_value v) (_endTime_value v)
             (_timeError v) (_timeEl_custom v)
  | TimeCustom =>
      mkView true false false (_startTime_value v) (_endTime_value v)
             (_timeError v) (_timeEl_custom v)
  | _ => v
  end.

End TimeseriesSelectView.

(** ** The date-time strings of the standard

    [YYYY-MM-DDTHH:mm:ssZ], the one format every engine reads alike; the
    closed examples below parse their inputs with it.  Any other string is
    NaN here. *)

Module IsoFormat.

Import JS ESDate.

Definition digit (c : ascii) : option Z :=
  let n := Z.of_nat (nat_of_ascii c) in
  if (48 <=? n) && (n <=? 57) then Some (n - 48) else None.

Fixpoint digits (acc : Z) (l : list ascii) : option Z :=
  match l with
  | [] => Some acc
  | c :: l' =>
      match digit c with
      | Some d => digits (10 * acc + d) l'
      | None => None
      end
  end.

Definition DaysInMonth (y m : Z) : Z :=
  DayOfMonthStart m (isLeapYear y) - DayOfMonthStart (m - 1) (isLeapYear y).

Definition parse (s : string) : num :=
  match list_ascii_of_string s with
  | [y1; y2; y3; y4; "-"; m1; m2; "-"; d1; d2; "T";
     h1; h2; ":"; i1; i2; ":"; s1; s2; "Z"]%char =>
      match digits 0 [y1; y2; y3; y4], digits 0 [m1; m2], digits 0 [d1; d2],
            digits 0 [h1; h2], digits 0 [i1; i2], digits 0 [s1; s2] with
      | Some y, Some m, Some d, Some h, Some i, Some sec =>
          if (1 <=? m) && (m <=? 12) && (1 <=? d)
             && (d <=? (if m =? 12 then 31 else DaysInMonth y m))
             && (h <=? 23) && (i <=? 59) && (sec <=? 59)
          then Num (MakeDate (MakeDay y (m - 1) d) (MakeTime h i sec 0))
          else NaN
      | _, _, _, _, _, _ => NaN
      end
  | _ => NaN
  end.

End IsoFormat.

(** ** The rounding the specification describes

    "Truncate to whole minutes, then advance to the next multiple of [n]
    minutes; if already on a boundary, still advance by one full
    interval."  The minutes are those of the hour, as in the code. *)

Module Specification.

Import ESDate.

Definition roundUp (t n : Z) : Z :=
  let minute := msPerMinute * (t / msPerMinute) in
  let i := MinFromTime t in
  minute + msPerMinute * (n * (i / n + 1) - i).

End Specification.

(** ** The shape of a cycle

    Names for the parts of [_onConfigChange], used to state what a cycle
    does. *)

Module Cycle.

Import JS ESDate TimeseriesApp.

(** The first step of a cycle: the pending timeout is cancelled. *)
Definition cancelled (a : App) : App :=
  match _autoUpdateTimeout a with
  | Null => a
  | r => with_autoUpdateTimeout Null (clearTimeout r a)
  end.

(** The request and the delay a cycle settles on, when it gets that far:
    lines 200-217 and 221-225. *)
Definition live_request (a : App) (now n span : Z) : Request :=
  let endtime := __roundUpToNearestNMinutes (new_Date (Num now)) n in
  let starttime := new_Date (sub (getTime endtime) (Num span)) in
  {| req_channel := Config.channel (_config a);
     req_observatory := Config.observatory (_config a);
     req_channels :=
       match Config.observatory (_config a) with
       | Some _ => Some (_channels a)
       | None => None
       end;
     req_endtime := endtime;
     req_starttime := starttime;
     req_seconds := le (sub (getTime endtime) (getTime starttime))
                       (Num 1800000) |}.

Definition custom_request (a : App) (starttime endtime : Date) : Request :=
  {| req_channel := Config.channel (_config a);
     req_observatory := Config.observatory (_config a);
     req_channels :=
       match Config.observatory (_config a) with
       | Some _ => Some (_channels a)
       | None => None
       end;
     req_endtime := endtime;
     req_starttime := starttime;
     req_seconds := le (sub (getTime endtime) (getTime starttime))
                       (Num 1800000) |}.

Definition armed (ms : Z) (a : App) : App :=
  with_autoUpdateTimeout (TimeoutId (next_timer a)) (snd (setTimeout ms a)).

(** What the factory answered last in a trace, starting from [acc]. *)
Inductive answer : Type :=
| Loaded (response : list Timeseries.t)
| Failed.

Fixpoint last_answer (es : list event) (acc : option answer)
  : option answer :=
  match es with
  | [] => acc
  | FetchLoads _ response :: es' => last_answer es' (Some (Loaded response))
  | FetchFails _ :: es' => last_answer es' (Some Failed)
  | _ :: es' => last_answer es' acc
  end.

(** The set an answer leaves in the published collection. *)
Definition published_by (obs : list Observatory.t)
  (before : list Timeseries.t) (o : option answer) : list Timeseries.t :=
  match o with
  | None => before
  | Some (Loaded response) =>
      Array_sort compare_timeseries (map (copy_metadata obs) response)
  | Some Failed => []
  end.

End Cycle.

(** ** Concrete data for the closed examples *)

Module Examples.

Import JS ESDate TimeseriesApp.

Definition only_channel (c : string) : Config.patch :=
  {| Config.set_channel := Some (Some c);
     Config.set_endtime := None;
     Config.set_observatory := Some None;
     Config.set_starttime := None;
     Config.set_timemode := None |}.

(** The application with the default channels and configuration and an
    empty reference collection. *)
Definition default_app : App :=
  initial ["H"; "E"; "Z"; "F"]%string Config.defaults [].

(** The same with the realtime mode configured. *)
Definition realtime_app : App :=
  initial ["H"; "E"; "Z"; "F"]%string
          (Config.set (Config.timemode_only "realtime") Config.defaults) [].

(** 2021-01-01T00:03:00Z *)
Definition three_past_midnight : Z := 1609459380000.

Definition record (channel code : string) (latitude : option Q)
  : Timeseries.t :=
  Timeseries.mk channel (Metadata.mk code None latitude None) [].

(** The time controls with the custom button checked and the two inputs
    filled in. *)
Definition custom_view (start end_ : string) : TimeseriesSelectView.View :=
  TimeseriesSelectView.mkView true false false start end_ None true.

(** The time controls after the browser has checked another button. *)
Definition live_view (e : TimeseriesSelectView.target)
  : TimeseriesSelectView.View :=
  TimeseriesSelectView.check_radio e
    (custom_view "2021-01-01 00:00:00" "2021-01-02 00:00:00").

(** A configuration with custom times: the first two days of 2021. *)
Definition custom_config : Config.t :=
  {| Config.channel := Some "H"%string;
     Config.endtime := Some (mkDate (Num 1609545600000));
     Config.observatory := None;
     Config.starttime := Some (mkDate (Num 1609459200000));
     Config.timemode := "custom"%string |}.

Definition custom_app : App :=
  initial ["H"; "E"; "Z"; "F"]%string custom_config [].

End Examples.

(** ** Date.prototype.toISOString *)

Module ESDateText.

Import JS ESDate.

Definition digit_char (d : Z) : ascii := ascii_of_nat (48 + Z.to_nat d).

Definition pad2 (n : Z) : string :=
  String (digit_char (n / 10 mod 10)) (String (digit_char (n mod 10)) "").

Definition pad3 (n : Z) : string := String (digit_char (n / 100 mod 10)) (pad2 n).

Definition pad4 (n : Z) : string :=
  String (digit_char (n / 1000 mod 10)) (pad3 n).

Definition pad6 (n : Z) : string :=
  String (digit_char (n / 100000 mod 10))
         (String (digit_char (n / 10000 mod 10)) (pad4 n)).

(** The year: four digits from 0 to 9999, a sign and six digits
    otherwise. *)
Definition year_text (y : Z) : string :=
  if (0 <=? y) && (y <=? 9999) then pad4 y
  else if y <? 0 then ("-" ++ pad6 (Z.abs y))%string
  else ("+" ++ pad6 (Z.abs y))%string.

(** [YYYY-MM-DDTHH:mm:ss.sssZ] of a time value. *)
Definition ISOString (t : Z) : string :=
  (year_text (YearFromTime t) ++ "-" ++ pad2 (MonthFromTime t + 1) ++ "-"
   ++ pad2 (DateFromTime t) ++ "T" ++ pad2 (HourFromTime t) ++ ":"
   ++ pad2 (MinFromTime t) ++ ":" ++ pad2 (SecFromTime t) ++ "."
   ++ pad3 (msFromTime t) ++ "Z")%string.

(** [d.toISOString()]: a RangeError on the Invalid Date. *)
Definition toISOString (d : Date) : string + TimeseriesApp.exn :=
  match DateValue d with
  | NaN => inr TimeseriesApp.RangeError
  | Num t => inl (ISOString t)
  end.

End ESDateText.

(** ** The text the two files format dates to, and what the view shows *)

Module Rendering.

Import JS ESDate ESDateText TimeseriesApp TimeseriesSelectView.

Definition is_digit (c : ascii) : bool :=
  (48 <=? nat_of_ascii c)%nat && (nat_of_ascii c <=? 57)%nat.

(** A match of [/\.[\d]{3}Z/] at the start of [s]: what follows it. *)
Definition match_millis (s : string) : option string :=
  match s with
  | String dot (String a (String b (String c (String z rest)))) =>
      if Ascii.eqb dot "." && is_digit a && is_digit b && is_digit c
         && Ascii.eqb z "Z"
      then Some rest
      else None
  | _ => None
  end.

(** [s.replace(/\.[\d]{3}Z/, '')]: the first match is removed. *)
Fixpoint replace_millis (s : string) : string :=
  match match_millis s with
  | Some rest => rest
  | None =>
      match s with
      | EmptyString => EmptyString
      | String c s' => String c (replace_millis s')
      end
  end.

(** [_formatDate] of the view, lines 152-157, and [__formatDate] of the
    application, lines 48-53: the same text in both files. *)
Definition _formatDate (d : option Date) : string + exn :=
  match d with
  | None => inl ""%string
  | Some d =>
      match toISOString d with
      | inr e => inr e
      | inl s => inl (replace_millis (replace_first "T" " " s))
      end
  end.

(** [YYYY-MM-DD HH:MM:SS] of a time value whose year has four digits. *)
Definition seconds_text (t : Z) : string :=
  (pad4 (YearFromTime t) ++ "-" ++ pad2 (MonthFromTime t + 1) ++ "-"
   ++ pad2 (DateFromTime t) ++ " " ++ pad2 (HourFromTime t) ++ ":"
   ++ pad2 (MinFromTime t) ++ ":" ++ pad2 (SecFromTime t))%string.

(** [YYYY-MM-DDTHH:MM:SSZ] of the same. *)
Definition zulu_text (t : Z) : string :=
  (pad4 (YearFromTime t) ++ "-" ++ pad2 (MonthFromTime t + 1) ++ "-"
   ++ pad2 (DateFromTime t) ++ "T" ++ pad2 (HourFromTime t) ++ ":"
   ++ pad2 (MinFromTime t) ++ ":" ++ pad2 (SecFromTime t) ++ "Z")%string.

Definition with_endTime_value (s : string) (v : View) : View :=
  mkView (_timeCustom_checked v) (_timeRealtime_checked v)
         (_timePastday_checked v) (_startTime_value v) s
         (_timeError v) (_timeEl_custom v).

Definition with_startTime_value (s : string) (v : View) : View :=
  mkView (_timeCustom_checked v) (_timeRealtime_checked v)
         (_timePastday_checked v) s (_endTime_value v)
         (_timeError v) (_timeEl_custom v).

(** [render] of the view, lines 355-385, on the time controls: the two
    inputs and the radio buttons.  The two lists of links (lines 362-374)
    are page content and are left out. *)
Definition render (c : Config.t) (v : View) : completion View :=
  match _formatDate (Config.endtime c) with
  | inr e => Throw e v
  | inl endText =>
      let v := with_endTime_value endText v in
      match _formatDate (Config.starttime c) with
      | inr e => Throw e v
      | inl startText =>
          let v := with_startTime_value startText v in
          if (Config.timemode c =? "realtime")%string
          then Normal (check_radio TimeRealtime v)
          else if (Config.timemode c =? "pastday")%string
          then Normal (check_radio TimePastday v)
          else Normal (check_radio TimeCustom v)
      end
  end.

(** The page a [render] leaves, however it ends. *)
Definition state_of_view (r : completion View) : View :=
  match r with
  | Normal v => v
  | Throw _ v => v
  end.

(** A value used in a string concatenation: [undefined] and [null] give
    their names. *)
Definition text_or (missing : string) (o : option string) : string :=
  match o with
  | Some s => s
  | None => missing
  end.

(** [_updateDescription] of the application, lines 304-339, with the text
    it writes to the description element. *)
Definition _updateDescription_html (a : App) : string + exn :=
  let channel := Config.channel (_config a) in
  let endtime := Config.endtime (_config a) in
  let observatory := Config.observatory (_config a) in
  let starttime := Config.starttime (_config a) in
  let timemode := Config.timemode (_config a) in
  let '(title, description) :=
    match observatory with
    | Some observatory =>
        let title := observatory in
        let title :=
          match Collection_get (_observatories a) observatory with
          | Some obs =>
              (title ++ " " ++ text_or "null" (Observatory.name obs))%string
          | None => title
          end in
        (Some (title ++ " Observatory")%string,
         Some "all observatory channels"%string)
    | None =>
        match channel with
        | Some channel =>
            (Some (channel ++ " Channel")%string,
             Some "all observatories with this channel."%string)
        | None => (None, None)
        end
    end in
  let timeDescription :=
    if (timemode =? "realtime")%string then inl "Past 15 Minutes"%string
    else if (timemode =? "pastday")%string then inl "Past day"%string
    else
      match _formatDate starttime with
      | inr e => inr e
      | inl s =>
          match _formatDate endtime with
          | inr e => inr e
          | inl e => inl (s ++ " - " ++ e)%string
          end
      end in
  match timeDescription with
  | inr e => inr e
  | inl timeDescription =>
      inl ("<h2>" ++ text_or "undefined" title ++ "</h2>"
           ++ "<p>" ++ timeDescription ++ ", "
           ++ text_or "undefined" description ++ "</p>")%string
  end.

End Rendering.

(** ** The events of the selection view *)

Module Selection.

Import JS ESDate TimeseriesSelectView.

Inductive ui_event : Type :=
| ChannelClick (id : option string)
| ObservatoryClick (id : option string)
| TimeChange (e : target) (v : View).

(** The three messages of the validators. *)
Definition valid_message : string := "Please enter a valid time."%string.
Definition order_message : string :=
  "Start Time must come before End Time."%string.
Definition span_message : string :=
  "Please select less than 1 month of data."%string.

(** The object literal of the commit in [_onTimeChange], lines 208-212. *)
Definition custom_patch (startTime endTime : option Date) : Config.patch :=
  {| Config.set_channel := None;
     Config.set_endtime := Some endTime;
     Config.set_observatory := None;
     Config.set_starttime := Some startTime;
     Config.set_timemode := Some "custom"%string |}.

(** The mode a radio button of the group stands for. *)
Definition radio_mode (e : target) : string :=
  match e with
  | TimeRealtime => "realtime"
  | TimePastday => "pastday"
  | _ => "custom"
  end.

(** The [_config.set] call an event leads to, if any. *)
Definition ui_set (Date_parse : string -> num) (ev : ui_event)
  : option Config.patch :=
  match ev with
  | ChannelClick id => _onChannelClick id
  | ObservatoryClick id => _onObservatoryClick id
  | TimeChange e v => snd (_onTimeChange Date_parse e v)
  end.

Definition ui_step (Date_parse : string -> num) (c : Config.t)
  (ev : ui_event) : Config.t :=
  commit (ui_set Date_parse ev) c.

Definition ui_run (Date_parse : string -> num) (c : Config.t)
  (evs : list ui_event) : Config.t :=
  fold_left (ui_step Date_parse) evs c.

(** A configuration a cycle can resolve: a live mode, or a start and an
    end that are valid dates, in order and at most 31 days apart. *)
Definition resolvable (c : Config.t) : Prop :=
  Config.timemode c = "realtime"%string
  \/ Config.timemode c = "pastday"%string
  \/ exists s e : Z,
       Config.starttime c = Some (mkDate (Num s))
       /\ Config.endtime c = Some (mkDate (Num e))
       /\ s <= e <= s + 2678400000.

End Selection.

(** ** Strings *)

Module Text.

(** The character [c] occurs in [s]. *)
Fixpoint occurs (c : ascii) (s : string) : bool :=
  match s with
  | EmptyString => false
  | String c' s' => Ascii.eqb c' c || occurs c s'
  end.

End Text.

(** ** Order and timers *)

Module Order.

Import JS TimeseriesApp.

(** What identifies a record apart from the reference attributes. *)
Definition identity (t : Timeseries.t)
  : string * string * list (Z * Q) :=
  (Timeseries.channel t, Metadata.observatory (Timeseries.metadata t),
   Timeseries.samples t).

Definition has_latitude (t : Timeseries.t) : Prop :=
  exists q : Q,
    Metadata.latitude (Timeseries.metadata t) = Some q /\ ~ (q == 0)%Q.

(** No latitude the comparator can use: absent, null or 0. *)
Definition no_latitude (t : Timeseries.t) : Prop :=
  truthy_key (Metadata.latitude (Timeseries.metadata t)) = false.

Definition latitude_of (t : Timeseries.t) : Q :=
  key_number (Metadata.latitude (Timeseries.metadata t)).

Definition code_of (t : Timeseries.t) : string :=
  Metadata.observatory (Timeseries.metadata t).

(** At most one timeout is pending: the one the application holds, with
    the refresh delay. *)
Definition one_timer (a : App) : Prop :=
  timers a = []
  \/ exists id : nat,
       _autoUpdateTimeout a = TimeoutId id /\ timers a = [(id, 300000)].

(** Every pending timeout has a handle already given out. *)
Definition handles_given (a : App) : Prop :=
  Forall (fun t => (fst t < next_timer a)%nat) (timers a).

End Order.


(** ** More concrete data *)

Module MoreExamples.

Import JS ESDate TimeseriesApp TimeseriesSelectView Examples.

(** The realtime application after its first cycle. *)
Definition armed_app : App :=
  state_of (_onConfigChange three_past_midnight realtime_app).

(** A reference collection and an answer with three observatories. *)
Definition reference : list Observatory.t :=
  [Observatory.mk "BOU" (Some "Boulder") (Some (40 # 1)) (Some (-105 # 1));
   Observatory.mk "BRW" (Some "Barrow") (Some (71 # 1)) (Some (-156 # 1));
   Observatory.mk "HON" (Some "Honolulu") (Some (21 # 1)) (Some (-158 # 1))]%string.

Definition answer : list Timeseries.t :=
  [record "H" "HON" None; record "H" "BRW" None; record "H" "BOU" None].

Definition reference_app : App :=
  initial ["H"; "E"; "Z"; "F"]%string custom_config reference.

(** Three records that compare in a circle. *)
Definition south : Timeseries.t := record "H" "AAA" (Some (10 # 1)).
Definition unplaced : Timeseries.t := record "H" "BBB" None.
Definition north : Timeseries.t := record "H" "CCC" (Some (50 # 1)).

(** 2021-01-01T00:00:00.500Z *)
Definition half_past : Z := 1609459200500.

End MoreExamples.
Module ESDateFacts.

Import JS ESDate.

(** [YearFromDay] is the year the standard defines: the last one that
    starts on or before day [d]. *)
Lemma YearFromDay_spec (d : Z) :
  DayFromYear (YearFromDay d) <= d < DayFromYear (YearFromDay d + 1).
Proof.
  unfold YearFromDay.
  set (y0 := 1970 + 400 * d / 146097).
  assert (Hq : 146097 * (y0 - 1970) <= 400 * d < 146097 * (y0 - 1970) + 146097).
  { unfold y0. Z.div_mod_to_equations. lia. }
  clearbody y0.
  destruct (Z.ltb_spec d (DayFromYear y0)) as [H1|H1].
  - replace (y0 - 1 + 1) with y0 by lia.
    split; [|exact H1]. unfold DayFromYear. Z.div_mod_to_equations. lia.
  - destruct (Z.leb_spec (DayFromYear (y0 + 1)) d) as [H2|H2].
    + split; [exact H2|]. unfold DayFromYear. Z.div_mod_to_equations. lia.
    + lia.
Qed.

(** A year has 365 or 366 days. *)
Lemma DayFromYear_succ (y : Z) :
  DayFromYear (y + 1) = DayFromYear y + DaysInYear y.
Proof.
  unfold DayFromYear, DaysInYear, isLeapYear.
  destruct (Z.eqb_spec (y mod 4) 0), (Z.eqb_spec (y mod 100) 0),
    (Z.eqb_spec (y mod 400) 0); cbn [negb]; Z.div_mod_to_equations; lia.
Qed.

Lemma DayFromYear_mono (y y' : Z) : y <= y' -> DayFromYear y <= DayFromYear y'.
Proof.
  intros H. unfold DayFromYear. Z.div_mod_to_equations. lia.
Qed.

(** [YearFromDay] inverts [DayFromYear] on every day of the year. *)
Lemma YearFromDay_unique (d y : Z) :
  DayFromYear y <= d < DayFromYear (y + 1) -> YearFromDay d = y.
Proof.
  intros [Hlo Hhi].
  pose proof (YearFromDay_spec d) as [Hlo' Hhi'].
  destruct (Z.lt_trichotomy (YearFromDay d) y) as [Hlt|[Heq|Hgt]]; [|exact Heq|].
  - pose proof (DayFromYear_mono (YearFromDay d + 1) y ltac:(lia)). lia.
  - pose proof (DayFromYear_mono (y + 1) (YearFromDay d) ltac:(lia)). lia.
Qed.

(** In the words of the standard: the largest year that starts no later
    than [t]. *)
Lemma YearFromTime_largest (t : Z) :
  TimeFromYear (YearFromTime t) <= t
  /\ forall y : Z, TimeFromYear y <= t -> y <= YearFromTime t.
Proof.
  unfold TimeFromYear, YearFromTime.
  pose proof (YearFromDay_spec (Day t)) as [Hlo Hhi].
  assert (Ht : msPerDay * Day t <= t < msPerDay * Day t + msPerDay).
  { unfold Day, msPerDay. Z.div_mod_to_equations. lia. }
  unfold msPerDay in *. split; [lia|].
  intros y Hy.
  destruct (Z.le_gt_cases y (YearFromDay (Day t))) as [H|H]; [exact H|].
  pose proof (DayFromYear_mono (YearFromDay (Day t) + 1) y ltac:(lia)). lia.
Qed.

Lemma DayWithinYear_range (t : Z) :
  0 <= DayWithinYear t < DaysInYear (YearFromTime t).
Proof.
  unfold DayWithinYear, YearFromTime.
  pose proof (YearFromDay_spec (Day t)) as H.
  rewrite DayFromYear_succ in H. lia.
Qed.

Lemma MonthFromTime_range (t : Z) : 0 <= MonthFromTime t <= 11.
Proof.
  unfold MonthFromTime.
  repeat match goal with
         | |- context [if ?b then _ else _] => destruct b
         end; lia.
Qed.

(** The calendar fields of a time value give back its day number. *)
Lemma MakeDay_fields (t : Z) :
  MakeDay (YearFromTime t) (MonthFromTime t) (DateFromTime t) = Day t.
Proof.
  unfold MakeDay.
  pose proof (MonthFromTime_range t) as Hm.
  rewrite (Z.div_small (MonthFromTime t) 12) by lia.
  rewrite (Z.mod_small (MonthFromTime t) 12) by lia.
  rewrite Z.add_0_r.
  unfold DateFromTime, MonthFromTime, InLeapYear, DayWithinYear.
  destruct (isLeapYear (YearFromTime t));
    repeat match goal with
           | |- context [if ?b then _ else _] =>
               destruct b; [cbn [DayOfMonthStart]; lia|]
           end; cbn [DayOfMonthStart]; lia.
Qed.

Lemma Day_TimeFromYear (y k : Z) :
  Day (msPerDay * (DayFromYear y + k)) = DayFromYear y + k.
Proof.
  unfold Day, msPerDay. rewrite Z.mul_comm. apply Z.div_mul. lia.
Qed.

(** The day [MakeDay] computes for the first of a month is the day the
    standard asks for: its year is [y], its month [mn] and its date 1. *)
Lemma MakeDay_first (y mn : Z) :
  0 <= mn <= 11 ->
  let t := msPerDay * MakeDay y mn 1 in
  YearFromTime t = y /\ MonthFromTime t = mn /\ DateFromTime t = 1.
Proof.
  intros Hm t.
  assert (Ht : Day t = DayFromYear y + DayOfMonthStart mn (isLeapYear y)).
  { unfold t, MakeDay. rewrite (Z.div_small mn 12), (Z.mod_small mn 12) by lia.
    rewrite Z.add_0_r.
    replace (DayFromYear y + DayOfMonthStart mn (isLeapYear y) + 1 - 1)
      with (DayFromYear y + DayOfMonthStart mn (isLeapYear y)) by lia.
    apply Day_TimeFromYear. }
  assert (Hc : mn = 0 \/ mn = 1 \/ mn = 2 \/ mn = 3 \/ mn = 4 \/ mn = 5 \/ mn = 6
               \/ mn = 7 \/ mn = 8 \/ mn = 9 \/ mn = 10 \/ mn = 11) by lia.
  assert (Hy : YearFromTime t = y).
  { unfold YearFromTime. rewrite Ht. apply YearFromDay_unique.
    rewrite DayFromYear_succ. unfold DaysInYear.
    destruct (isLeapYear y);
      repeat (destruct Hc as [Hc|Hc]; [subst mn; cbn; lia|]); subst mn; cbn; lia. }
  assert (Hd : DayWithinYear t = DayOfMonthStart mn (isLeapYear y)).
  { unfold DayWithinYear. rewrite Hy, Ht. lia. }
  split; [exact Hy|].
  unfold DateFromTime, MonthFromTime, InLeapYear. rewrite Hy, Hd.
  destruct (isLeapYear y);
    repeat (destruct Hc as [Hc|Hc]; [subst mn; split; reflexivity|]);
    subst mn; split; reflexivity.
Qed.

(** Hours and minutes of a time value, put back on its day, give the time
    value truncated to its minute. *)
Lemma MakeDate_fields (t : Z) :
  MakeDate (Day t) (MakeTime (HourFromTime t) (MinFromTime t) 0 0)
  = msPerMinute * (t / msPerMinute).
Proof.
  unfold MakeDate, MakeTime, Day, HourFromTime, MinFromTime, msPerDay,
    msPerHour, msPerMinute, msPerSecond, HoursPerDay, MinutesPerHour.
  Z.div_mod_to_equations. lia.
Qed.

End ESDateFacts.

(** ** The minute rounding *)

Module RoundUpFacts.

Import JS ESDate ESDateFacts TimeseriesApp.

Lemma TimeClip_idem (v : num) : TimeClip (TimeClip v) = TimeClip v.
Proof.
  destruct v as [|t]; [reflexivity|]. cbn.
  destruct (Z.abs t >? maxTimeValue) eqn:E; cbn; [reflexivity|].
  rewrite E. reflexivity.
Qed.

Lemma TimeClip_in_range (t : Z) :
  Z.abs t <= maxTimeValue -> TimeClip (Num t) = Num t.
Proof.
  intros H. cbn. destruct (Z.gtb_spec (Z.abs t) maxTimeValue); [lia|reflexivity].
Qed.

Lemma TimeClip_out_of_range (t : Z) :
  maxTimeValue < Z.abs t -> TimeClip (Num t) = NaN.
Proof.
  intros H. cbn. destruct (Z.gtb_spec (Z.abs t) maxTimeValue); [reflexivity|lia].
Qed.

Lemma MakeFullYear_id (y : Z) : ~ 0 <= y <= 99 -> MakeFullYear y = y.
Proof.
  intros H. unfold MakeFullYear.
  destruct (Z.leb_spec 0 y), (Z.leb_spec y 99); cbn; lia.
Qed.

(** The code's next multiple and the specification's are the same
    number. *)
Lemma next_multiple (i n : Z) : 0 < n -> n * ((i + n) / n) = n * (i / n + 1).
Proof.
  intros Hn. f_equal.
  replace (i + n) with (i + 1 * n) by lia.
  rewrite Z.div_add by lia. reflexivity.
Qed.

(** What the function computes on a valid date, for any interval but 0:
    the calendar fields are put back together with the minutes replaced,
    the year going through the two-digit rule of [Date.UTC]. *)
Lemma roundUp_unfold (t n : Z) :
  n <> 0 ->
  __roundUpToNearestNMinutes (mkDate (Num t)) n
  = new_Date
      (TimeClip
         (Num (MakeDate
                 (MakeDay (MakeFullYear (YearFromTime t)) (MonthFromTime t)
                          (DateFromTime t))
                 (MakeTime (HourFromTime t)
                           (n * ((MinFromTime t + n) / n)) 0 0)))).
Proof.
  intros Hn. unfold __roundUpToNearestNMinutes.
  destruct (Z.eqb_spec n 0) as [E|_]; [contradiction|].
  unfold getUTCFullYear, getUTCMonth, getUTCDate, getUTCHours, getUTCMinutes,
    on_time.
  cbn [DateValue add floor_div mul].
  destruct (Z.eqb_spec n 0) as [E|_]; [contradiction|].
  reflexivity.
Qed.

(** Outside the years 0 to 99 the function is the specification's
    rounding, clipped to the range of a Date. *)
Lemma roundUp_value (t n : Z) :
  0 < n ->
  ~ 0 <= YearFromTime t <= 99 ->
  __roundUpToNearestNMinutes (mkDate (Num t)) n
  = mkDate (TimeClip (Num (Specification.roundUp t n))).
Proof.
  intros Hn Hy.
  rewrite roundUp_unfold by lia.
  rewrite MakeFullYear_id by exact Hy.
  rewrite MakeDay_fields.
  unfold new_Date. rewrite TimeClip_idem. do 3 f_equal.
  unfold Specification.roundUp.
  rewrite <- next_multiple by exact Hn.
  rewrite <- MakeDate_fields.
  unfold MakeDate, MakeTime. lia.
Qed.

Lemma roundUp_invalid (n : Z) :
  __roundUpToNearestNMinutes (mkDate NaN) n = mkDate NaN.
Proof. reflexivity. Qed.

(** The specification's rounding: a whole minute, after the truncated
    minute by at most [n] minutes, a multiple of [n] minutes past the
    hour, and the least one after the minute of [t]. *)
Lemma spec_roundUp_bounds (t n : Z) :
  0 < n ->
  let r := Specification.roundUp t n in
  let minute := msPerMinute * (t / msPerMinute) in
  r mod msPerMinute = 0
  /\ minute < r <= minute + n * msPerMinute
  /\ t < r.
Proof.
  intros Hn r minute. unfold r, minute, Specification.roundUp, MinFromTime,
    msPerMinute, MinutesPerHour.
  set (m := t / 60000).
  set (i := m mod 60).
  assert (Hk : i < n * (i / n + 1) <= i + n).
  { pose proof (Z.div_mod i n ltac:(lia)).
    pose proof (Z.mod_pos_bound i n Hn). lia. }
  set (k := n * (i / n + 1)) in *.
  assert (Ht : 60000 * m <= t < 60000 * m + 60000).
  { unfold m. pose proof (Z.div_mod t 60000 ltac:(lia)).
    pose proof (Z.mod_pos_bound t 60000 ltac:(lia)). lia. }
  repeat split; try lia.
  replace (60000 * m + 60000 * (k - i)) with ((m + (k - i)) * 60000) by lia.
  apply Z.mod_mul. lia.
Qed.

(** Its minutes past the start of the hour of [t] are the least multiple
    of [n] greater than the minute of [t]. *)
Lemma spec_roundUp_multiple (t n : Z) :
  0 < n ->
  let hour := msPerHour * (t / msPerHour) in
  let i := MinFromTime t in
  exists k : Z,
    Specification.roundUp t n = hour + (k * n) * msPerMinute
    /\ i < k * n
    /\ (k - 1) * n <= i.
Proof.
  intros Hn hour i. exists (i / n + 1).
  unfold hour, i, Specification.roundUp, MinFromTime, msPerMinute, msPerHour,
    MinutesPerHour.
  set (m := t / 60000).
  assert (Hh : t / 3600000 = m / 60).
  { unfold m. rewrite Z.div_div by lia. reflexivity. }
  rewrite Hh.
  pose proof (Z.div_mod m 60 ltac:(lia)).
  pose proof (Z.div_mod (m mod 60) n ltac:(lia)).
  pose proof (Z.mod_pos_bound (m mod 60) n Hn).
  repeat split; nia.
Qed.

(** Seconds and milliseconds play no part. *)
Lemma spec_roundUp_truncates (t n : Z) :
  Specification.roundUp (msPerMinute * (t / msPerMinute)) n
  = Specification.roundUp t n.
Proof.
  unfold Specification.roundUp, MinFromTime, msPerMinute.
  replace (60000 * (t / 60000) / 60000) with (t / 60000); [reflexivity|].
  rewrite Z.mul_comm, Z.div_mul by lia. reflexivity.
Qed.

(** For an interval that divides the hour, the rounding is the next
    multiple of the interval counted from the epoch. *)
Lemma spec_roundUp_epoch (t n : Z) :
  0 < n -> 60 mod n = 0 ->
  Specification.roundUp t n
  = (n * msPerMinute) * (t / (n * msPerMinute) + 1).
Proof.
  intros Hn Hd. unfold Specification.roundUp, MinFromTime, msPerMinute,
    MinutesPerHour.
  apply Z.mod_divide in Hd; [|lia]. destruct Hd as [q Hq].
  rewrite (Z.mul_comm n 60000), <- (Z.div_div t 60000 n) by lia.
  set (m := t / 60000).
  assert (Hi : m mod 60 / n = m / n - q * (m / 60)).
  { pose proof (Z.div_mod m 60 ltac:(lia)) as Hm.
    pose proof (Z.mod_pos_bound m 60 ltac:(lia)) as Hb.
    rewrite Hq in Hm at 1.
    replace m with (m mod 60 + (q * (m / 60)) * n) at 2 by lia.
    rewrite Z.div_add by lia. lia. }
  rewrite Hi.
  pose proof (Z.div_mod m 60 ltac:(lia)) as Hm.
  assert (E : n * (q * (m / 60)) = 60 * (m / 60)) by (rewrite Hq; ring).
  replace (n * (m / n - q * (m / 60) + 1))
    with (n * (m / n) - 60 * (m / 60) + n) by (rewrite <- E; ring).
  replace (60000 * n * (m / n + 1)) with (60000 * (n * (m / n) + n)) by ring.
  lia.
Qed.

End RoundUpFacts.

(** ** The rounding, stated *)

Module RoundUpTheorems.

Import JS ESDate ESDateFacts TimeseriesApp RoundUpFacts.

Lemma Day_truncate (t : Z) : Day (msPerMinute * (t / msPerMinute)) = Day t.
Proof.
  unfold Day, msPerMinute, msPerDay.
  change 86400000 with (60000 * 1440).
  rewrite <- (Z.div_div t 60000 1440) by lia.
  rewrite <- (Z.div_div (60000 * (t / 60000)) 60000 1440) by lia.
  rewrite (Z.mul_comm 60000 (t / 60000)), Z.div_mul by lia. reflexivity.
Qed.

Lemma YearFromTime_truncate (t : Z) :
  YearFromTime (msPerMinute * (t / msPerMinute)) = YearFromTime t.
Proof. unfold YearFromTime. rewrite Day_truncate. reflexivity. Qed.

Lemma spec_roundUp_boundary (t n : Z) :
  0 < n -> 60 mod n = 0 ->
  Specification.roundUp t n mod (n * msPerMinute) = 0.
Proof.
  intros Hn Hd.
  destruct (spec_roundUp_multiple t n Hn) as (k & -> & _).
  apply Z.mod_divide; [unfold msPerMinute; lia|].
  apply Z.mod_divide in Hd; [|lia]. destruct Hd as [q Hq].
  exists (q * (t / msPerHour) + k).
  unfold msPerHour, msPerMinute.
  replace 3600000 with (q * n * 60000) by lia. ring.
Qed.

(** C5.  [t] is a reading of the clock, the only argument the function is
    ever given (lines 202 and 206, with [n] 1 and 5): its UTC year is not
    one of 0..99 and the rounded instant is within the range of a Date.
    For a positive number [n] of minutes the function discards seconds and
    milliseconds and returns the next multiple of [n] minutes after the
    truncated minute of [t]: a whole minute, after the truncated minute by
    at most [n] minutes and never [t] itself; when the minute of [t] is on
    a boundary the result is a full [n] minutes further.  The multiples are
    counted from the start of the hour; when [n] divides 60 these are the
    multiples of [n] minutes of the clock, and the result is the least of
    them after [t]. *)
Theorem roundUp_next_interval (t n : Z) :
  0 < n ->
  ~ 0 <= YearFromTime t <= 99 ->
  Z.abs (Specification.roundUp t n) <= maxTimeValue ->
  let r := Specification.roundUp t n in
  let minute := msPerMinute * (t / msPerMinute) in
  __roundUpToNearestNMinutes (mkDate (Num t)) n = mkDate (Num r)
  /\ __roundUpToNearestNMinutes (mkDate (Num minute)) n = mkDate (Num r)
  /\ r mod msPerMinute = 0
  /\ minute < r <= minute + n * msPerMinute
  /\ t < r
  /\ (exists k : Z,
        r = msPerHour * (t / msPerHour) + (k * n) * msPerMinute
        /\ MinFromTime t < k * n
        /\ (k - 1) * n <= MinFromTime t)
  /\ (MinFromTime t mod n = 0 -> r = minute + n * msPerMinute)
  /\ (60 mod n = 0 ->
      r mod (n * msPerMinute) = 0
      /\ r = (n * msPerMinute) * (t / (n * msPerMinute) + 1)
      /\ (minute mod (n * msPerMinute) = 0 -> r = minute + n * msPerMinute)).
Proof.
  intros Hn Hy Hr r minute.
  destruct (spec_roundUp_bounds t n Hn) as (Hm & Hb & Hlt).
  split; [|split; [|split; [|split; [|split; [|split; [|split]]]]]].
  - rewrite roundUp_value by assumption.
    fold r. rewrite TimeClip_in_range by exact Hr. reflexivity.
  - unfold minute. rewrite roundUp_value;
      [|exact Hn|rewrite YearFromTime_truncate; exact Hy].
    rewrite spec_roundUp_truncates. fold r.
    rewrite TimeClip_in_range by exact Hr. reflexivity.
  - exact Hm.
  - exact Hb.
  - exact Hlt.
  - apply spec_roundUp_multiple. exact Hn.
  - intros Hon. unfold r, minute, Specification.roundUp.
    pose proof (Z.div_mod (MinFromTime t) n ltac:(lia)) as Hdm.
    rewrite Hon in Hdm.
    replace (n * (MinFromTime t / n + 1) - MinFromTime t) with n by lia.
    ring.
  - intros Hd.
    pose proof (spec_roundUp_boundary t n Hn Hd) as Hbd. fold r in Hbd.
    split; [exact Hbd|]. split; [apply spec_roundUp_epoch; assumption|].
    intros Hon. cbv zeta in Hb. fold r minute in Hb.
    unfold msPerMinute in *.
    assert (Hp : 0 < n * 60000) by lia.
    apply Z.mod_divide in Hbd; [|lia]. destruct Hbd as [q Hq].
    apply Z.mod_divide in Hon; [|lia]. destruct Hon as [q' Hq'].
    rewrite Hq, Hq' in Hb.
    assert (H1 : q' < q).
    { apply (Z.mul_lt_mono_pos_r (n * 60000)); lia. }
    assert (H2 : q <= q' + 1).
    { apply (Z.mul_le_mono_pos_r _ _ (n * 60000)); lia. }
    rewrite Hq, Hq'. replace q with (q' + 1) by lia. ring.
Qed.

(** The two examples of the specification: 00:03 goes to 00:05 and 00:05
    goes to 00:10, on 2021-01-01. *)
Lemma roundUp_next_interval_witness :
  (0 < 5
   /\ ~ 0 <= YearFromTime 1609459380000 <= 99
   /\ Z.abs (Specification.roundUp 1609459380000 5) <= maxTimeValue)
  /\ __roundUpToNearestNMinutes
       (mkDate (IsoFormat.parse "2021-01-01T00:03:00Z")) 5
     = mkDate (IsoFormat.parse "2021-01-01T00:05:00Z")
  /\ __roundUpToNearestNMinutes
       (mkDate (IsoFormat.parse "2021-01-01T00:05:00Z")) 5
     = mkDate (IsoFormat.parse "2021-01-01T00:10:00Z").
Proof.
  assert (H1 : 0 < 5) by lia.
  assert (H2 : ~ 0 <= YearFromTime 1609459380000 <= 99)
    by (vm_compute; intros [_ H]; apply H; reflexivity).
  assert (H3 : Z.abs (Specification.roundUp 1609459380000 5) <= maxTimeValue)
    by (vm_compute; discriminate).
  assert (H2' : ~ 0 <= YearFromTime 1609459500000 <= 99)
    by (vm_compute; intros [_ H]; apply H; reflexivity).
  assert (H3' : Z.abs (Specification.roundUp 1609459500000 5) <= maxTimeValue)
    by (vm_compute; discriminate).
  split; [split; [exact H1|split; [exact H2|exact H3]]|].
  split.
  - exact (proj1 (roundUp_next_interval 1609459380000 5 H1 H2 H3)).
  - exact (proj1 (roundUp_next_interval 1609459500000 5 H1 H2' H3')).
Defined.

(** Why the year is asked not to be one of 0 to 99, which no clock
    reads: [Date.UTC] takes such a year as 1900 to 1999, so three minutes
    past midnight on 0050-01-01 would go to five past midnight on
    1950-01-01. *)
Lemma roundUp_two_digit_year :
  IsoFormat.parse "0050-01-01T00:03:00Z" = Num (-60589295820000)
  /\ __roundUpToNearestNMinutes (mkDate (Num (-60589295820000))) 5
     = mkDate (IsoFormat.parse "1950-01-01T00:05:00Z")
  /\ Specification.roundUp (-60589295820000) 5 = -60589295700000
  /\ IsoFormat.parse "0050-01-01T00:05:00Z" = Num (-60589295700000)
  /\ __roundUpToNearestNMinutes (mkDate (Num (-60589295820000))) 5
     <> mkDate (Num (Specification.roundUp (-60589295820000) 5)).
Proof.
  repeat split; try (vm_compute; reflexivity).
  vm_compute. discriminate.
Qed.

(** And why the result is asked to be within the range of a Date: the
    last instant a Date can hold would go to the Invalid Date. *)
Lemma roundUp_end_of_range :
  __roundUpToNearestNMinutes (mkDate (Num maxTimeValue)) 5 = mkDate NaN.
Proof. vm_compute. reflexivity. Qed.

End RoundUpTheorems.

(** ** The configuration-change cycle *)

Module CycleFacts.

Import JS ESDate ESDateFacts TimeseriesApp Cycle RoundUpFacts.

Lemma cancelled_frame (a : App) :
  _config (cancelled a) = _config a
  /\ _channels (cancelled a) = _channels a
  /\ requests (cancelled a) = requests a
  /\ loading (cancelled a) = loading a
  /\ _timeseries (cancelled a) = _timeseries a
  /\ next_timer (cancelled a) = next_timer a.
Proof.
  unfold cancelled. destruct (_autoUpdateTimeout a); repeat split.
Qed.

Lemma cancelled_timeout (a : App) :
  _autoUpdateTimeout (cancelled a) = Null.
Proof.
  unfold cancelled. destruct (_autoUpdateTimeout a) eqn:E; auto.
Qed.

Lemma onConfigChange_realtime (now : Z) (a : App) :
  Config.timemode (_config a) = "realtime"%string ->
  _onConfigChange now a
  = Normal (armed 300000
              (getTimeseries (live_request (cancelled a) now 1 900000)
                 (with_loading true (cancelled a)))).
Proof.
  intros Hm. unfold _onConfigChange. fold (cancelled a).
  destruct (cancelled_frame a) as (Hc & _).
  rewrite <- Hc in Hm. rewrite Hm. reflexivity.
Qed.

Lemma onConfigChange_pastday (now : Z) (a : App) :
  Config.timemode (_config a) = "pastday"%string ->
  _onConfigChange now a
  = Normal (armed 300000
              (getTimeseries (live_request (cancelled a) now 5 86400000)
                 (with_loading true (cancelled a)))).
Proof.
  intros Hm. unfold _onConfigChange. fold (cancelled a).
  destruct (cancelled_frame a) as (Hc & _).
  rewrite <- Hc in Hm. rewrite Hm. reflexivity.
Qed.

Lemma onConfigChange_custom (now : Z) (a : App) :
  Config.timemode (_config a) <> "realtime"%string ->
  Config.timemode (_config a) <> "pastday"%string ->
  _onConfigChange now a
  = match Config.endtime (_config a), Config.starttime (_config a) with
    | Some endtime, Some starttime =>
        Normal (getTimeseries (custom_request (cancelled a) starttime endtime)
                  (with_loading true (cancelled a)))
    | _, _ => Throw TypeError (cancelled a)
    end.
Proof.
  intros Hr Hp. unfold _onConfigChange. fold (cancelled a).
  destruct (cancelled_frame a) as (Hc & _).
  rewrite <- Hc in *.
  destruct (String.eqb_spec (Config.timemode (_config (cancelled a)))
              "realtime"); [contradiction|].
  destruct (String.eqb_spec (Config.timemode (_config (cancelled a)))
              "pastday"); [contradiction|].
  destruct (Config.endtime (_config (cancelled a))) as [e|];
    destruct (Config.starttime (_config (cancelled a))) as [s|]; reflexivity.
Qed.

(** The flag of a request is the comparison of line 213. *)
Lemma le_sub_true (e s c : Z) : le (sub (Num e) (Num s)) (Num c) = true <-> e - s <= c.
Proof. cbn. apply Z.leb_le. Qed.

Lemma le_sub_valid (x y c : num) :
  le (sub x y) c = true -> exists e s, x = Num e /\ y = Num s.
Proof.
  destruct x as [|e], y as [|s]; cbn; try discriminate. eauto.
Qed.

(** A Date built by [new Date] from a number in range keeps it. *)
Lemma new_Date_sub (d : Date) (e span : Z) :
  getTime d = Num e ->
  Z.abs (e - span) <= maxTimeValue ->
  getTime (new_Date (sub (getTime d) (Num span))) = Num (e - span).
Proof.
  intros He Hr. rewrite He. cbn [sub]. unfold new_Date, getTime.
  cbn [DateValue]. apply TimeClip_in_range. exact Hr.
Qed.

(** A [set] that changes no value leaves the configuration as it is. *)
Lemma set_unchanged (p : Config.patch) (c : Config.t) :
  Config.anyChanged p c = false -> Config.set p c = c.
Proof.
  destruct p as [pc pe po ps pm], c as [c e o s m].
  unfold Config.anyChanged, Config.set, Config.named, Config.upd.
  cbn [Config.set_channel Config.set_endtime Config.set_observatory
       Config.set_starttime Config.set_timemode Config.channel
       Config.endtime Config.observatory Config.starttime Config.timemode].
  intros H.
  apply orb_false_iff in H. destruct H as [H Hm].
  apply orb_false_iff in H. destruct H as [H Hs].
  apply orb_false_iff in H. destruct H as [H Ho].
  apply orb_false_iff in H. destruct H as [Hc He].
  assert (Ec : match pc with Some v => v | None => c end = c).
  { destruct pc as [[x|]|], c as [y|]; cbn in Hc; try discriminate Hc;
      try reflexivity.
    apply negb_false_iff, String.eqb_eq in Hc. subst. reflexivity. }
  assert (Eo : match po with Some v => v | None => o end = o).
  { destruct po as [[x|]|], o as [y|]; cbn in Ho; try discriminate Ho;
      try reflexivity.
    apply negb_false_iff, String.eqb_eq in Ho. subst. reflexivity. }
  assert (Ee : match pe with Some v => v | None => e end = e).
  { destruct pe as [[x|]|], e as [y|]; cbn in He; try discriminate He;
      reflexivity. }
  assert (Est : match ps with Some v => v | None => s end = s).
  { destruct ps as [[x|]|], s as [y|]; cbn in Hs; try discriminate Hs;
      reflexivity. }
  assert (Em : match pm with Some v => v | None => m end = m).
  { destruct pm as [x|]; [|reflexivity].
    apply negb_false_iff, String.eqb_eq in Hm. exact Hm. }
  rewrite Ec, Eo, Ee, Est, Em. reflexivity.
Qed.

End CycleFacts.

(** ** What the controller guarantees *)

Module ControllerTheorems.

Import JS ESDate ESDateFacts TimeseriesApp Cycle RoundUpFacts CycleFacts.

Lemma armed_fields (ms : Z) (a : App) :
  _autoUpdateTimeout (armed ms a) = TimeoutId (next_timer a)
  /\ timers (armed ms a) = (next_timer a, ms) :: timers a
  /\ requests (armed ms a) = requests a
  /\ loading (armed ms a) = loading a
  /\ _timeseries (armed ms a) = _timeseries a
  /\ _observatories (armed ms a) = _observatories a
  /\ _config (armed ms a) = _config a.
Proof. repeat split. Qed.

Lemma live_cycle (now n span : Z) (a : App) :
  let r := live_request (cancelled a) now n span in
  let a' := armed 300000 (getTimeseries r (with_loading true (cancelled a))) in
  requests a' = r :: requests a
  /\ req_endtime r = __roundUpToNearestNMinutes (new_Date (Num now)) n
  /\ req_starttime r = new_Date (sub (getTime (req_endtime r)) (Num span))
  /\ (forall e : Z,
        getTime (req_endtime r) = Num e ->
        Z.abs (e - span) <= maxTimeValue ->
        getTime (req_starttime r) = Num (e - span))
  /\ _autoUpdateTimeout a' = TimeoutId (next_timer a)
  /\ In (next_timer a, 300000) (timers a').
Proof.
  intros r a'. destruct (cancelled_frame a) as (_ & _ & Hr & _ & _ & Hn).
  repeat split.
  - unfold a'. cbn. rewrite Hr. reflexivity.
  - intros e He Hab. cbn [req_starttime req_endtime r live_request] in *.
    apply new_Date_sub; assumption.
  - unfold a'. cbn. rewrite Hn. reflexivity.
  - unfold a'. cbn. rewrite Hn. left. reflexivity.
Qed.

Lemma seconds_flag (x y : num) :
  le (sub x y) (Num 1800000) = true
  <-> exists e s : Z, x = Num e /\ y = Num s /\ e - s <= 1800000.
Proof.
  split.
  - intros H. destruct (le_sub_valid _ _ _ H) as (e & s & -> & ->).
    exists e, s. repeat split. apply le_sub_true. exact H.
  - intros (e & s & -> & -> & H). apply le_sub_true. exact H.
Qed.

(** C4.  In realtime mode the cycle asks for the window that ends at
    [now] rounded up to the next minute and starts 900000 ms before, and
    arms a timeout of 300000 ms; in pastday mode the window ends at [now]
    rounded up to the next 5 minutes and starts 86400000 ms before, with
    the same timeout; and whenever a cycle issues its request, the
    seconds flag of the request is true exactly when end minus start is at
    most 1800000 ms. *)
Theorem window_resolution (now : Z) (a : App) :
  (Config.timemode (_config a) = "realtime"%string ->
   exists (a' : App) (r : Request) (id : nat),
     _onConfigChange now a = Normal a'
     /\ requests a' = r :: requests a
     /\ req_endtime r = __roundUpToNearestNMinutes (new_Date (Num now)) 1
     /\ req_starttime r = new_Date (sub (getTime (req_endtime r)) (Num 900000))
     /\ (forall e : Z,
           getTime (req_endtime r) = Num e ->
           Z.abs (e - 900000) <= maxTimeValue ->
           getTime (req_starttime r) = Num (e - 900000))
     /\ _autoUpdateTimeout a' = TimeoutId id
     /\ In (id, 300000) (timers a'))
  /\ (Config.timemode (_config a) = "pastday"%string ->
      exists (a' : App) (r : Request) (id : nat),
        _onConfigChange now a = Normal a'
        /\ requests a' = r :: requests a
        /\ req_endtime r = __roundUpToNearestNMinutes (new_Date (Num now)) 5
        /\ req_starttime r
           = new_Date (sub (getTime (req_endtime r)) (Num 86400000))
        /\ (forall e : Z,
              getTime (req_endtime r) = Num e ->
              Z.abs (e - 86400000) <= maxTimeValue ->
              getTime (req_starttime r) = Num (e - 86400000))
        /\ _autoUpdateTimeout a' = TimeoutId id
        /\ In (id, 300000) (timers a'))
  /\ (forall a' : App,
        _onConfigChange now a = Normal a' ->
        exists r : Request,
          requests a' = r :: requests a
          /\ (req_seconds r = true
              <-> exists e s : Z,
                    getTime (req_endtime r) = Num e
                    /\ getTime (req_starttime r) = Num s
                    /\ e - s <= 1800000)).
Proof.
  split; [|split].
  - intros Hm. rewrite (onConfigChange_realtime now a Hm).
    destruct (live_cycle now 1 900000 a) as (H1 & H2 & H3 & H4 & H5 & H6).
    eexists _, _, _. split; [reflexivity|].
    split; [exact H1|]. split; [exact H2|]. split; [exact H3|].
    split; [exact H4|]. split; [exact H5|exact H6].
  - intros Hm. rewrite (onConfigChange_pastday now a Hm).
    destruct (live_cycle now 5 86400000 a) as (H1 & H2 & H3 & H4 & H5 & H6).
    eexists _, _, _. split; [reflexivity|].
    split; [exact H1|]. split; [exact H2|]. split; [exact H3|].
    split; [exact H4|]. split; [exact H5|exact H6].
  - intros a' Ha'.
    destruct (cancelled_frame a) as (_ & _ & Hr & _).
    destruct (string_dec (Config.timemode (_config a)) "realtime") as [Hm|Hm];
      [|destruct (string_dec (Config.timemode (_config a)) "pastday")
          as [Hp|Hp]].
    + rewrite (onConfigChange_realtime now a Hm) in Ha'.
      injection Ha' as <-. eexists. split.
      * cbn. rewrite Hr. reflexivity.
      * apply seconds_flag.
    + rewrite (onConfigChange_pastday now a Hp) in Ha'.
      injection Ha' as <-. eexists. split.
      * cbn. rewrite Hr. reflexivity.
      * apply seconds_flag.
    + rewrite (onConfigChange_custom now a Hm Hp) in Ha'.
      destruct (Config.endtime (_config a)) as [e|]; [|discriminate].
      destruct (Config.starttime (_config a)) as [s|]; [|discriminate].
      injection Ha' as <-. eexists. split.
      * cbn. rewrite Hr. reflexivity.
      * apply seconds_flag.
Qed.

(** C10.  Outside the realtime and pastday modes the cycle takes the
    configured start and end as they are: with both present the request
    carries them unchanged and no timeout is armed; with either one null
    the cycle ends in a TypeError before any request is issued, the
    loading mark is not set and no timeout is armed. *)
Theorem custom_window_needs_dates (now : Z) (a : App) :
  Config.timemode (_config a) <> "realtime"%string ->
  Config.timemode (_config a) <> "pastday"%string ->
  (forall s e : Date,
     Config.starttime (_config a) = Some s ->
     Config.endtime (_config a) = Some e ->
     exists (a' : App) (r : Request),
       _onConfigChange now a = Normal a'
       /\ requests a' = r :: requests a
       /\ req_starttime r = s
       /\ req_endtime r = e
       /\ req_seconds r = le (sub (getTime e) (getTime s)) (Num 1800000)
       /\ loading a' = true
       /\ _autoUpdateTimeout a' = Null)
  /\ (Config.starttime (_config a) = None
      \/ Config.endtime (_config a) = None ->
      exists a' : App,
        _onConfigChange now a = Throw TypeError a'
        /\ requests a' = requests a
        /\ loading a' = loading a
        /\ _timeseries a' = _timeseries a
        /\ _autoUpdateTimeout a' = Null).
Proof.
  intros Hr Hp. rewrite (onConfigChange_custom now a Hr Hp).
  destruct (cancelled_frame a) as (_ & _ & Hq & Hl & Ht & _).
  pose proof (cancelled_timeout a) as Hn.
  split.
  - intros s e -> ->. eexists _, _. split; [reflexivity|].
    split; [cbn; rewrite Hq; reflexivity|].
    repeat (split; [reflexivity|]). exact Hn.
  - intros Hnull.
    exists (cancelled a).
    destruct (Config.endtime (_config a)) as [e|],
      (Config.starttime (_config a)) as [s|];
      try (repeat split; assumption).
    destruct Hnull; discriminate.
Qed.

Lemma published_by_load (response : list Timeseries.t) (a : App) :
  _timeseries (state_of (_onTimeseriesLoad response a))
  = Array_sort compare_timeseries
      (map (copy_metadata (_observatories a)) response)
  /\ _observatories (state_of (_onTimeseriesLoad response a))
     = _observatories a.
Proof.
  unfold _onTimeseriesLoad.
  destruct (_updateDescription _); split; reflexivity.
Qed.

Lemma onConfigChange_keeps (now : Z) (a : App) :
  _timeseries (state_of (_onConfigChange now a)) = _timeseries a
  /\ _observatories (state_of (_onConfigChange now a)) = _observatories a.
Proof.
  assert (Hc : _timeseries (cancelled a) = _timeseries a
               /\ _observatories (cancelled a) = _observatories a).
  { unfold cancelled. destruct (_autoUpdateTimeout a) as [| |id]; split;
      try reflexivity; destruct a; reflexivity. }
  destruct (string_dec (Config.timemode (_config a)) "realtime") as [Hm|Hm];
    [|destruct (string_dec (Config.timemode (_config a)) "pastday")
        as [Hp|Hp]].
  - rewrite (onConfigChange_realtime now a Hm). exact Hc.
  - rewrite (onConfigChange_pastday now a Hp). exact Hc.
  - rewrite (onConfigChange_custom now a Hm Hp).
    destruct (Config.endtime (_config a)), (Config.starttime (_config a));
      exact Hc.
Qed.

Lemma ConfigSet_keeps (p : Config.patch) (now : Z) (a : App) :
  _timeseries (step a (ConfigSet p now)) = _timeseries a
  /\ _observatories (step a (ConfigSet p now)) = _observatories a.
Proof.
  cbn [step]. destruct (Config.anyChanged p (_config a));
    [|split; reflexivity].
  destruct (onConfigChange_keeps now (with_config (Config.set p (_config a)) a))
    as [H1 H2].
  rewrite H1, H2. split; reflexivity.
Qed.

Lemma clearTimeout_keeps (r : timeout_ref) (a : App) :
  _timeseries (clearTimeout r a) = _timeseries a
  /\ _observatories (clearTimeout r a) = _observatories a.
Proof. destruct r; split; reflexivity. Qed.

(** No event but an answer of the factory touches the published set, and
    no event at all touches the reference collection. *)
Lemma step_keeps (a : App) (e : event) :
  _observatories (step a e) = _observatories a
  /\ _timeseries (step a e)
     = published_by (_observatories a) (_timeseries a) (last_answer [e] None).
Proof.
  destruct e as [p now|id now|k response|k]; cbn [last_answer published_by].
  - destruct (ConfigSet_keeps p now a) as [H1 H2]. split; assumption.
  - cbn [step]. destruct (existsb _ (timers a)); [|split; reflexivity].
    unfold _onAutoUpdate.
    destruct (onConfigChange_keeps now (clearTimeout (TimeoutId id) a))
      as [H1 H2].
    destruct (clearTimeout_keeps (TimeoutId id) a) as [H3 H4].
    rewrite H1, H2, H3, H4. split; reflexivity.
  - cbn [step]. destruct (published_by_load response a) as [H1 H2].
    split; assumption.
  - split; reflexivity.
Qed.

(** After any trace the published set is the one the last answer left. *)
Lemma run_publishes_last_answer (es : list event) :
  forall (a : App) (obs : list Observatory.t) (before : list Timeseries.t)
         (acc : option answer),
    _observatories a = obs ->
    _timeseries a = published_by obs before acc ->
    _observatories (run a es) = obs
    /\ _timeseries (run a es) = published_by obs before (last_answer es acc).
Proof.
  induction es as [|e es IH]; intros a obs before acc Ho Ht.
  - split; assumption.
  - cbn [run fold_left]. fold (run (step a e) es).
    destruct (step_keeps a e) as [Ho' Ht'].
    destruct e as [p now|id now|k response|k];
      cbn [last_answer published_by] in *;
      apply IH; try congruence.
    all: rewrite Ht'; try rewrite Ho; reflexivity.
Qed.

(** C1 (as amended).  The controller keeps no cycle token: a completion
    is published when it arrives, whichever request it answers.  After
    any sequence of events the published set is the one left by the
    answer that arrived last: its records, merged and sorted, or the empty
    set if it was a failure.  So when the fetch of an earlier cycle
    completes after the fetch of a later one, its records replace those of
    the later cycle. *)
Theorem completion_always_published
  (a : App) (es : list event)
  (p1 p2 : Config.patch) (now1 now2 : Z)
  (earlier later : list Timeseries.t) :
  _timeseries (run a es)
  = published_by (_observatories a) (_timeseries a) (last_answer es None)
  /\ _timeseries
       (run a [ConfigSet p1 now1; ConfigSet p2 now2;
               FetchLoads 1 later; FetchLoads 0 earlier])
     = Array_sort compare_timeseries
         (map (copy_metadata (_observatories a)) earlier).
Proof.
  split.
  - apply (run_publishes_last_answer es a (_observatories a) (_timeseries a)
             None); reflexivity.
  - apply (run_publishes_last_answer
             [ConfigSet p1 now1; ConfigSet p2 now2;
              FetchLoads 1 later; FetchLoads 0 earlier]
             a (_observatories a) (_timeseries a) None); reflexivity.
Qed.

(** What a live cycle asks for when the clock is in the ordinary range:
    the numbers of the window and the flag. *)
Lemma live_window_values (now n span : Z) (a : App) :
  0 < n ->
  ~ 0 <= YearFromTime now <= 99 ->
  Z.abs now <= maxTimeValue ->
  Z.abs (Specification.roundUp now n) <= maxTimeValue ->
  Z.abs (Specification.roundUp now n - span) <= maxTimeValue ->
  let r := live_request (cancelled a) now n span in
  req_endtime r = mkDate (Num (Specification.roundUp now n))
  /\ req_starttime r = mkDate (Num (Specification.roundUp now n - span))
  /\ req_seconds r = (span <=? 1800000).
Proof.
  intros Hn Hy Hnow Hr Hs r.
  assert (He : req_endtime r = mkDate (Num (Specification.roundUp now n))).
  { unfold r, live_request. cbn [req_endtime]. unfold new_Date.
    rewrite TimeClip_in_range by exact Hnow.
    rewrite roundUp_value by assumption.
    rewrite TimeClip_in_range by exact Hr. reflexivity. }
  assert (Hst : req_starttime r
                = mkDate (Num (Specification.roundUp now n - span))).
  { change (req_starttime r)
      with (new_Date (sub (getTime (req_endtime r)) (Num span))).
    rewrite He. cbn [getTime DateValue sub]. unfold new_Date.
    rewrite TimeClip_in_range by exact Hs. reflexivity. }
  split; [exact He|]. split; [exact Hst|].
  change (req_seconds r)
    with (le (sub (getTime (req_endtime r)) (getTime (req_starttime r)))
             (Num 1800000)).
  rewrite He, Hst. cbn [getTime DateValue sub le]. f_equal. lia.
Qed.

(** C2 (as amended).  A failed fetch clears the loading mark and
    replaces the published set by the empty one; it leaves the timeout
    alone.  In realtime and pastday modes the timeout of 300000 ms that
    the cycle armed when it started is therefore still pending after the
    failure; in the other modes the cycle armed none and none is armed
    after the failure. *)
Theorem fetch_error_clears_results (now : Z) (k : nat) (a : App) :
  (let a' := step a (FetchFails k) in
   loading a' = false
   /\ _timeseries a' = []
   /\ _autoUpdateTimeout a' = _autoUpdateTimeout a
   /\ timers a' = timers a)
  /\ (Config.timemode (_config a) = "realtime"%string
      \/ Config.timemode (_config a) = "pastday"%string ->
      let a' := step (state_of (_onConfigChange now a)) (FetchFails k) in
      loading a' = false
      /\ _timeseries a' = []
      /\ exists id : nat,
           _autoUpdateTimeout a' = TimeoutId id
           /\ In (id, 300000) (timers a'))
  /\ (Config.timemode (_config a) <> "realtime"%string ->
      Config.timemode (_config a) <> "pastday"%string ->
      let a' := step (state_of (_onConfigChange now a)) (FetchFails k) in
      loading a' = false
      /\ _timeseries a' = []
      /\ _autoUpdateTimeout a' = Null).
Proof.
  split; [|split].
  - repeat split.
  - intros [Hm|Hm].
    + rewrite (onConfigChange_realtime now a Hm).
      repeat split. eexists. split; [reflexivity|]. left. reflexivity.
    + rewrite (onConfigChange_pastday now a Hm).
      repeat split. eexists. split; [reflexivity|]. left. reflexivity.
  - intros Hr Hp. rewrite (onConfigChange_custom now a Hr Hp).
    pose proof (cancelled_timeout a) as Hn.
    destruct (Config.endtime (_config a)), (Config.starttime (_config a));
      repeat split; exact Hn.
Qed.

End ControllerTheorems.

(** ** The selection view *)

Module SelectViewTheorems.

Import JS ESDate TimeseriesSelectView.

Section Handler.

Variable Date_parse : string -> num.

(** What the time-change handler does with a submitted pair of valid
    dates: the two [_validateTime] calls pass, the order and the span
    decide. *)
Lemma onTimeChange_valid (e : target) (v : View) (s en : Z) :
  _timeCustom_checked v = true ->
  is_timeCustom e = false ->
  _parseDate Date_parse (_startTime_value v) = Some (mkDate (Num s)) ->
  _parseDate Date_parse (_endTime_value v) = Some (mkDate (Num en)) ->
  _onTimeChange Date_parse e v
  = if s >? en
    then (with_timeError (Some "Start Time must come before End Time."%string)
            (with_timeEl_custom true v), None)
    else if en - s >? 2678400000
    then (with_timeError
            (Some "Please select less than 1 month of data."%string)
            (with_timeEl_custom true v), None)
    else (with_timeError None (with_timeEl_custom true v),
          Some {| Config.set_channel := None;
                  Config.set_endtime := Some (Some (mkDate (Num en)));
                  Config.set_observatory := None;
                  Config.set_starttime := Some (Some (mkDate (Num s)));
                  Config.set_timemode := Some "custom"%string |}).
Proof.
  intros Hc He Hs Hen. unfold _onTimeChange. rewrite Hc, He.
  cbn [with_timeEl_custom _endTime_value _startTime_value].
  rewrite Hs, Hen.
  unfold _validateTime, _timeOrder, _validateRange, _setTimeError.
  cbn [DateValue isNaN negb ToNumber gt sub].
  destruct (s >? en); cbn [negb]; [reflexivity|].
  destruct (en - s >? 2678400000); reflexivity.
Qed.

(** A submitted pair of valid dates with start after end: validation
    reports "Start Time must come before End Time." and the handler does
    not call [set]; nothing is committed and the two are not swapped. *)
Lemma start_after_end_rejected (e : target) (v : View) (s en : Z) :
  _timeCustom_checked v = true ->
  is_timeCustom e = false ->
  _parseDate Date_parse (_startTime_value v) = Some (mkDate (Num s)) ->
  _parseDate Date_parse (_endTime_value v) = Some (mkDate (Num en)) ->
  s > en ->
  _timeError (fst (_onTimeChange Date_parse e v))
  = Some "Start Time must come before End Time."%string
  /\ snd (_onTimeChange Date_parse e v) = None
  /\ forall c : Config.t,
       commit (snd (_onTimeChange Date_parse e v)) c = c.
Proof.
  intros Hc He Hs Hen Hgt.
  rewrite (onTimeChange_valid e v s en Hc He Hs Hen).
  destruct (Z.gtb_spec s en) as [_|Hle]; [|lia].
  repeat split.
Qed.

(** C3, where the code departs from it.  A submitted pair in which start
    and end are the same valid date is not rejected: [_timeOrder] tests
    [start > end], which is false for equal dates, so the order check
    passes, no message is left and the pair is committed with the mode
    custom.  The comment of [_timeOrder] and its message, "Start Time must
    come before End Time.", ask for start before end. *)
Theorem equal_times_committed (e : target) (v : View) (d : Z) (c : Config.t) :
  _timeCustom_checked v = true ->
  is_timeCustom e = false ->
  _parseDate Date_parse (_startTime_value v) = Some (mkDate (Num d)) ->
  _parseDate Date_parse (_endTime_value v) = Some (mkDate (Num d)) ->
  fst (_timeOrder (Some (mkDate (Num d))) (Some (mkDate (Num d))) v) = true
  /\ _timeError (fst (_onTimeChange Date_parse e v)) = None
  /\ _timeError (fst (_onTimeChange Date_parse e v))
     <> Some "Start Time must come before End Time."%string
  /\ snd (_onTimeChange Date_parse e v)
     = Some {| Config.set_channel := None;
               Config.set_endtime := Some (Some (mkDate (Num d)));
               Config.set_observatory := None;
               Config.set_starttime := Some (Some (mkDate (Num d)));
               Config.set_timemode := Some "custom"%string |}
  /\ (let c' := commit (snd (_onTimeChange Date_parse e v)) c in
      Config.starttime c' = Some (mkDate (Num d))
      /\ Config.endtime c' = Some (mkDate (Num d))
      /\ Config.timemode c' = "custom"%string).
Proof.
  intros Hc He Hs Hen.
  rewrite (onTimeChange_valid e v d d Hc He Hs Hen).
  unfold _timeOrder. cbn [ToNumber DateValue gt].
  destruct (Z.gtb_spec d d) as [Hgt|_]; [lia|].
  destruct (Z.gtb_spec (d - d) 2678400000) as [Hsp|_]; [lia|].
  cbn [fst snd _timeError with_timeError commit].
  split; [reflexivity|]. split; [reflexivity|]. split; [discriminate|].
  split; [reflexivity|]. repeat split.
Qed.

(** C7.  For every submitted custom pair of valid dates, validation
    reports "Please select less than 1 month of data." and commits
    nothing exactly when end minus start exceeds 2678400000 ms; a span of
    exactly 2678400000 ms passes, the error is cleared and the pair is
    committed. *)
Theorem month_span_limit (e : target) (v : View) (s en : Z) :
  _timeCustom_checked v = true ->
  is_timeCustom e = false ->
  _parseDate Date_parse (_startTime_value v) = Some (mkDate (Num s)) ->
  _parseDate Date_parse (_endTime_value v) = Some (mkDate (Num en)) ->
  (_timeError (fst (_onTimeChange Date_parse e v))
   = Some "Please select less than 1 month of data."%string
   /\ snd (_onTimeChange Date_parse e v) = None
   <-> en - s > 2678400000)
  /\ (en - s = 2678400000 ->
      _timeError (fst (_onTimeChange Date_parse e v)) = None
      /\ snd (_onTimeChange Date_parse e v)
         = Some {| Config.set_channel := None;
                   Config.set_endtime := Some (Some (mkDate (Num en)));
                   Config.set_observatory := None;
                   Config.set_starttime := Some (Some (mkDate (Num s)));
                   Config.set_timemode := Some "custom"%string |}).
Proof.
  intros Hc He Hs Hen.
  rewrite (onTimeChange_valid e v s en Hc He Hs Hen).
  destruct (Z.gtb_spec s en) as [Hgt|Hle];
    [|destruct (Z.gtb_spec (en - s) 2678400000) as [Hsp|Hsp]];
    cbn [fst snd _timeError with_timeError].
  - split; [split|]; [intros [H _]; discriminate H|lia|lia].
  - split; [split|]; [lia|intros _; split; reflexivity|lia].
  - split; [split|]; [intros [H _]; discriminate H|lia|].
    intros _. split; reflexivity.
Qed.

(** What the handler does when a radio button other than custom is the
    checked one: it writes the mode and nothing else. *)
Lemma onTimeChange_live (e : target) (v : View) :
  _timeCustom_checked v = false ->
  snd (_onTimeChange Date_parse e v)
  = if _timeRealtime_checked v then Some (Config.timemode_only "realtime")
    else if _timePastday_checked v then Some (Config.timemode_only "pastday")
    else None.
Proof.
  intros Hc. unfold _onTimeChange. rewrite Hc.
  cbn [with_timeEl_custom _timeRealtime_checked _timePastday_checked].
  destruct (_timeRealtime_checked v); [reflexivity|].
  destruct (_timePastday_checked v); reflexivity.
Qed.

Lemma onTimeChange_custom_radio (v : View) :
  _timeCustom_checked v = true ->
  snd (_onTimeChange Date_parse TimeCustom v) = None.
Proof.
  intros Hc. unfold _onTimeChange. rewrite Hc. reflexivity.
Qed.

Lemma onTimeChange_mode_switch (ev : target * View) (c : Config.t) :
  mode_switch ev ->
  let c' := commit (snd (_onTimeChange Date_parse (fst ev) (snd ev))) c in
  Config.starttime c' = Config.starttime c
  /\ Config.endtime c' = Config.endtime c
  /\ Config.channel c' = Config.channel c
  /\ Config.observatory c' = Config.observatory c.
Proof.
  destruct ev as [e v]. unfold mode_switch. cbn [fst snd].
  destruct (_timeCustom_checked v) eqn:Hc.
  - intros [H|H]; [discriminate H|]. subst e.
    rewrite (onTimeChange_custom_radio v Hc). repeat split.
  - intros _. rewrite (onTimeChange_live e v Hc).
    destruct (_timeRealtime_checked v); [repeat split|].
    destruct (_timePastday_checked v); repeat split.
Qed.

Lemma handle_all_mode_switches (events : list (target * View)) :
  forall c : Config.t,
    Forall mode_switch events ->
    Config.starttime (handle_all Date_parse events c) = Config.starttime c
    /\ Config.endtime (handle_all Date_parse events c) = Config.endtime c
    /\ Config.channel (handle_all Date_parse events c) = Config.channel c
    /\ Config.observatory (handle_all Date_parse events c)
       = Config.observatory c.
Proof.
  induction events as [|ev events IH]; intros c Hall.
  - repeat split.
  - inversion Hall as [|ev' events' Hev Hrest]; subst.
    destruct (onTimeChange_mode_switch ev c Hev) as (H1 & H2 & H3 & H4).
    unfold handle_all. cbn [fold_left].
    destruct (IH (commit (snd (_onTimeChange Date_parse (fst ev) (snd ev))) c)
                Hrest) as (I1 & I2 & I3 & I4).
    unfold handle_all in I1, I2, I3, I4.
    rewrite I1, I2, I3, I4. repeat split; assumption.
Qed.

End Handler.

(** C8.  A click on a channel sets the channel and clears the
    observatory in one [set]; a click on an observatory sets the
    observatory and clears the channel in one [set]; after either, at
    most one of the two is non-null, and the times and the mode are as
    before. *)
Theorem selection_is_exclusive (id : string) (c : Config.t) :
  id <> ""%string ->
  let c1 := commit (_onChannelClick (Some id)) c in
  let c2 := commit (_onObservatoryClick (Some id)) c in
  (Config.channel c1 = Some id /\ Config.observatory c1 = None)
  /\ (Config.observatory c2 = Some id /\ Config.channel c2 = None)
  /\ (Config.channel c1 = None \/ Config.observatory c1 = None)
  /\ (Config.channel c2 = None \/ Config.observatory c2 = None)
  /\ (Config.starttime c1 = Config.starttime c
      /\ Config.endtime c1 = Config.endtime c
      /\ Config.timemode c1 = Config.timemode c)
  /\ (Config.starttime c2 = Config.starttime c
      /\ Config.endtime c2 = Config.endtime c
      /\ Config.timemode c2 = Config.timemode c).
Proof.
  intros Hid c1 c2. unfold c1, c2, _onChannelClick, _onObservatoryClick.
  destruct (String.eqb_spec id "") as [E|_]; [contradiction|].
  cbn. repeat split; auto.
Qed.

(** A click that hits no item of the list writes nothing. *)
Lemma click_without_id :
  _onChannelClick None = None /\ _onChannelClick (Some ""%string) = None
  /\ _onObservatoryClick None = None
  /\ _onObservatoryClick (Some ""%string) = None.
Proof. repeat split. Qed.

End SelectViewTheorems.

(** ** The theorems at concrete inputs *)

Module ControllerExamples.

Import JS ESDate TimeseriesApp Cycle Examples ControllerTheorems.

(** Realtime at 2021-01-01T00:03:00Z: the window is 23:49 to 00:04, at
    seconds resolution, and the refresh is armed. *)
Lemma window_resolution_witness :
  Config.timemode (_config realtime_app) = "realtime"%string
  /\ exists (a' : App) (r : Request) (id : nat),
       _onConfigChange three_past_midnight realtime_app = Normal a'
       /\ requests a' = [r]
       /\ req_endtime r = mkDate (IsoFormat.parse "2021-01-01T00:04:00Z")
       /\ req_starttime r = mkDate (IsoFormat.parse "2020-12-31T23:49:00Z")
       /\ req_seconds r = true
       /\ In (id, 300000) (timers a').
Proof.
  split; [reflexivity|].
  destruct (window_resolution three_past_midnight realtime_app)
    as (Hrt & _ & Hflag).
  destruct (Hrt eq_refl) as (a' & r & id & Ha & Hq & He & Hs & Hn & _ & Hin).
  assert (Hev : getTime (req_endtime r) = Num 1609459440000)
    by (rewrite He; vm_compute; reflexivity).
  assert (Hsv : getTime (req_starttime r) = Num (1609459440000 - 900000))
    by (apply Hn; [exact Hev|vm_compute; discriminate]).
  exists a', r, id.
  split; [exact Ha|]. split; [exact Hq|].
  split; [rewrite He; vm_compute; reflexivity|].
  split; [rewrite Hs, He; vm_compute; reflexivity|].
  split; [|exact Hin].
  destruct (Hflag a' Ha) as (r' & Hq' & Hiff).
  assert (Er : r' = r) by congruence. subst r'.
  apply Hiff. exists 1609459440000, (1609459440000 - 900000).
  split; [exact Hev|]. split; [exact Hsv|]. lia.
Defined.

(** The application started on its default configuration: the mode is
    'pasthour', start and end are null, and the first cycle ends in a
    TypeError with nothing requested. *)
Lemma custom_window_needs_dates_witness :
  (Config.timemode (_config default_app) <> "realtime"%string
   /\ Config.timemode (_config default_app) <> "pastday"%string
   /\ Config.starttime (_config default_app) = None)
  /\ exists a' : App,
       _onConfigChange three_past_midnight default_app = Throw TypeError a'
       /\ requests a' = []
       /\ loading a' = false
       /\ _timeseries a' = []
       /\ _autoUpdateTimeout a' = Null.
Proof.
  assert (H1 : Config.timemode (_config default_app) <> "realtime"%string)
    by (cbn; discriminate).
  assert (H2 : Config.timemode (_config default_app) <> "pastday"%string)
    by (cbn; discriminate).
  split; [split; [exact H1|split; [exact H2|reflexivity]]|].
  exact (proj2 (custom_window_needs_dates three_past_midnight default_app
                  H1 H2) (or_introl eq_refl)).
Defined.

(** A failed fetch in realtime mode: the results are cleared and the
    timeout armed at the start of the cycle is still pending. *)
Lemma fetch_error_clears_results_witness :
  Config.timemode (_config realtime_app) = "realtime"%string
  /\ let a' := step (state_of (_onConfigChange three_past_midnight
                                 realtime_app)) (FetchFails 0) in
     loading a' = false
     /\ _timeseries a' = []
     /\ exists id : nat,
          _autoUpdateTimeout a' = TimeoutId id
          /\ In (id, 300000) (timers a').
Proof.
  split; [reflexivity|].
  exact (proj1 (proj2 (fetch_error_clears_results three_past_midnight 0
                         realtime_app))
           (or_introl eq_refl)).
Defined.

(** C2 as stated fails: after the failed fetch of a realtime cycle a
    refresh timeout is armed. *)
Lemma fetch_error_keeps_timer_counterexample :
  let a := run default_app
             [ConfigSet (Config.timemode_only "realtime") three_past_midnight;
              FetchFails 0] in
  loading a = false
  /\ _timeseries a = []
  /\ _autoUpdateTimeout a = TimeoutId 0
  /\ timers a = [(0%nat, 300000)]
  /\ ~ (_autoUpdateTimeout a = Null /\ timers a = []).
Proof.
  vm_compute. repeat split. intros [H _]. discriminate H.
Qed.

(** C1 as stated fails: two cycles, the fetch of the second completes
    first, the fetch of the first completes last and its records are
    what is published. *)
Lemma stale_completion_overwrites_counterexample :
  let earlier := [record "E" "BOU" None] in
  let later := [record "Z" "BOU" None] in
  let a := run custom_app
             [ConfigSet (only_channel "E") three_past_midnight;
              ConfigSet (only_channel "Z") three_past_midnight;
              FetchLoads 1 later;
              FetchLoads 0 earlier] in
  map req_channel (requests a) = [Some "Z"; Some "E"]%string
  /\ _timeseries a = earlier
  /\ _timeseries a <> later.
Proof.
  vm_compute. repeat split. discriminate.
Qed.

(** The same two cycles answered in order publish the later records. *)
Lemma completions_in_order :
  let earlier := [record "E" "BOU" None] in
  let later := [record "Z" "BOU" None] in
  _timeseries
    (run custom_app
       [ConfigSet (only_channel "E") three_past_midnight;
        ConfigSet (only_channel "Z") three_past_midnight;
        FetchLoads 0 earlier;
        FetchLoads 1 later])
  = later.
Proof. vm_compute. reflexivity. Qed.

End ControllerExamples.

(** ** The sort comparator *)

Module SortTheorems.

Import JS TimeseriesApp Examples.

Lemma compare_by_latitude (a b : Timeseries.t) (la lb : Q) :
  Metadata.latitude (Timeseries.metadata a) = Some la ->
  Metadata.latitude (Timeseries.metadata b) = Some lb ->
  ~ (la == 0)%Q -> ~ (lb == 0)%Q ->
  compare_timeseries a b = (lb - la)%Q
  /\ ((compare_timeseries a b < 0)%Q <-> (lb < la)%Q).
Proof.
  intros Ha Hb Hna Hnb. unfold compare_timeseries. rewrite Ha, Hb.
  unfold truthy_key.
  destruct (Qeq_bool la 0) eqn:Ea; [apply Qeq_bool_iff in Ea; contradiction|].
  destruct (Qeq_bool lb 0) eqn:Eb; [apply Qeq_bool_iff in Eb; contradiction|].
  cbn [negb andb key_number]. split; [reflexivity|].
  split; intros H.
  - apply (Qplus_lt_l _ _ (- la)). rewrite Qplus_opp_r. exact H.
  - apply (Qplus_lt_l _ _ (- la)) in H. rewrite Qplus_opp_r in H. exact H.
Qed.

Lemma compare_by_code (a b : Timeseries.t) :
  Metadata.latitude (Timeseries.metadata a) = None
  \/ Metadata.latitude (Timeseries.metadata b) = None ->
  compare_timeseries a b
  = if String.ltb (Metadata.observatory (Timeseries.metadata a))
                  (Metadata.observatory (Timeseries.metadata b))
    then (-1)%Q
    else if String.ltb (Metadata.observatory (Timeseries.metadata b))
                       (Metadata.observatory (Timeseries.metadata a))
    then 1%Q
    else 0%Q.
Proof.
  intros [H|H]; unfold compare_timeseries; rewrite H; cbn [truthy_key andb].
  - reflexivity.
  - rewrite andb_false_r. reflexivity.
Qed.

(** The two examples of the specification: latitude 40 goes before
    latitude 20, and without latitudes "ARC" goes before "BOU". *)
Lemma sort_examples :
  Array_sort compare_timeseries
    [record "H" "BOU" (Some 20%Q); record "H" "ARC" (Some 40%Q)]
  = [record "H" "ARC" (Some 40%Q); record "H" "BOU" (Some 20%Q)]
  /\ Array_sort compare_timeseries
       [record "H" "BOU" None; record "H" "ARC" None]
     = [record "H" "ARC" None; record "H" "BOU" None].
Proof. split; vm_compute; reflexivity. Qed.

(** C6 at a latitude of 0: both records have a latitude, the first one
    the higher, yet the comparator falls back to the codes and puts the
    second record first. *)
Theorem compare_latitude_zero :
  let a := record "H" "ZZZ" (Some 0%Q) in
  let b := record "H" "AAA" (Some (-10)%Q) in
  (Metadata.latitude (Timeseries.metadata b)
   = Some (-10)%Q /\ Metadata.latitude (Timeseries.metadata a) = Some 0%Q
   /\ (-10 < 0)%Q)
  /\ compare_timeseries a b = 1%Q
  /\ compare_timeseries b a = (-1)%Q
  /\ Array_sort compare_timeseries [a; b] = [b; a].
Proof.
  cbv zeta. split; [split; [reflexivity|split; [reflexivity|reflexivity]]|].
  split; [reflexivity|]. split; [reflexivity|]. vm_compute. reflexivity.
Qed.

End SortTheorems.

Module SelectViewExamples.

Import JS ESDate TimeseriesSelectView Examples SelectViewTheorems.

(** Start one day after end: the order error, nothing committed. *)
Lemma start_after_end_example :
  let v := custom_view "2021-01-02 00:00:00" "2021-01-01 00:00:00" in
  _timeError (fst (_onTimeChange IsoFormat.parse TimeUpdate v))
  = Some "Start Time must come before End Time."%string
  /\ snd (_onTimeChange IsoFormat.parse TimeUpdate v) = None.
Proof. vm_compute. split; reflexivity. Qed.

(** Midnight of 2021-01-01 in both inputs and a click on Update: no
    message, and the pair is committed. *)
Lemma equal_times_committed_witness :
  let v := custom_view "2021-01-01 00:00:00" "2021-01-01 00:00:00" in
  (_timeCustom_checked v = true
   /\ is_timeCustom TimeUpdate = false
   /\ _parseDate IsoFormat.parse (_startTime_value v)
      = Some (mkDate (Num 1609459200000))
   /\ _parseDate IsoFormat.parse (_endTime_value v)
      = Some (mkDate (Num 1609459200000)))
  /\ _timeError (fst (_onTimeChange IsoFormat.parse TimeUpdate v)) = None
  /\ snd (_onTimeChange IsoFormat.parse TimeUpdate v)
     = Some {| Config.set_channel := None;
               Config.set_endtime := Some (Some (mkDate (Num 1609459200000)));
               Config.set_observatory := None;
               Config.set_starttime :=
                 Some (Some (mkDate (Num 1609459200000)));
               Config.set_timemode := Some "custom"%string |}
  /\ Config.timemode
       (commit (snd (_onTimeChange IsoFormat.parse TimeUpdate v))
          Config.defaults)
     = "custom"%string.
Proof.
  intros v.
  assert (H1 : _timeCustom_checked v = true) by reflexivity.
  assert (H2 : is_timeCustom TimeUpdate = false) by reflexivity.
  assert (H3 : _parseDate IsoFormat.parse (_startTime_value v)
               = Some (mkDate (Num 1609459200000)))
    by (vm_compute; reflexivity).
  assert (H4 : _parseDate IsoFormat.parse (_endTime_value v)
               = Some (mkDate (Num 1609459200000)))
    by (vm_compute; reflexivity).
  split; [repeat split; assumption|].
  destruct (equal_times_committed IsoFormat.parse TimeUpdate v _
              Config.defaults H1 H2 H3 H4)
    as (_ & Ha & _ & Hb & _ & _ & Hc).
  split; [exact Ha|]. split; [exact Hb|exact Hc].
Defined.

(** January 2021, 31 days to the millisecond: accepted and committed. *)
Lemma month_span_limit_witness :
  let v := custom_view "2021-01-01 00:00:00" "2021-02-01 00:00:00" in
  (_timeCustom_checked v = true
   /\ is_timeCustom TimeUpdate = false
   /\ _parseDate IsoFormat.parse (_startTime_value v)
      = Some (mkDate (Num 1609459200000))
   /\ _parseDate IsoFormat.parse (_endTime_value v)
      = Some (mkDate (Num 1612137600000))
   /\ 1612137600000 - 1609459200000 = 2678400000)
  /\ _timeError (fst (_onTimeChange IsoFormat.parse TimeUpdate v)) = None
  /\ snd (_onTimeChange IsoFormat.parse TimeUpdate v)
     = Some {| Config.set_channel := None;
               Config.set_endtime := Some (Some (mkDate (Num 1612137600000)));
               Config.set_observatory := None;
               Config.set_starttime :=
                 Some (Some (mkDate (Num 1609459200000)));
               Config.set_timemode := Some "custom"%string |}.
Proof.
  intros v.
  assert (H1 : _timeCustom_checked v = true) by reflexivity.
  assert (H2 : is_timeCustom TimeUpdate = false) by reflexivity.
  assert (H3 : _parseDate IsoFormat.parse (_startTime_value v)
               = Some (mkDate (Num 1609459200000)))
    by (vm_compute; reflexivity).
  assert (H4 : _parseDate IsoFormat.parse (_endTime_value v)
               = Some (mkDate (Num 1612137600000)))
    by (vm_compute; reflexivity).
  assert (H5 : 1612137600000 - 1609459200000 = 2678400000) by lia.
  split; [repeat split; assumption|].
  exact (proj2 (month_span_limit IsoFormat.parse TimeUpdate v _ _
                  H1 H2 H3 H4) H5).
Defined.

(** One second more than 31 days: the span error, nothing committed. *)
Lemma month_and_a_second :
  let v := custom_view "2021-01-01 00:00:00" "2021-02-01 00:00:01" in
  _timeError (fst (_onTimeChange IsoFormat.parse TimeUpdate v))
  = Some "Please select less than 1 month of data."%string
  /\ snd (_onTimeChange IsoFormat.parse TimeUpdate v) = None.
Proof. vm_compute. split; reflexivity. Qed.

(** A click on channel "E" while observatory "BOU" is selected. *)
Lemma selection_is_exclusive_witness :
  let c := Config.set (Config.timemode_only "realtime")
             (Config.mk None None (Some "BOU"%string) None "pastday") in
  "E"%string <> ""%string
  /\ Config.channel (commit (_onChannelClick (Some "E"%string)) c)
     = Some "E"%string
  /\ Config.observatory (commit (_onChannelClick (Some "E"%string)) c) = None.
Proof.
  intros c.
  assert (H : "E"%string <> ""%string) by discriminate.
  split; [exact H|].
  exact (proj1 (selection_is_exclusive "E" c H)).
Defined.

End SelectViewExamples.

(** ** Timers and live windows *)

Module TimerTheorems.

Import JS ESDate ESDateFacts TimeseriesApp Cycle Order RoundUpFacts
  CycleFacts ControllerTheorems.

Lemma filter_one_timer (a : App) (id : nat) :
  one_timer a -> one_timer (clearTimeout (TimeoutId id) a).
Proof.
  intros [H|(id' & Hr & Ht)].
  - left. cbn. rewrite H. reflexivity.
  - cbn [clearTimeout]. unfold one_timer. cbn [timers _autoUpdateTimeout].
    rewrite Ht. cbn [filter fst]. destruct (Nat.eqb id' id); cbn [negb].
    + left. reflexivity.
    + right. exists id'. split; [exact Hr|reflexivity].
Qed.

(** Cancelling leaves nothing pending when at most the held timeout
    was. *)
Lemma cancelled_no_timer (a : App) : one_timer a -> timers (cancelled a) = [].
Proof.
  unfold cancelled. intros [H|(id & Hr & Ht)].
  - destruct (_autoUpdateTimeout a) as [| |id]; cbn; try exact H.
    rewrite H. reflexivity.
  - rewrite Hr. cbn. rewrite Ht. cbn. rewrite Nat.eqb_refl. reflexivity.
Qed.

(** What a cycle leaves pending, from a state with at most the held
    timeout pending: the fresh refresh timeout in the live modes, nothing
    otherwise. *)
Lemma cycle_timers (now : Z) (a : App) :
  one_timer a ->
  let a' := state_of (_onConfigChange now a) in
  (Config.timemode (_config a) = "realtime"%string
   \/ Config.timemode (_config a) = "pastday"%string ->
   _autoUpdateTimeout a' = TimeoutId (next_timer a)
   /\ timers a' = [(next_timer a, 300000)])
  /\ (Config.timemode (_config a) <> "realtime"%string ->
      Config.timemode (_config a) <> "pastday"%string ->
      _autoUpdateTimeout a' = Null /\ timers a' = []).
Proof.
  intros Hone a'.
  pose proof (cancelled_no_timer a Hone) as Ht.
  destruct (cancelled_frame a) as (_ & _ & _ & _ & _ & Hn).
  split.
  - intros [Hm|Hm]; unfold a';
      [rewrite (onConfigChange_realtime now a Hm)
      |rewrite (onConfigChange_pastday now a Hm)];
      cbn; rewrite Hn, Ht; split; reflexivity.
  - intros Hr Hp. unfold a'. rewrite (onConfigChange_custom now a Hr Hp).
    pose proof (cancelled_timeout a) as Hc.
    destruct (Config.endtime (_config a)), (Config.starttime (_config a));
      cbn; split; assumption.
Qed.

Lemma onConfigChange_one_timer (now : Z) (a : App) :
  one_timer a -> one_timer (state_of (_onConfigChange now a)).
Proof.
  intros Hone. destruct (cycle_timers now a Hone) as [Hlive Hother].
  destruct (string_dec (Config.timemode (_config a)) "realtime") as [Hm|Hm];
    [|destruct (string_dec (Config.timemode (_config a)) "pastday")
        as [Hp|Hp]].
  - destruct (Hlive (or_introl Hm)) as [H1 H2]. right. eauto.
  - destruct (Hlive (or_intror Hp)) as [H1 H2]. right. eauto.
  - destruct (Hother Hm Hp) as [_ H2]. left. exact H2.
Qed.

Lemma step_one_timer (a : App) (e : event) :
  one_timer a -> one_timer (step a e).
Proof.
  intros Hone. destruct e as [p now|id now|k response|k]; cbn [step].
  - destruct (Config.anyChanged p (_config a)); [|exact Hone].
    apply onConfigChange_one_timer. exact Hone.
  - destruct (existsb _ (timers a)); [|exact Hone].
    apply onConfigChange_one_timer. apply filter_one_timer. exact Hone.
  - unfold _onTimeseriesLoad. destruct (_updateDescription _); exact Hone.
  - exact Hone.
Qed.

Lemma run_one_timer (es : list event) :
  forall a : App, one_timer a -> one_timer (run a es).
Proof.
  induction es as [|e es IH]; intros a Hone; [exact Hone|].
  cbn [run fold_left]. apply IH. apply step_one_timer. exact Hone.
Qed.

(** X1.  Whatever configuration changes, timer firings and fetch answers a
    running application goes through after it is set up, at most one timeout
    is pending: the one it holds in [_autoUpdateTimeout], with a delay of
    300000 ms.  (Teardown is not one of these events: [destroy], lines
    344-359, does not call [clearTimeout], so the timeout held then stays
    pending.) *)
Theorem at_most_one_timer
  (channels : list string) (config : Config.t)
  (observatories : list Observatory.t) (es : list event) :
  let a := run (initial channels config observatories) es in
  timers a = []
  \/ exists id : nat,
       _autoUpdateTimeout a = TimeoutId id /\ timers a = [(id, 300000)].
Proof.
  apply (run_one_timer es). left. reflexivity.
Qed.

(** X3.  When the refresh timeout fires in a live mode, one more request is
    issued for the configuration as it is then, and exactly one new timeout is
    pending. *)
Theorem refresh_rearms (id : nat) (now : Z) (a : App) :
  Config.timemode (_config a) = "realtime"%string
  \/ Config.timemode (_config a) = "pastday"%string ->
  timers a = [(id, 300000)] ->
  let a' := step a (TimeoutFires id now) in
  (exists r : Request,
     requests a' = r :: requests a
     /\ req_channel r = Config.channel (_config a)
     /\ req_observatory r = Config.observatory (_config a))
  /\ _config a' = _config a
  /\ _autoUpdateTimeout a' = TimeoutId (next_timer a)
  /\ timers a' = [(next_timer a, 300000)].
Proof.
  intros Hm Ht a'. unfold a'. cbn [step]. rewrite Ht.
  cbn [existsb fst]. rewrite Nat.eqb_refl. cbn [orb].
  set (b := clearTimeout (TimeoutId id) a).
  assert (Hb : timers b = []).
  { unfold b. cbn. rewrite Ht. cbn. rewrite Nat.eqb_refl. reflexivity. }
  assert (Hbc : _config b = _config a) by reflexivity.
  assert (Hbq : requests b = requests a) by reflexivity.
  assert (Hbn : next_timer b = next_timer a) by reflexivity.
  clearbody b.
  assert (Hone : one_timer b) by (left; exact Hb).
  rewrite <- Hbc in Hm. rewrite <- Hbc, <- Hbq, <- Hbn.
  unfold _onAutoUpdate.
  destruct (cycle_timers now b Hone) as [Hlive _].
  destruct (Hlive Hm) as [H1 H2].
  destruct (cancelled_frame b) as (Hc & _ & Hq & _).
  split; [|split; [|split; [exact H1|exact H2]]].
  - destruct Hm as [Hm|Hm];
      [rewrite (onConfigChange_realtime now b Hm)
      |rewrite (onConfigChange_pastday now b Hm)];
      eexists; (split; [cbn [state_of armed requests getTimeseries
                              with_autoUpdateTimeout with_loading
                              setTimeout snd];
                        rewrite Hq; reflexivity|]);
      cbn [live_request req_channel req_observatory];
      rewrite Hc; split; reflexivity.
  - destruct Hm as [Hm|Hm];
      [rewrite (onConfigChange_realtime now b Hm)
      |rewrite (onConfigChange_pastday now b Hm)];
      cbn [state_of armed _config getTimeseries with_loading
           with_autoUpdateTimeout setTimeout snd];
      exact Hc.
Qed.

Lemma onConfigChange_handles (now : Z) (a : App) :
  one_timer a -> handles_given (state_of (_onConfigChange now a)).
Proof.
  intros Hone. destruct (cycle_timers now a Hone) as [Hlive Hother].
  unfold handles_given.
  destruct (string_dec (Config.timemode (_config a)) "realtime") as [Hm|Hm];
    [|destruct (string_dec (Config.timemode (_config a)) "pastday")
        as [Hp|Hp]].
  - destruct (Hlive (or_introl Hm)) as [_ H2]. rewrite H2.
    rewrite (onConfigChange_realtime now a Hm). cbn.
    destruct (cancelled_frame a) as (_ & _ & _ & _ & _ & Hn). rewrite Hn.
    apply Forall_cons; [cbn; lia|apply Forall_nil].
  - destruct (Hlive (or_intror Hp)) as [_ H2]. rewrite H2.
    rewrite (onConfigChange_pastday now a Hp). cbn.
    destruct (cancelled_frame a) as (_ & _ & _ & _ & _ & Hn). rewrite Hn.
    apply Forall_cons; [cbn; lia|apply Forall_nil].
  - destruct (Hother Hm Hp) as [_ H2]. rewrite H2. apply Forall_nil.
Qed.

Lemma step_handles (a : App) (e : event) :
  one_timer a -> handles_given a -> handles_given (step a e).
Proof.
  intros Hone Hg. destruct e as [p now|id now|k response|k]; cbn [step].
  - destruct (Config.anyChanged p (_config a)); [|exact Hg].
    apply onConfigChange_handles. exact Hone.
  - destruct (existsb _ (timers a)); [|exact Hg].
    apply onConfigChange_handles. apply filter_one_timer. exact Hone.
  - unfold _onTimeseriesLoad. destruct (_updateDescription _); exact Hg.
  - exact Hg.
Qed.

Lemma run_handles (es : list event) :
  forall a : App,
    one_timer a -> handles_given a ->
    one_timer (run a es) /\ handles_given (run a es).
Proof.
  induction es as [|e es IH]; intros a Hone Hg; [split; assumption|].
  cbn [run fold_left]. apply IH;
    [apply step_one_timer; exact Hone|apply step_handles; assumption].
Qed.

(** X2.  A [set] that changes a value settles the timers, whatever happened
    before: in a live mode exactly the fresh refresh timeout is pending
    afterwards, in any other mode none is, and the timeout that was pending
    before the change never starts a cycle afterwards.  A [set] that changes
    no value starts no cycle: the application, its pending timeout included,
    is as before. *)
Theorem config_change_settles_timers
  (channels : list string) (config : Config.t)
  (observatories : list Observatory.t) (es : list event)
  (p : Config.patch) (now later : Z) (old : nat) (ms : Z) :
  let a := run (initial channels config observatories) es in
  let a' := step a (ConfigSet p now) in
  (Config.anyChanged p (_config a) = true ->
   _config a' = Config.set p (_config a)
   /\ (Config.timemode (_config a') = "realtime"%string
       \/ Config.timemode (_config a') = "pastday"%string ->
       _autoUpdateTimeout a' = TimeoutId (next_timer a)
       /\ timers a' = [(next_timer a, 300000)])
   /\ (Config.timemode (_config a') <> "realtime"%string ->
       Config.timemode (_config a') <> "pastday"%string ->
       _autoUpdateTimeout a' = Null /\ timers a' = [])
   /\ (In (old, ms) (timers a) ->
       step a' (TimeoutFires old later) = a'))
  /\ (Config.anyChanged p (_config a) = false ->
      Config.set p (_config a) = _config a /\ a' = a).
Proof.
  intros a a'. split.
  2:{ intros Hch. split; [apply set_unchanged; exact Hch|].
      unfold a'. cbn [step]. rewrite Hch. reflexivity. }
  intros Hch.
  destruct (run_handles es (initial channels config observatories))
    as [Hone Hg]; [left; reflexivity|apply Forall_nil|].
  fold a in Hone, Hg.
  set (b := with_config (Config.set p (_config a)) a).
  assert (Hb : one_timer b) by exact Hone.
  assert (Ha' : a' = state_of (_onConfigChange now b)).
  { unfold a'. cbn [step]. rewrite Hch. reflexivity. }
  assert (Hc : _config a' = _config b).
  { rewrite Ha'.
    destruct (cancelled_frame b) as (Hcb & _).
    destruct (string_dec (Config.timemode (_config b)) "realtime") as [Hm|Hm];
      [|destruct (string_dec (Config.timemode (_config b)) "pastday")
          as [Hp|Hp]].
    - rewrite (onConfigChange_realtime now b Hm). exact Hcb.
    - rewrite (onConfigChange_pastday now b Hp). exact Hcb.
    - rewrite (onConfigChange_custom now b Hm Hp).
      destruct (Config.endtime (_config b)), (Config.starttime (_config b));
        exact Hcb. }
  destruct (cycle_timers now b Hb) as [Hlive Hother].
  split; [exact Hc|].
  rewrite Hc. rewrite Ha'.
  split; [exact Hlive|]. split; [exact Hother|].
  intros Hin. cbn [step].
  assert (Hold : (old < next_timer a)%nat).
  { unfold handles_given in Hg. rewrite Forall_forall in Hg.
    apply (Hg (old, ms) Hin). }
  assert (Hno : existsb (fun t => Nat.eqb (fst t) old)
                  (timers (state_of (_onConfigChange now b))) = false).
  { destruct (string_dec (Config.timemode (_config b)) "realtime") as [Hm|Hm];
      [|destruct (string_dec (Config.timemode (_config b)) "pastday")
          as [Hp|Hp]].
    - destruct (Hlive (or_introl Hm)) as [_ ->]. cbn.
      change (next_timer b) with (next_timer a).
      destruct (Nat.eqb_spec (next_timer a) old); [lia|reflexivity].
    - destruct (Hlive (or_intror Hp)) as [_ ->]. cbn.
      change (next_timer b) with (next_timer a).
      destruct (Nat.eqb_spec (next_timer a) old); [lia|reflexivity].
    - destruct (Hother Hm Hp) as [_ ->]. reflexivity. }
  rewrite Hno. reflexivity.
Qed.

Lemma YearFromTime_after_epoch (t : Z) : 0 <= t -> 1970 <= YearFromTime t.
Proof.
  intros Ht. apply (proj2 (YearFromTime_largest t)).
  unfold TimeFromYear. cbn. exact Ht.
Qed.

(** X4.  The window of a live cycle, for a clock after the epoch: it ends
    after [now], by at most the rounding interval, and starts before [now]. *)
Theorem live_window_brackets_now (now : Z) (a : App) :
  0 <= now <= maxTimeValue - 300000 ->
  (Config.timemode (_config a) = "realtime"%string ->
   exists (a' : App) (r : Request) (s e : Z),
     _onConfigChange now a = Normal a'
     /\ requests a' = r :: requests a
     /\ req_starttime r = mkDate (Num s)
     /\ req_endtime r = mkDate (Num e)
     /\ e - s = 900000
     /\ s < now < e
     /\ e - now <= 60000
     /\ req_seconds r = true)
  /\ (Config.timemode (_config a) = "pastday"%string ->
      exists (a' : App) (r : Request) (s e : Z),
        _onConfigChange now a = Normal a'
        /\ requests a' = r :: requests a
        /\ req_starttime r = mkDate (Num s)
        /\ req_endtime r = mkDate (Num e)
        /\ e - s = 86400000
        /\ s < now < e
        /\ e - now <= 300000
        /\ req_seconds r = false).
Proof.
  intros Hnow.
  pose proof (YearFromTime_after_epoch now ltac:(lia)) as Hy.
  assert (Hy' : ~ 0 <= YearFromTime now <= 99) by lia.
  assert (Habs : Z.abs now <= maxTimeValue) by (unfold maxTimeValue in *; lia).
  destruct (cancelled_frame a) as (_ & _ & Hq & _).
  split; intros Hm.
  - rewrite (onConfigChange_realtime now a Hm).
    destruct (spec_roundUp_bounds now 1 ltac:(lia)) as (_ & Hb & Hlt).
    cbv zeta in Hb, Hlt.
    assert (Hmin : msPerMinute * (now / msPerMinute) <= now).
    { unfold msPerMinute. Z.div_mod_to_equations. lia. }
    unfold msPerMinute, maxTimeValue in *.
    destruct (live_window_values now 1 900000 a ltac:(lia) Hy' Habs)
      as (He & Hs & Hf); unfold maxTimeValue; try lia.
    eexists _, _, _, _. split; [reflexivity|].
    split; [cbn; rewrite Hq; reflexivity|].
    split; [exact Hs|]. split; [exact He|].
    split; [lia|]. split; [lia|]. split; [lia|exact Hf].
  - rewrite (onConfigChange_pastday now a Hm).
    destruct (spec_roundUp_bounds now 5 ltac:(lia)) as (_ & Hb & Hlt).
    cbv zeta in Hb, Hlt.
    assert (Hmin : msPerMinute * (now / msPerMinute) <= now).
    { unfold msPerMinute. Z.div_mod_to_equations. lia. }
    unfold msPerMinute, maxTimeValue in *.
    destruct (live_window_values now 5 86400000 a ltac:(lia) Hy' Habs)
      as (He & Hs & Hf); unfold maxTimeValue; try lia.
    eexists _, _, _, _. split; [reflexivity|].
    split; [cbn; rewrite Hq; reflexivity|].
    split; [exact Hs|]. split; [exact He|].
    split; [lia|]. split; [lia|]. split; [lia|exact Hf].
Qed.

(** X5.  The end of the window never goes back when the clock goes on: for an
    interval that divides the hour and two clock readings after the epoch, the
    later reading is rounded to the later or the same instant. *)
Theorem roundUp_monotone (t1 t2 n : Z) :
  0 < n -> 60 mod n = 0 ->
  0 <= t1 <= t2 ->
  t2 <= maxTimeValue - 3600000 ->
  exists r1 r2 : Z,
    __roundUpToNearestNMinutes (mkDate (Num t1)) n = mkDate (Num r1)
    /\ __roundUpToNearestNMinutes (mkDate (Num t2)) n = mkDate (Num r2)
    /\ r1 <= r2
    /\ t2 < r2.
Proof.
  intros Hn Hd Ht Hmax.
  assert (Hn60 : n <= 60).
  { apply Z.divide_pos_le; [lia|]. apply Z.mod_divide; [lia|exact Hd]. }
  exists (Specification.roundUp t1 n), (Specification.roundUp t2 n).
  destruct (spec_roundUp_bounds t1 n Hn) as (_ & Hb1 & Hl1).
  destruct (spec_roundUp_bounds t2 n Hn) as (_ & Hb2 & Hl2).
  cbv zeta in *.
  assert (Hm1 : msPerMinute * (t1 / msPerMinute) <= t1)
    by (unfold msPerMinute; Z.div_mod_to_equations; lia).
  assert (Hm2 : msPerMinute * (t2 / msPerMinute) <= t2)
    by (unfold msPerMinute; Z.div_mod_to_equations; lia).
  pose proof (YearFromTime_after_epoch t1 ltac:(lia)) as Hy1.
  pose proof (YearFromTime_after_epoch t2 ltac:(lia)) as Hy2.
  unfold msPerMinute, maxTimeValue in *.
  split; [|split; [|split]].
  - rewrite roundUp_value by lia.
    rewrite TimeClip_in_range by (unfold maxTimeValue; nia). reflexivity.
  - rewrite roundUp_value by lia.
    rewrite TimeClip_in_range by (unfold maxTimeValue; nia). reflexivity.
  - rewrite !spec_roundUp_epoch by assumption.
    apply Z.mul_le_mono_nonneg_l; [unfold msPerMinute; lia|].
    apply Z.add_le_mono_r. apply Z.div_le_mono; [unfold msPerMinute; lia|lia].
  - exact Hl2.
Qed.

End TimerTheorems.

(** ** Validation as a whole *)

Module ValidationTheorems.

Import JS ESDate TimeseriesSelectView Selection Text.

Lemma substring_all (s : string) : substring 0 (String.length s) s = s.
Proof. induction s as [|c s IH]; cbn; [reflexivity|]. rewrite IH. reflexivity. Qed.

Lemma append_assoc_string (a b c : string) :
  (a ++ (b ++ c) = (a ++ b) ++ c)%string.
Proof.
  induction a as [|x a IH]; cbn [append]; [reflexivity|].
  rewrite IH. reflexivity.
Qed.

(** [replace] with a pattern of one character, step by step. *)
Lemma replace_first_cons (p : ascii) (rep : string) (c : ascii) (s : string) :
  replace_first (String p "") rep (String c s)
  = if Ascii.eqb c p then (rep ++ s)%string
    else String c (replace_first (String p "") rep s).
Proof.
  cbn [replace_first prefix].
  destruct (ascii_dec p c) as [->|Hne].
  - rewrite Ascii.eqb_refl. cbn [String.length Nat.sub substring].
    assert (Hp : prefix "" s = true) by (destruct s; reflexivity).
    rewrite Hp, Nat.sub_0_r, substring_all. reflexivity.
  - destruct (Ascii.eqb_spec c p) as [->|_]; [contradiction|reflexivity].
Qed.

Lemma replace_first_nil (p : ascii) (rep : string) :
  replace_first (String p "") rep "" = ""%string.
Proof. reflexivity. Qed.

(** A pattern that does not occur leaves the string as it is. *)
Lemma replace_first_absent (p : ascii) (rep s : string) :
  occurs p s = false -> replace_first (String p "") rep s = s.
Proof.
  induction s as [|c s IH]; intros H; [reflexivity|].
  cbn [occurs] in H. apply orb_false_iff in H as [Hc Hs].
  rewrite replace_first_cons, Hc, (IH Hs). reflexivity.
Qed.

Lemma replace_first_app (p : ascii) (rep s t : string) :
  occurs p t = false ->
  replace_first (String p "") rep (s ++ t)
  = (replace_first (String p "") rep s ++ t)%string.
Proof.
  intros Ht. induction s as [|c s IH].
  - cbn [append]. rewrite replace_first_absent by exact Ht. reflexivity.
  - cbn [append]. rewrite !replace_first_cons.
    destruct (Ascii.eqb c p).
    + apply append_assoc_string.
    + cbn [append]. rewrite IH. reflexivity.
Qed.

Lemma occurs_app (c : ascii) (s t : string) :
  occurs c (s ++ t) = occurs c s || occurs c t.
Proof.
  induction s as [|c' s IH]; cbn [append occurs]; [reflexivity|].
  rewrite IH, orb_assoc. reflexivity.
Qed.

Lemma occurs_replace_first (c p : ascii) (rep s : string) :
  Ascii.eqb p c = false -> occurs c rep = false ->
  occurs c (replace_first (String p "") rep s) = occurs c s.
Proof.
  intros Hp Hrep. induction s as [|c' s IH]; [reflexivity|].
  rewrite replace_first_cons.
  destruct (Ascii.eqb_spec c' p) as [->|Hne].
  - rewrite occurs_app, Hrep. cbn [occurs orb]. rewrite Hp. reflexivity.
  - cbn [occurs]. rewrite IH. reflexivity.
Qed.

Lemma remove_last_Z (s : string) :
  occurs "Z" s = false ->
  replace_first "Z" "" (s ++ "Z") = s.
Proof.
  induction s as [|c s IH]; intros H; [reflexivity|].
  cbn [occurs] in H. apply orb_false_iff in H as [Hc Hs].
  cbn [append]. rewrite replace_first_cons, Hc, (IH Hs). reflexivity.
Qed.

Section Handler.

Variable Date_parse : string -> num.

(** X14.  An input is read the same with and without a final Z: a string with
    no Z in it and the same string followed by Z give the same date. *)
Theorem parseDate_final_Z (s : string) :
  s <> ""%string ->
  occurs "Z" s = false ->
  _parseDate Date_parse (s ++ "Z") = _parseDate Date_parse s.
Proof.
  intros Hne Hz. unfold _parseDate.
  destruct (String.eqb_spec s "") as [E|_]; [contradiction|].
  destruct (String.eqb_spec (s ++ "Z") "") as [E|_].
  { destruct s; discriminate E. }
  assert (Hz' : occurs "Z" (replace_first " " "T" s) = false).
  { rewrite occurs_replace_first by reflexivity. exact Hz. }
  rewrite (replace_first_app " " "T" s "Z" eq_refl).
  rewrite (remove_last_Z _ Hz').
  rewrite (replace_first_absent "Z" "" _ Hz'). reflexivity.
Qed.

(** What a submit does, by what the two inputs parse to. *)
Lemma onTimeChange_submit (e : target) (v : View) :
  _timeCustom_checked v = true ->
  is_timeCustom e = false ->
  _onTimeChange Date_parse e v
  = let w := with_timeEl_custom true v in
    match _parseDate Date_parse (_startTime_value v),
          _parseDate Date_parse (_endTime_value v) with
    | Some (mkDate (Num s)), Some (mkDate (Num en)) =>
        if s >? en then (with_timeError (Some order_message) w, None)
        else if en - s >? 2678400000
        then (with_timeError (Some span_message) w, None)
        else (with_timeError None w,
              Some (custom_patch (Some (mkDate (Num s)))
                                 (Some (mkDate (Num en)))))
    | _, _ => (with_timeError (Some valid_message) w, None)
    end.
Proof.
  intros Hc He. unfold _onTimeChange. rewrite Hc, He.
  cbn [with_timeEl_custom _endTime_value _startTime_value].
  destruct (_parseDate Date_parse (_startTime_value v)) as [[[|s]]|];
    destruct (_parseDate Date_parse (_endTime_value v)) as [[[|en]]|];
    try reflexivity.
  unfold _validateTime, _timeOrder, _validateRange, _setTimeError.
  cbn [DateValue isNaN negb ToNumber gt sub].
  destruct (s >? en); cbn [negb]; [reflexivity|].
  destruct (en - s >? 2678400000); reflexivity.
Qed.

(** X11.  A submitted pair of which one input is empty or does not parse to a
    valid date is answered with "Please enter a valid time." and nothing is
    written to the configuration; the order and the span are not looked at. *)
Theorem invalid_time_rejected (e : target) (v : View) :
  _timeCustom_checked v = true ->
  is_timeCustom e = false ->
  (forall s : Z,
     _parseDate Date_parse (_startTime_value v) <> Some (mkDate (Num s)))
  \/ (forall en : Z,
        _parseDate Date_parse (_endTime_value v) <> Some (mkDate (Num en))) ->
  _timeError (fst (_onTimeChange Date_parse e v)) = Some valid_message
  /\ snd (_onTimeChange Date_parse e v) = None.
Proof.
  intros Hc He Hbad. rewrite (onTimeChange_submit e v Hc He). cbv zeta.
  destruct (_parseDate Date_parse (_startTime_value v)) as [[[|s]]|];
    destruct (_parseDate Date_parse (_endTime_value v)) as [[[|en]]|];
    try (split; reflexivity).
  destruct Hbad as [H|H]; [destruct (H s)|destruct (H en)]; reflexivity.
Qed.

(** X12.  After a submit the error slot is empty exactly when the pair was
    committed; otherwise it holds one of the three messages.  What the slot
    held before plays no part. *)
Theorem error_cleared_iff_committed
  (e : target) (v : View) (before : option string) :
  _timeCustom_checked v = true ->
  is_timeCustom e = false ->
  (_timeError (fst (_onTimeChange Date_parse e v)) = None
   <-> exists p : Config.patch, snd (_onTimeChange Date_parse e v) = Some p)
  /\ (snd (_onTimeChange Date_parse e v) = None ->
      _timeError (fst (_onTimeChange Date_parse e v)) = Some valid_message
      \/ _timeError (fst (_onTimeChange Date_parse e v)) = Some order_message
      \/ _timeError (fst (_onTimeChange Date_parse e v)) = Some span_message)
  /\ _onTimeChange Date_parse e (with_timeError before v)
     = _onTimeChange Date_parse e v.
Proof.
  intros Hc He.
  assert (Hc' : _timeCustom_checked (with_timeError before v) = true)
    by exact Hc.
  rewrite (onTimeChange_submit e (with_timeError before v) Hc' He).
  rewrite (onTimeChange_submit e v Hc He). cbv zeta.
  cbn [_startTime_value _endTime_value with_timeError].
  destruct (_parseDate Date_parse (_startTime_value v)) as [[[|s]]|];
    destruct (_parseDate Date_parse (_endTime_value v)) as [[[|en]]|];
    try (split; [split; [discriminate|intros [p Hp]; discriminate Hp]
                |split; [intros _; left; reflexivity|reflexivity]]).
  destruct (s >? en);
    [|destruct (en - s >? 2678400000)];
    (split; [split; [intros H; try discriminate H; eexists; reflexivity
                    |intros [p Hp]; try discriminate Hp; reflexivity]
            |split; [intros H; try discriminate H; auto|reflexivity]]).
Qed.

(** The patches the time handler can hand to [set]. *)
Lemma time_handler_patch (e : target) (v : View) (p : Config.patch) :
  snd (_onTimeChange Date_parse e v) = Some p ->
  (Config.set_channel p = None /\ Config.set_observatory p = None)
  /\ (p = Config.timemode_only "realtime"
      \/ p = Config.timemode_only "pastday"
      \/ exists s en : Z,
           p = custom_patch (Some (mkDate (Num s))) (Some (mkDate (Num en)))
           /\ s <= en <= s + 2678400000).
Proof.
  destruct (_timeCustom_checked v) eqn:Hc.
  - destruct (is_timeCustom e) eqn:He.
    + unfold _onTimeChange. rewrite Hc, He. discriminate.
    + rewrite (onTimeChange_submit e v Hc He). cbv zeta.
      destruct (_parseDate Date_parse (_startTime_value v)) as [[[|s]]|];
        destruct (_parseDate Date_parse (_endTime_value v)) as [[[|en]]|];
        try discriminate.
      destruct (Z.gtb_spec s en) as [_|Hle1]; [discriminate|].
      destruct (Z.gtb_spec (en - s) 2678400000) as [_|Hle2]; [discriminate|].
      cbn [snd]. intros Hp. injection Hp as <-.
      split; [split; reflexivity|]. right. right. exists s, en.
      split; [reflexivity|lia].
  - unfold _onTimeChange. rewrite Hc.
    cbn [with_timeEl_custom _timeRealtime_checked _timePastday_checked].
    destruct (_timeRealtime_checked v);
      [|destruct (_timePastday_checked v)]; cbn [snd]; intros H;
      try discriminate H; injection H as <-;
      (split; [split; reflexivity|]); auto.
Qed.

(** X13.  Every [set] of the time handler, whatever the event and the page, is
    a switch to realtime or to pastday that names the timemode alone, or the
    commit of a pair of valid dates with start not after end and at most 31
    days between them, together with the timemode custom.  It never names the
    channel or the observatory. *)
Theorem time_handler_writes (e : target) (v : View) (p : Config.patch) :
  snd (_onTimeChange Date_parse e v) = Some p ->
  (Config.set_channel p = None /\ Config.set_observatory p = None)
  /\ (p = Config.timemode_only "realtime"
      \/ p = Config.timemode_only "pastday"
      \/ exists s en : Z,
           p = custom_patch (Some (mkDate (Num s))) (Some (mkDate (Num en)))
           /\ s <= en <= s + 2678400000).
Proof. apply time_handler_patch. Qed.

Lemma ui_step_resolvable (c : Config.t) (ev : ui_event) :
  resolvable c -> resolvable (ui_step Date_parse c ev).
Proof.
  intros Hres. unfold ui_step.
  destruct (ui_set Date_parse ev) as [p|] eqn:Hp; [|exact Hres].
  destruct ev as [id|id|e v]; cbn [ui_set] in Hp.
  - unfold _onChannelClick in Hp. destruct id as [id|]; [|discriminate].
    destruct (id =? "")%string; [discriminate|]. injection Hp as <-.
    exact Hres.
  - unfold _onObservatoryClick in Hp. destruct id as [id|]; [|discriminate].
    destruct (id =? "")%string; [discriminate|]. injection Hp as <-.
    exact Hres.
  - destruct (time_handler_patch e v p Hp)
      as (_ & [->|[->|(s & en & -> & Hle)]]).
    + left. reflexivity.
    + right. left. reflexivity.
    + right. right. exists s, en. repeat split; lia.
Qed.

Lemma ui_run_resolvable (evs : list ui_event) :
  forall c : Config.t, resolvable c -> resolvable (ui_run Date_parse c evs).
Proof.
  induction evs as [|ev evs IH]; intros c Hc; [exact Hc|].
  cbn [ui_run fold_left]. apply IH. apply ui_step_resolvable. exact Hc.
Qed.

End Handler.

End ValidationTheorems.

(** ** The view and the controller together *)

Module InterplayTheorems.

Import JS ESDate TimeseriesApp TimeseriesSelectView Cycle Selection
  CycleFacts ValidationTheorems.

(** A resolvable configuration always gets its request. *)
Lemma resolvable_cycle (now : Z) (a : App) :
  resolvable (_config a) ->
  exists (a' : App) (r : Request),
    _onConfigChange now a = Normal a'
    /\ requests a' = r :: requests a
    /\ req_channel r = Config.channel (_config a)
    /\ req_observatory r = Config.observatory (_config a)
    /\ req_channels r
       = match Config.observatory (_config a) with
         | Some _ => Some (_channels a)
         | None => None
         end
    /\ (Config.timemode (_config a) <> "realtime"%string ->
        Config.timemode (_config a) <> "pastday"%string ->
        exists s e : Z,
          req_starttime r = mkDate (Num s)
          /\ req_endtime r = mkDate (Num e)
          /\ s <= e <= s + 2678400000).
Proof.
  intros Hres.
  destruct (cancelled_frame a) as (Hc & Hch & Hq & _).
  destruct (string_dec (Config.timemode (_config a)) "realtime") as [Hm|Hm];
    [|destruct (string_dec (Config.timemode (_config a)) "pastday")
        as [Hp|Hp]].
  - rewrite (onConfigChange_realtime now a Hm). eexists _, _.
    split; [reflexivity|]. split; [cbn; rewrite Hq; reflexivity|].
    cbn [live_request req_channel req_observatory req_channels].
    rewrite Hc, Hch. repeat split. intros H. contradiction.
  - rewrite (onConfigChange_pastday now a Hp). eexists _, _.
    split; [reflexivity|]. split; [cbn; rewrite Hq; reflexivity|].
    cbn [live_request req_channel req_observatory req_channels].
    rewrite Hc, Hch. repeat split. intros _ H. contradiction.
  - destruct Hres as [H|[H|(s & e & Hs & He & Hle)]]; try contradiction.
    rewrite (onConfigChange_custom now a Hm Hp), Hs, He. eexists _, _.
    split; [reflexivity|]. split; [cbn; rewrite Hq; reflexivity|].
    cbn [custom_request req_channel req_observatory req_channels
         req_starttime req_endtime].
    rewrite Hc, Hch. repeat split. intros _ _. exists s, e.
    repeat split; lia.
Qed.

(** X20.  Starting from a configuration a cycle can resolve, no sequence of
    clicks and time events leads to one it cannot: the cycle that follows
    always issues its request and never ends in a TypeError, and outside the
    live modes the window it asks for has its start not after its end and
    spans at most 31 days. *)
Theorem ui_never_breaks_cycle
  (Date_parse : string -> num) (evs : list ui_event) (now : Z) (a : App) :
  resolvable (_config a) ->
  let c := ui_run Date_parse (_config a) evs in
  resolvable c
  /\ exists (a' : App) (r : Request),
       _onConfigChange now (with_config c a) = Normal a'
       /\ requests a' = r :: requests a
       /\ (Config.timemode c <> "realtime"%string ->
           Config.timemode c <> "pastday"%string ->
           exists s e : Z,
             req_starttime r = mkDate (Num s)
             /\ req_endtime r = mkDate (Num e)
             /\ s <= e <= s + 2678400000).
Proof.
  intros Hres c.
  assert (Hc : resolvable c) by (apply ui_run_resolvable; exact Hres).
  split; [exact Hc|].
  destruct (resolvable_cycle now (with_config c a) Hc)
    as (a' & r & H1 & H2 & _ & _ & _ & H3).
  exists a', r. split; [exact H1|]. split; [exact H2|exact H3].
Qed.

(** Which clicks change a value. *)
Lemma observatory_click_changes (id : string) (c : Config.t) :
  Config.anyChanged
    {| Config.set_channel := Some None;
       Config.set_endtime := None;
       Config.set_observatory := Some (Some id);
       Config.set_starttime := None;
       Config.set_timemode := None |} c = false
  <-> Config.observatory c = Some id /\ Config.channel c = None.
Proof.
  destruct c as [ch e o s m]. unfold Config.anyChanged, Config.named.
  cbn [Config.set_channel Config.set_endtime Config.set_observatory
       Config.set_starttime Config.set_timemode Config.channel
       Config.endtime Config.observatory Config.starttime Config.timemode
       Config.differs_string orb].
  rewrite !orb_false_r.
  destruct ch as [x|], o as [y|]; cbn [orb negb]; try (split; [discriminate|]).
  - intros [_ H]. discriminate H.
  - intros [_ H]. discriminate H.
  - destruct (String.eqb_spec id y) as [->|Hne]; cbn [negb].
    + split; intros _; [split|]; reflexivity.
    + split; [discriminate|]. intros [H _]. congruence.
  - intros [H _]. discriminate H.
Qed.

Lemma channel_click_changes (id : string) (c : Config.t) :
  Config.anyChanged
    {| Config.set_channel := Some (Some id);
       Config.set_endtime := None;
       Config.set_observatory := Some None;
       Config.set_starttime := None;
       Config.set_timemode := None |} c = false
  <-> Config.channel c = Some id /\ Config.observatory c = None.
Proof.
  destruct c as [ch e o s m]. unfold Config.anyChanged, Config.named.
  cbn [Config.set_channel Config.set_endtime Config.set_observatory
       Config.set_starttime Config.set_timemode Config.channel
       Config.endtime Config.observatory Config.starttime Config.timemode
       Config.differs_string orb].
  rewrite !orb_false_r.
  destruct ch as [x|], o as [y|]; cbn [orb negb];
    try rewrite orb_true_r; try rewrite orb_false_r;
    try (split; [discriminate|]).
  - intros [_ H]. discriminate H.
  - destruct (String.eqb_spec id x) as [->|Hne]; cbn [negb].
    + split; intros _; [split|]; reflexivity.
    + split; [discriminate|]. intros [H _]. congruence.
  - intros [H _]. discriminate H.
  - intros [H _]. discriminate H.
Qed.

(** X21.  A click on an observatory that is not already the selection makes
    the next request ask for all the channels of the application at that
    observatory; a click on a channel that is not already the selection makes
    it ask for that channel alone, with no list of channels.  A click on the
    item that is already the selection changes no value: no cycle starts and
    nothing is requested. *)
Theorem selection_shapes_request (id : string) (now : Z) (a : App) :
  id <> ""%string ->
  resolvable (_config a) ->
  (exists p : Config.patch,
     _onObservatoryClick (Some id) = Some p
     /\ (Config.observatory (_config a) <> Some id
         \/ Config.channel (_config a) <> None ->
         exists r : Request,
           requests (step a (ConfigSet p now)) = r :: requests a
           /\ req_observatory r = Some id
           /\ req_channel r = None
           /\ req_channels r = Some (_channels a))
     /\ (Config.observatory (_config a) = Some id ->
         Config.channel (_config a) = None ->
         step a (ConfigSet p now) = a))
  /\ (exists p : Config.patch,
        _onChannelClick (Some id) = Some p
        /\ (Config.channel (_config a) <> Some id
            \/ Config.observatory (_config a) <> None ->
            exists r : Request,
              requests (step a (ConfigSet p now)) = r :: requests a
              /\ req_channel r = Some id
              /\ req_observatory r = None
              /\ req_channels r = None)
        /\ (Config.channel (_config a) = Some id ->
            Config.observatory (_config a) = None ->
            step a (ConfigSet p now) = a)).
Proof.
  intros Hid Hres. unfold _onObservatoryClick, _onChannelClick.
  destruct (String.eqb_spec id "") as [E|_]; [contradiction|].
  split.
  - set (p := {| Config.set_channel := Some None;
                 Config.set_endtime := None;
                 Config.set_observatory := Some (Some id);
                 Config.set_starttime := None;
                 Config.set_timemode := None |}).
    exists p. split; [reflexivity|].
    pose proof (observatory_click_changes id (_config a)) as Hch.
    fold p in Hch. split.
    + intros Hdiff.
      assert (Ht : Config.anyChanged p (_config a) = true).
      { destruct (Config.anyChanged p (_config a)); [reflexivity|].
        destruct (proj1 Hch eq_refl) as [H1 H2].
        destruct Hdiff as [H|H]; contradiction. }
      assert (Hb : resolvable
                     (_config (with_config (Config.set p (_config a)) a))).
      { destruct Hres as [H|[H|H]]; [left|right; left|right; right];
          exact H. }
      destruct (resolvable_cycle now _ Hb)
        as (a' & r & H1 & H2 & H3 & H4 & H5 & _).
      exists r. cbn [step]. rewrite Ht, H1.
      cbn [state_of]. split; [exact H2|].
      split; [exact H4|]. split; [exact H3|exact H5].
    + intros Ho Hc. cbn [step].
      rewrite (proj2 Hch (conj Ho Hc)). reflexivity.
  - set (p := {| Config.set_channel := Some (Some id);
                 Config.set_endtime := None;
                 Config.set_observatory := Some None;
                 Config.set_starttime := None;
                 Config.set_timemode := None |}).
    exists p. split; [reflexivity|].
    pose proof (channel_click_changes id (_config a)) as Hch.
    fold p in Hch. split.
    + intros Hdiff.
      assert (Ht : Config.anyChanged p (_config a) = true).
      { destruct (Config.anyChanged p (_config a)); [reflexivity|].
        destruct (proj1 Hch eq_refl) as [H1 H2].
        destruct Hdiff as [H|H]; contradiction. }
      assert (Hb : resolvable
                     (_config (with_config (Config.set p (_config a)) a))).
      { destruct Hres as [H|[H|H]]; [left|right; left|right; right];
          exact H. }
      destruct (resolvable_cycle now _ Hb)
        as (a' & r & H1 & H2 & H3 & H4 & H5 & _).
      exists r. cbn [step]. rewrite Ht, H1.
      cbn [state_of]. split; [exact H2|].
      split; [exact H3|]. split; [exact H4|exact H5].
    + intros Hc Ho. cbn [step].
      rewrite (proj2 Hch (conj Hc Ho)). reflexivity.
Qed.

End InterplayTheorems.

(** ** The published order *)

Module OrderTheorems.

Import JS TimeseriesApp Order.

Section Sorting.

Context {A : Type} (cmp : A -> A -> Q) (P : A -> Prop).

Let before (x y : A) : Prop := (cmp x y <= 0)%Q.

Hypothesis total :
  forall x y : A, P x -> P y -> ~ before x y -> before y x.
Hypothesis trans :
  forall x y z : A, P x -> P y -> P z -> before x y -> before y z -> before x z.

Lemma sort_insert_perm (x : A) (l : list A) :
  Permutation (sort_insert cmp x l) (x :: l).
Proof.
  induction l as [|y l IH]; cbn [sort_insert]; [apply Permutation_refl|].
  destruct (negb (Qle_bool (cmp x y) 0)); [|apply Permutation_refl].
  apply perm_trans with (y :: x :: l);
    [apply perm_skip; exact IH|apply perm_swap].
Qed.

Lemma Array_sort_perm (l : list A) : Permutation (Array_sort cmp l) l.
Proof.
  induction l as [|x l IH]; cbn [Array_sort]; [apply perm_nil|].
  apply perm_trans with (x :: Array_sort cmp l);
    [apply sort_insert_perm|apply perm_skip; exact IH].
Qed.

Lemma sort_insert_sorted (x : A) (l : list A) :
  P x -> Forall P l ->
  StronglySorted before l -> StronglySorted before (sort_insert cmp x l).
Proof.
  intros Hx Hl Hs. induction Hs as [|y l Hs IH Hy]; cbn [sort_insert].
  - apply SSorted_cons; [apply SSorted_nil|apply Forall_nil].
  - inversion Hl as [|y' l' Py Pl]; subst.
    destruct (Qle_bool (cmp x y) 0) eqn:E; cbn [negb].
    + apply Qle_bool_iff in E.
      apply SSorted_cons; [apply SSorted_cons; assumption|].
      apply Forall_cons; [exact E|].
      rewrite Forall_forall in *. intros z Hz.
      apply (trans x y z); auto.
    + assert (Hnot : ~ before x y).
      { intros H. apply Qle_bool_iff in H. unfold before in H.
        rewrite H in E. discriminate E. }
      apply SSorted_cons; [apply IH; exact Pl|].
      apply (Permutation_Forall (Permutation_sym (sort_insert_perm x l))).
      apply Forall_cons; [apply total; assumption|exact Hy].
Qed.

Lemma Array_sort_sorted (l : list A) :
  Forall P l -> StronglySorted before (Array_sort cmp l).
Proof.
  induction l as [|x l IH]; intros Hl; cbn [Array_sort];
    [apply SSorted_nil|].
  inversion Hl as [|x' l' Px Pl]; subst.
  apply sort_insert_sorted; [exact Px| |apply IH; exact Pl].
  apply (Permutation_Forall (Permutation_sym (Array_sort_perm l))). exact Pl.
Qed.

End Sorting.

Lemma identity_copy_metadata (obs : list Observatory.t) (t : Timeseries.t) :
  identity (copy_metadata obs t) = identity t.
Proof.
  unfold copy_metadata.
  destruct (Collection_get obs _); reflexivity.
Qed.

(** X6.  A successful answer is published whole: the published collection is a
    rearrangement of the answer's records after the merge, and record for
    record it has the channels, observatory codes and samples of the answer,
    none dropped, none doubled. *)
Theorem load_publishes_every_record
  (response : list Timeseries.t) (a : App) :
  let published := _timeseries (state_of (_onTimeseriesLoad response a)) in
  Permutation published (map (copy_metadata (_observatories a)) response)
  /\ Permutation (map identity published) (map identity response)
  /\ List.length published = List.length response.
Proof.
  intros published.
  assert (Hp : Permutation published
                 (map (copy_metadata (_observatories a)) response)).
  { unfold published, _onTimeseriesLoad.
    destruct (_updateDescription _); cbn; apply Array_sort_perm. }
  split; [exact Hp|]. split.
  - apply perm_trans with
      (map identity (map (copy_metadata (_observatories a)) response)).
    + apply Permutation_map. exact Hp.
    + rewrite map_map.
      rewrite (map_ext _ identity
                 (identity_copy_metadata (_observatories a))).
      apply Permutation_refl.
  - rewrite (Permutation_length Hp). apply length_map.
Qed.

Lemma compare_latitudes (x y : Timeseries.t) :
  has_latitude x -> has_latitude y ->
  (compare_timeseries x y == latitude_of y - latitude_of x)%Q.
Proof.
  intros (qx & Hx & Hnx) (qy & Hy & Hny).
  unfold compare_timeseries, latitude_of. rewrite Hx, Hy.
  unfold truthy_key.
  destruct (Qeq_bool qx 0) eqn:Ex; [apply Qeq_bool_iff in Ex; contradiction|].
  destruct (Qeq_bool qy 0) eqn:Ey; [apply Qeq_bool_iff in Ey; contradiction|].
  cbn. reflexivity.
Qed.

Lemma before_latitude (x y : Timeseries.t) :
  has_latitude x -> has_latitude y ->
  ((compare_timeseries x y <= 0)%Q <-> (latitude_of y <= latitude_of x)%Q).
Proof.
  intros Hx Hy. rewrite (compare_latitudes x y Hx Hy).
  split; intros H.
  - apply (Qplus_le_l _ _ (- latitude_of x)). rewrite Qplus_opp_r. exact H.
  - apply (Qplus_le_l _ _ (- latitude_of x)) in H.
    rewrite Qplus_opp_r in H. exact H.
Qed.

Lemma StronglySorted_impl {A : Type} (R S : A -> A -> Prop) (P : A -> Prop)
  (l : list A) :
  (forall x y : A, P x -> P y -> R x y -> S x y) ->
  Forall P l -> StronglySorted R l -> StronglySorted S l.
Proof.
  intros HRS Hl Hs. induction Hs as [|x l Hs IH Hx]; [apply SSorted_nil|].
  inversion Hl as [|x' l' Px Pl]; subst.
  apply SSorted_cons; [apply IH; exact Pl|].
  rewrite Forall_forall in *. intros y Hy. apply HRS; auto.
Qed.

(** X7.  When every record of an answer has, after the merge, a latitude other
    than 0, the published collection is in descending order of latitude: each
    record's latitude is at least that of every record after it. *)
Theorem published_by_descending_latitude
  (response : list Timeseries.t) (a : App) :
  Forall has_latitude (map (copy_metadata (_observatories a)) response) ->
  StronglySorted (fun x y => (latitude_of y <= latitude_of x)%Q)
    (_timeseries (state_of (_onTimeseriesLoad response a))).
Proof.
  intros Hall.
  set (merged := map (copy_metadata (_observatories a)) response) in *.
  assert (Hpub : _timeseries (state_of (_onTimeseriesLoad response a))
                 = Array_sort compare_timeseries merged).
  { unfold _onTimeseriesLoad. destruct (_updateDescription _); reflexivity. }
  rewrite Hpub.
  apply (StronglySorted_impl
           (fun x y => (compare_timeseries x y <= 0)%Q) _ has_latitude).
  - intros x y Hx Hy H. apply before_latitude; assumption.
  - apply (Permutation_Forall
             (Permutation_sym (Array_sort_perm compare_timeseries merged))).
    exact Hall.
  - apply (Array_sort_sorted compare_timeseries has_latitude).
    + intros x y Hx Hy Hn. apply before_latitude; [assumption..|].
      apply Qnot_lt_le. intros Hlt. apply Hn.
      apply before_latitude; [assumption..|]. apply Qlt_le_weak. exact Hlt.
    + intros x y z Hx Hy Hz Hxy Hyz.
      apply before_latitude; [assumption..|].
      apply before_latitude in Hxy; [|assumption..].
      apply before_latitude in Hyz; [|assumption..].
      apply (Qle_trans _ _ _ Hyz Hxy).
    + exact Hall.
Qed.

Lemma string_le_trans (a : string) :
  forall b c : string,
    String.compare a b <> Gt -> String.compare b c <> Gt ->
    String.compare a c <> Gt.
Proof.
  induction a as [|x a IH]; intros [|y b] [|z c]; cbn [String.compare];
    try congruence.
  unfold Ascii.compare.
  destruct (N.compare_spec (N_of_ascii x) (N_of_ascii y)) as [Exy|Lxy|Gxy];
    destruct (N.compare_spec (N_of_ascii y) (N_of_ascii z)) as [Eyz|Lyz|Gyz];
    destruct (N.compare_spec (N_of_ascii x) (N_of_ascii z)) as [Exz|Lxz|Gxz];
    try congruence; try lia.
  apply IH.
Qed.

Lemma before_code (x y : Timeseries.t) :
  no_latitude x \/ no_latitude y ->
  ((compare_timeseries x y <= 0)%Q
   <-> String.leb (code_of x) (code_of y) = true).
Proof.
  intros Hno.
  assert (Hf : truthy_key (Metadata.latitude (Timeseries.metadata x))
               && truthy_key (Metadata.latitude (Timeseries.metadata y))
               = false).
  { destruct Hno as [H|H]; unfold no_latitude in H; rewrite H;
      [reflexivity|apply andb_false_r]. }
  unfold compare_timeseries. rewrite Hf.
  unfold code_of, String.leb, String.ltb.
  rewrite (String.compare_antisym (Metadata.observatory (Timeseries.metadata y))
             (Metadata.observatory (Timeseries.metadata x))).
  destruct (String.compare (Metadata.observatory (Timeseries.metadata x))
              (Metadata.observatory (Timeseries.metadata y)));
    cbn [CompOpp]; split; intros H; try reflexivity; try discriminate.
  exfalso. apply (Qlt_not_le 0 1); [reflexivity|exact H].
Qed.

(** X8.  When no record of an answer has, after the merge, a latitude the
    comparator can use, the published collection is in ascending order of
    observatory code. *)
Theorem published_by_ascending_code
  (response : list Timeseries.t) (a : App) :
  Forall no_latitude (map (copy_metadata (_observatories a)) response) ->
  StronglySorted (fun x y => String.leb (code_of x) (code_of y) = true)
    (_timeseries (state_of (_onTimeseriesLoad response a))).
Proof.
  intros Hall.
  set (merged := map (copy_metadata (_observatories a)) response) in *.
  assert (Hpub : _timeseries (state_of (_onTimeseriesLoad response a))
                 = Array_sort compare_timeseries merged).
  { unfold _onTimeseriesLoad. destruct (_updateDescription _); reflexivity. }
  rewrite Hpub.
  apply (StronglySorted_impl
           (fun x y => (compare_timeseries x y <= 0)%Q) _ no_latitude).
  - intros x y Hx Hy H. apply before_code; [left; exact Hx|exact H].
  - apply (Permutation_Forall
             (Permutation_sym (Array_sort_perm compare_timeseries merged))).
    exact Hall.
  - apply (Array_sort_sorted compare_timeseries no_latitude).
    + intros x y Hx Hy Hn. apply before_code; [left; exact Hy|].
      destruct (String.leb_total (code_of y) (code_of x)) as [H|H];
        [exact H|].
      exfalso. apply Hn. apply before_code; [left; exact Hx|exact H].
    + intros x y z Hx Hy Hz Hxy Hyz.
      apply before_code; [left; exact Hx|].
      apply before_code in Hxy; [|left; exact Hx].
      apply before_code in Hyz; [|left; exact Hy].
      unfold String.leb in *.
      pose proof (string_le_trans (code_of x) (code_of y) (code_of z)) as Ht.
      destruct (String.compare (code_of x) (code_of y)); try discriminate;
        destruct (String.compare (code_of y) (code_of z)); try discriminate;
        destruct (String.compare (code_of x) (code_of z)); try reflexivity;
        exfalso; apply Ht; congruence.
    + exact Hall.
Qed.

(** X9.  The comparator is no order once records with and without a usable
    latitude meet: a record without one, whose code lies between the codes of
    two records with latitudes, compares after the one and before the other by
    code, while those two compare by latitude; when the latitudes run against
    the codes, the three compare in a circle. *)
Theorem comparator_circle (x y z : Timeseries.t) :
  has_latitude x -> no_latitude y -> has_latitude z ->
  (latitude_of x < latitude_of z)%Q ->
  String.ltb (code_of x) (code_of y) = true ->
  String.ltb (code_of y) (code_of z) = true ->
  (compare_timeseries x y < 0)%Q
  /\ (compare_timeseries y z < 0)%Q
  /\ (compare_timeseries z x < 0)%Q.
Proof.
  intros Hx Hy Hz Hlat Hxy Hyz.
  assert (Hcode : forall u v : Timeseries.t,
             no_latitude u \/ no_latitude v ->
             String.ltb (code_of u) (code_of v) = true ->
             (compare_timeseries u v < 0)%Q).
  { intros u v Hno Hlt.
    assert (Hf : truthy_key (Metadata.latitude (Timeseries.metadata u))
                 && truthy_key (Metadata.latitude (Timeseries.metadata v))
                 = false).
    { destruct Hno as [H|H]; unfold no_latitude in H; rewrite H;
        [reflexivity|apply andb_false_r]. }
    unfold compare_timeseries. rewrite Hf. unfold code_of in Hlt.
    rewrite Hlt. reflexivity. }
  split; [apply Hcode; [right; exact Hy|exact Hxy]|].
  split; [apply Hcode; [left; exact Hy|exact Hyz]|].
  rewrite (compare_latitudes z x Hz Hx).
  apply (Qplus_lt_l _ _ (latitude_of z)).
  rewrite Qplus_0_l.
  setoid_replace (latitude_of x - latitude_of z + latitude_of z)%Q
    with (latitude_of x) by ring.
  exact Hlat.
Qed.

End OrderTheorems.

(** ** Formatting and reading dates *)

Module FormatTheorems.

Import JS ESDate ESDateFacts ESDateText TimeseriesApp TimeseriesSelectView
  Rendering Text ValidationTheorems RoundUpFacts.

Lemma mod10_cases (x : Z) :
  x mod 10 = 0 \/ x mod 10 = 1 \/ x mod 10 = 2 \/ x mod 10 = 3
  \/ x mod 10 = 4 \/ x mod 10 = 5 \/ x mod 10 = 6 \/ x mod 10 = 7
  \/ x mod 10 = 8 \/ x mod 10 = 9.
Proof. pose proof (Z.mod_pos_bound x 10 ltac:(lia)). lia. Qed.

(** The character of a last decimal digit is a digit and reads back as
    that digit. *)
Lemma digit_char_mod10 (x : Z) :
  is_digit (digit_char (x mod 10)) = true
  /\ IsoFormat.digit (digit_char (x mod 10)) = Some (x mod 10).
Proof.
  destruct (mod10_cases x) as [H|[H|[H|[H|[H|[H|[H|[H|[H|H]]]]]]]]];
    rewrite H; split; reflexivity.
Qed.

Lemma digit_is_no_mark (c : ascii) :
  is_digit c = true ->
  Ascii.eqb c "T" = false /\ Ascii.eqb c " " = false
  /\ Ascii.eqb c "Z" = false /\ Ascii.eqb c "." = false.
Proof.
  destruct c as [[] [] [] [] [] [] [] []]; cbn; intros H;
    try discriminate H; repeat split.
Qed.

Lemma occurs_pad2 (c : ascii) (n : Z) :
  is_digit c = false -> occurs c (pad2 n) = false.
Proof.
  intros Hc. unfold pad2. cbn [occurs].
  destruct (digit_char_mod10 (n / 10)) as [H1 _].
  destruct (digit_char_mod10 n) as [H2 _].
  destruct (Ascii.eqb_spec (digit_char (n / 10 mod 10)) c) as [E|_];
    [rewrite <- E, H1 in Hc; discriminate Hc|].
  destruct (Ascii.eqb_spec (digit_char (n mod 10)) c) as [E|_];
    [rewrite <- E, H2 in Hc; discriminate Hc|].
  reflexivity.
Qed.

Lemma occurs_pad3 (c : ascii) (n : Z) :
  is_digit c = false -> occurs c (pad3 n) = false.
Proof.
  intros Hc. unfold pad3. cbn [occurs]. rewrite (occurs_pad2 c n Hc).
  destruct (digit_char_mod10 (n / 100)) as [H1 _].
  destruct (Ascii.eqb_spec (digit_char (n / 100 mod 10)) c) as [E|_];
    [rewrite <- E, H1 in Hc; discriminate Hc|reflexivity].
Qed.

Lemma occurs_pad4 (c : ascii) (n : Z) :
  is_digit c = false -> occurs c (pad4 n) = false.
Proof.
  intros Hc. unfold pad4. cbn [occurs]. rewrite (occurs_pad3 c n Hc).
  destruct (digit_char_mod10 (n / 1000)) as [H1 _].
  destruct (Ascii.eqb_spec (digit_char (n / 1000 mod 10)) c) as [E|_];
    [rewrite <- E, H1 in Hc; discriminate Hc|reflexivity].
Qed.

(** A replacement passes over a prefix in which its pattern does not
    occur. *)
Lemma replace_first_skip (p : ascii) (rep a rest : string) :
  occurs p a = false ->
  replace_first (String p "") rep (a ++ rest)
  = (a ++ replace_first (String p "") rep rest)%string.
Proof.
  induction a as [|c a IH]; intros H; [reflexivity|].
  cbn [occurs] in H. apply orb_false_iff in H as [Hc Ha].
  cbn [append]. rewrite replace_first_cons, Hc, (IH Ha). reflexivity.
Qed.

Lemma replace_millis_cons (c : ascii) (s : string) :
  Ascii.eqb c "." = false ->
  replace_millis (String c s) = String c (replace_millis s).
Proof.
  intros Hc. cbn [replace_millis match_millis].
  destruct s as [|c1 [|c2 [|c3 [|c4 s]]]]; try reflexivity.
  rewrite Hc. reflexivity.
Qed.

Lemma replace_millis_skip (a rest : string) :
  occurs "." a = false ->
  replace_millis (a ++ rest) = (a ++ replace_millis rest)%string.
Proof.
  induction a as [|c a IH]; intros H; [reflexivity|].
  cbn [occurs] in H. apply orb_false_iff in H as [Hc Ha].
  cbn [append]. rewrite (replace_millis_cons c _ Hc), (IH Ha). reflexivity.
Qed.

Lemma replace_millis_end (n : Z) :
  replace_millis (String "." (pad3 n ++ "Z")) = ""%string.
Proof.
  unfold pad3, pad2. cbn [append replace_millis match_millis].
  destruct (digit_char_mod10 (n / 100)) as [H1 _].
  destruct (digit_char_mod10 (n / 10)) as [H2 _].
  destruct (digit_char_mod10 n) as [H3 _].
  rewrite H1, H2, H3. reflexivity.
Qed.

(** The text of a date whose year has four digits. *)
Lemma formatDate_text (t : Z) :
  0 <= YearFromTime t <= 9999 ->
  _formatDate (Some (mkDate (Num t))) = inl (seconds_text t).
Proof.
  intros Hy. unfold _formatDate, toISOString. cbn [DateValue].
  f_equal. unfold ISOString, year_text, seconds_text.
  destruct (Z.leb_spec 0 (YearFromTime t)); [|lia].
  destruct (Z.leb_spec (YearFromTime t) 9999); [|lia]. cbn [andb].
  rewrite (replace_first_skip "T" " " (pad4 _)) by (apply occurs_pad4; reflexivity).
  cbn [append]. rewrite replace_first_cons. cbn [Ascii.eqb Bool.eqb andb].
  rewrite (replace_first_skip "T" " " (pad2 _)) by (apply occurs_pad2; reflexivity).
  cbn [append]. rewrite replace_first_cons. cbn [Ascii.eqb Bool.eqb andb].
  rewrite (replace_first_skip "T" " " (pad2 _)) by (apply occurs_pad2; reflexivity).
  cbn [append]. rewrite replace_first_cons. cbn [Ascii.eqb Bool.eqb andb].
  cbn [append].
  rewrite (replace_millis_skip (pad4 _)) by (apply occurs_pad4; reflexivity).
  f_equal.
  rewrite (replace_millis_cons "-") by reflexivity. f_equal.
  rewrite (replace_millis_skip (pad2 _)) by (apply occurs_pad2; reflexivity).
  f_equal.
  rewrite (replace_millis_cons "-") by reflexivity. f_equal.
  rewrite (replace_millis_skip (pad2 _)) by (apply occurs_pad2; reflexivity).
  f_equal.
  rewrite (replace_millis_cons " ") by reflexivity. f_equal.
  rewrite (replace_millis_skip (pad2 _)) by (apply occurs_pad2; reflexivity).
  f_equal.
  rewrite (replace_millis_cons ":") by reflexivity. f_equal.
  rewrite (replace_millis_skip (pad2 _)) by (apply occurs_pad2; reflexivity).
  f_equal.
  rewrite (replace_millis_cons ":") by reflexivity. f_equal.
  rewrite (replace_millis_skip (pad2 _)) by (apply occurs_pad2; reflexivity).
  rewrite replace_millis_end.
  unfold pad2. reflexivity.
Qed.

Lemma occurs_seconds_text_tail (c : ascii) (h i sec : Z) :
  is_digit c = false -> Ascii.eqb ":" c = false ->
  occurs c (pad2 h ++ ":" ++ pad2 i ++ ":" ++ pad2 sec) = false.
Proof.
  intros Hc Hcolon.
  rewrite !occurs_app, !(occurs_pad2 c) by exact Hc.
  cbn [occurs orb]. rewrite Hcolon. reflexivity.
Qed.

(** Whatever the parser, the text shown for a date is handed to it in
    the form [YYYY-MM-DDTHH:MM:SSZ]. *)
Lemma parseDate_seconds_text (Date_parse : string -> num) (t : Z) :
  _parseDate Date_parse (seconds_text t)
  = Some (new_Date (Date_parse (zulu_text t))).
Proof.
  unfold _parseDate.
  destruct (String.eqb_spec (seconds_text t) "") as [E|_].
  { unfold seconds_text, pad4 in E. discriminate E. }
  do 3 f_equal. unfold seconds_text, zulu_text.
  rewrite (replace_first_skip " " "T" (pad4 _))
    by (apply occurs_pad4; reflexivity).
  cbn [append]. rewrite replace_first_cons. cbn [Ascii.eqb Bool.eqb andb].
  rewrite (replace_first_skip " " "T" (pad2 _))
    by (apply occurs_pad2; reflexivity).
  cbn [append]. rewrite replace_first_cons. cbn [Ascii.eqb Bool.eqb andb].
  rewrite (replace_first_skip " " "T" (pad2 _))
    by (apply occurs_pad2; reflexivity).
  cbn [append]. rewrite replace_first_cons. cbn [Ascii.eqb Bool.eqb andb].
  cbn [append].
  rewrite (replace_first_skip "Z" "" (pad4 _))
    by (apply occurs_pad4; reflexivity).
  rewrite replace_first_cons. cbn [Ascii.eqb Bool.eqb andb].
  rewrite (replace_first_skip "Z" "" (pad2 _))
    by (apply occurs_pad2; reflexivity).
  rewrite replace_first_cons. cbn [Ascii.eqb Bool.eqb andb].
  rewrite (replace_first_skip "Z" "" (pad2 _))
    by (apply occurs_pad2; reflexivity).
  rewrite replace_first_cons. cbn [Ascii.eqb Bool.eqb andb].
  rewrite (replace_first_absent "Z" "")
    by (apply occurs_seconds_text_tail; reflexivity).
  rewrite <- !append_assoc_string. cbn [append].
  rewrite <- !append_assoc_string. cbn [append].
  rewrite <- !append_assoc_string. cbn [append].
  rewrite <- !append_assoc_string. cbn [append].
  reflexivity.
Qed.

(** The parser on twenty characters in the right places. *)
Lemma parse_stamp
  (c1 c2 c3 c4 c5 c6 c7 c8 c9 c10 c11 c12 c13 c14 : ascii)
  (d1 d2 d3 d4 d5 d6 d7 d8 d9 d10 d11 d12 d13 d14 : Z) :
  IsoFormat.digit c1 = Some d1 -> IsoFormat.digit c2 = Some d2 ->
  IsoFormat.digit c3 = Some d3 -> IsoFormat.digit c4 = Some d4 ->
  IsoFormat.digit c5 = Some d5 -> IsoFormat.digit c6 = Some d6 ->
  IsoFormat.digit c7 = Some d7 -> IsoFormat.digit c8 = Some d8 ->
  IsoFormat.digit c9 = Some d9 -> IsoFormat.digit c10 = Some d10 ->
  IsoFormat.digit c11 = Some d11 -> IsoFormat.digit c12 = Some d12 ->
  IsoFormat.digit c13 = Some d13 -> IsoFormat.digit c14 = Some d14 ->
  IsoFormat.parse
    (String c1 (String c2 (String c3 (String c4 (String "-"
     (String c5 (String c6 (String "-" (String c7 (String c8 (String "T"
     (String c9 (String c10 (String ":" (String c11 (String c12 (String ":"
     (String c13 (String c14 "Z")))))))))))))))))))
  = let y := 10 * (10 * (10 * (10 * 0 + d1) + d2) + d3) + d4 in
    let m := 10 * (10 * 0 + d5) + d6 in
    let d := 10 * (10 * 0 + d7) + d8 in
    let h := 10 * (10 * 0 + d9) + d10 in
    let i := 10 * (10 * 0 + d11) + d12 in
    let sec := 10 * (10 * 0 + d13) + d14 in
    if (1 <=? m) && (m <=? 12) && (1 <=? d)
       && (d <=? (if m =? 12 then 31 else IsoFormat.DaysInMonth y m))
       && (h <=? 23) && (i <=? 59) && (sec <=? 59)
    then Num (MakeDate (MakeDay y (m - 1) d) (MakeTime h i sec 0))
    else NaN.
Proof.
  intros H1 H2 H3 H4 H5 H6 H7 H8 H9 H10 H11 H12 H13 H14.
  unfold IsoFormat.parse. cbn [list_ascii_of_string IsoFormat.digits].
  rewrite H1, H2, H3, H4, H5, H6, H7, H8, H9, H10, H11, H12, H13, H14.
  reflexivity.
Qed.

Lemma two_digits (n : Z) :
  0 <= n <= 99 -> 10 * (10 * 0 + n / 10 mod 10) + n mod 10 = n.
Proof. intros H. Z.div_mod_to_equations. lia. Qed.

Lemma four_digits (n : Z) :
  0 <= n <= 9999 ->
  10 * (10 * (10 * (10 * 0 + n / 1000 mod 10) + n / 100 mod 10)
        + n / 10 mod 10) + n mod 10 = n.
Proof. intros H. Z.div_mod_to_equations. lia. Qed.

(** The day of the month is one the month has. *)
Lemma DateFromTime_range (t : Z) :
  1 <= DateFromTime t
  <= (if MonthFromTime t + 1 =? 12 then 31
      else IsoFormat.DaysInMonth (YearFromTime t) (MonthFromTime t + 1)).
Proof.
  pose proof (DayWithinYear_range t) as Hd.
  unfold DateFromTime, MonthFromTime, IsoFormat.DaysInMonth, InLeapYear,
    DaysInYear in *.
  destruct (isLeapYear (YearFromTime t));
    repeat match goal with
           | |- context [if ?b <? ?c then _ else _] =>
               destruct (Z.ltb_spec b c); [cbn; lia|]
           end; cbn; lia.
Qed.

(** The fields of a time value, put together again, give the time value
    truncated to its second. *)
Lemma MakeDate_seconds (t : Z) :
  MakeDate (Day t)
           (MakeTime (HourFromTime t) (MinFromTime t) (SecFromTime t) 0)
  = msPerSecond * (t / msPerSecond).
Proof.
  unfold MakeDate, MakeTime, Day, HourFromTime, MinFromTime, SecFromTime,
    msPerDay, msPerHour, msPerMinute, msPerSecond, HoursPerDay,
    MinutesPerHour.
  Z.div_mod_to_equations. lia.
Qed.

(** The standard's reading of the text [YYYY-MM-DDTHH:MM:SSZ] of a date
    is the date truncated to its second. *)
Lemma parse_zulu_text (t : Z) :
  0 <= YearFromTime t <= 9999 ->
  IsoFormat.parse (zulu_text t) = Num (msPerSecond * (t / msPerSecond)).
Proof.
  intros Hy. unfold zulu_text, pad4, pad3, pad2. cbn [append].
  rewrite (parse_stamp _ _ _ _ _ _ _ _ _ _ _ _ _ _
             _ _ _ _ _ _ _ _ _ _ _ _ _ _
             (proj2 (digit_char_mod10 _)) (proj2 (digit_char_mod10 _))
             (proj2 (digit_char_mod10 _)) (proj2 (digit_char_mod10 _))
             (proj2 (digit_char_mod10 _)) (proj2 (digit_char_mod10 _))
             (proj2 (digit_char_mod10 _)) (proj2 (digit_char_mod10 _))
             (proj2 (digit_char_mod10 _)) (proj2 (digit_char_mod10 _))
             (proj2 (digit_char_mod10 _)) (proj2 (digit_char_mod10 _))
             (proj2 (digit_char_mod10 _)) (proj2 (digit_char_mod10 _))).
  cbv zeta.
  pose proof (MonthFromTime_range t) as Hm.
  pose proof (DateFromTime_range t) as Hd.
  assert (Hd31 : DateFromTime t <= 31).
  { revert Hd. unfold IsoFormat.DaysInMonth.
    assert (Hc : MonthFromTime t = 0 \/ MonthFromTime t = 1
                 \/ MonthFromTime t = 2 \/ MonthFromTime t = 3
                 \/ MonthFromTime t = 4 \/ MonthFromTime t = 5
                 \/ MonthFromTime t = 6 \/ MonthFromTime t = 7
                 \/ MonthFromTime t = 8 \/ MonthFromTime t = 9
                 \/ MonthFromTime t = 10 \/ MonthFromTime t = 11) by lia.
    destruct (isLeapYear (YearFromTime t));
      repeat (destruct Hc as [Hc|Hc]; [rewrite Hc; cbn; lia|]);
      rewrite Hc; cbn; lia. }
  assert (Hh : 0 <= HourFromTime t <= 23).
  { unfold HourFromTime, HoursPerDay.
    pose proof (Z.mod_pos_bound (t / msPerHour) 24 ltac:(lia)). lia. }
  assert (Hi : 0 <= MinFromTime t <= 59).
  { unfold MinFromTime, MinutesPerHour.
    pose proof (Z.mod_pos_bound (t / msPerMinute) 60 ltac:(lia)). lia. }
  assert (Hs : 0 <= SecFromTime t <= 59).
  { unfold SecFromTime.
    pose proof (Z.mod_pos_bound (t / msPerSecond) 60 ltac:(lia)). lia. }
  rewrite (four_digits (YearFromTime t)) by exact Hy.
  rewrite (two_digits (MonthFromTime t + 1)) by lia.
  rewrite (two_digits (DateFromTime t)) by lia.
  rewrite (two_digits (HourFromTime t)) by lia.
  rewrite (two_digits (MinFromTime t)) by lia.
  rewrite (two_digits (SecFromTime t)) by lia.
  destruct (Z.leb_spec 1 (MonthFromTime t + 1)); [|lia].
  destruct (Z.leb_spec (MonthFromTime t + 1) 12); [|lia].
  destruct (Z.leb_spec 1 (DateFromTime t)); [|lia].
  destruct (Z.leb_spec (DateFromTime t)
              (if MonthFromTime t + 1 =? 12 then 31
               else IsoFormat.DaysInMonth (YearFromTime t)
                      (MonthFromTime t + 1))); [|lia].
  destruct (Z.leb_spec (HourFromTime t) 23); [|lia].
  destruct (Z.leb_spec (MinFromTime t) 59); [|lia].
  destruct (Z.leb_spec (SecFromTime t) 59); [|lia].
  cbn [andb]. f_equal.
  replace (MonthFromTime t + 1 - 1) with (MonthFromTime t) by lia.
  rewrite MakeDay_fields. apply MakeDate_seconds.
Qed.

Lemma four_digit_year_range (t : Z) :
  0 <= YearFromTime t <= 9999 ->
  -62167219200000 <= t < 253402300800000.
Proof.
  intros Hy. unfold YearFromTime in Hy.
  pose proof (YearFromDay_spec (Day t)) as [Hlo Hhi].
  pose proof (DayFromYear_mono 0 (YearFromDay (Day t)) ltac:(lia)) as H0.
  pose proof (DayFromYear_mono (YearFromDay (Day t) + 1) 10000 ltac:(lia))
    as H1.
  change (DayFromYear 0) with (-719528) in H0.
  change (DayFromYear 10000) with 2932897 in H1.
  unfold Day, msPerDay in *. Z.div_mod_to_equations. lia.
Qed.

(** X15.  The text of a date: empty for null, a RangeError for the Invalid
    Date, and for every valid date a text; with a year of four digits the text
    is [YYYY-MM-DD HH:MM:SS], nineteen characters, with the milliseconds
    dropped. *)
Theorem formatDate_outcome (t : Z) :
  _formatDate None = inl ""%string
  /\ _formatDate (Some (mkDate NaN)) = inr RangeError
  /\ (exists text : string, _formatDate (Some (mkDate (Num t))) = inl text)
  /\ (0 <= YearFromTime t <= 9999 ->
      _formatDate (Some (mkDate (Num t))) = inl (seconds_text t)
      /\ String.length (seconds_text t) = 19%nat
      /\ seconds_text (msPerSecond * (t / msPerSecond)) = seconds_text t).
Proof.
  split; [reflexivity|]. split; [reflexivity|].
  split; [eexists; reflexivity|].
  intros Hy. split; [apply formatDate_text; exact Hy|].
  split; [reflexivity|].
  assert (Hd : Day (msPerSecond * (t / msPerSecond)) = Day t).
  { unfold Day, msPerSecond, msPerDay. Z.div_mod_to_equations. lia. }
  unfold seconds_text, MonthFromTime, DateFromTime, MonthFromTime,
    InLeapYear, DayWithinYear, YearFromTime. rewrite Hd.
  assert (Hh : HourFromTime (msPerSecond * (t / msPerSecond))
               = HourFromTime t).
  { unfold HourFromTime, msPerSecond, msPerHour, HoursPerDay.
    f_equal. Z.div_mod_to_equations. lia. }
  assert (Hi : MinFromTime (msPerSecond * (t / msPerSecond))
               = MinFromTime t).
  { unfold MinFromTime, msPerSecond, msPerMinute, MinutesPerHour.
    f_equal. Z.div_mod_to_equations. lia. }
  assert (Hs : SecFromTime (msPerSecond * (t / msPerSecond))
               = SecFromTime t).
  { unfold SecFromTime, msPerSecond.
    f_equal. Z.div_mod_to_equations. lia. }
  rewrite Hh, Hi, Hs. reflexivity.
Qed.

Lemma parseDate_shown (t : Z) :
  0 <= YearFromTime t <= 9999 ->
  _parseDate IsoFormat.parse (seconds_text t)
  = Some (mkDate (Num (msPerSecond * (t / msPerSecond)))).
Proof.
  intros Hy. rewrite parseDate_seconds_text, (parse_zulu_text t Hy).
  unfold new_Date. rewrite TimeClip_in_range; [reflexivity|].
  pose proof (four_digit_year_range t Hy).
  unfold msPerSecond, maxTimeValue. Z.div_mod_to_equations. lia.
Qed.

(** X16.  Reading back what was shown: for a date with a year of four digits,
    the text [_formatDate] gives is read by [_parseDate], with a parser that
    follows the standard on [YYYY-MM-DDTHH:MM:SSZ], as the same date truncated
    to its second, and as the same date when it has no milliseconds; the empty
    text of null is read as null. *)
Theorem format_then_parse (t : Z) :
  0 <= YearFromTime t <= 9999 ->
  exists text : string,
    _formatDate (Some (mkDate (Num t))) = inl text
    /\ _parseDate IsoFormat.parse text
       = Some (mkDate (Num (msPerSecond * (t / msPerSecond))))
    /\ (t mod msPerSecond = 0 ->
        _parseDate IsoFormat.parse text = Some (mkDate (Num t)))
    /\ (forall Date_parse : string -> num,
          _formatDate None = inl ""%string
          /\ _parseDate Date_parse "" = None).
Proof.
  intros Hy. exists (seconds_text t).
  assert (Hp : _parseDate IsoFormat.parse (seconds_text t)
               = Some (mkDate (Num (msPerSecond * (t / msPerSecond))))).
  { apply parseDate_shown. exact Hy. }
  split; [apply formatDate_text; exact Hy|].
  split; [exact Hp|]. split.
  - intros Hms. rewrite Hp. do 3 f_equal.
    unfold msPerSecond in *. Z.div_mod_to_equations. lia.
  - intros Date_parse. split; reflexivity.
Qed.

Lemma formatDate_valid (t : Z) :
  _formatDate (Some (mkDate (Num t)))
  = inl (replace_millis (replace_first "T" " " (ISOString t))).
Proof. reflexivity. Qed.

Lemma Config_set_same_mode (c : Config.t) :
  Config.set (Config.timemode_only (Config.timemode c)) c = c.
Proof. destruct c. reflexivity. Qed.

(** The three ways [render] can end. *)
Lemma render_cases (c : Config.t) (v : View) :
  (Config.endtime c = Some (mkDate NaN) -> render c v = Throw RangeError v)
  /\ (Config.endtime c <> Some (mkDate NaN) ->
      Config.starttime c = Some (mkDate NaN) ->
      exists text : string,
        _formatDate (Config.endtime c) = inl text
        /\ render c v = Throw RangeError (with_endTime_value text v))
  /\ (Config.endtime c <> Some (mkDate NaN) ->
      Config.starttime c <> Some (mkDate NaN) ->
      exists (v1 : View) (startText endText : string),
        render c v = Normal v1
        /\ _formatDate (Config.starttime c) = inl startText
        /\ _formatDate (Config.endtime c) = inl endText
        /\ _startTime_value v1 = startText
        /\ _endTime_value v1 = endText
        /\ _timeError v1 = _timeError v
        /\ _timeRealtime_checked v1
           = (Config.timemode c =? "realtime")%string
        /\ _timePastday_checked v1
           = negb (Config.timemode c =? "realtime")%string
             && (Config.timemode c =? "pastday")%string
        /\ _timeCustom_checked v1
           = negb (Config.timemode c =? "realtime")%string
             && negb (Config.timemode c =? "pastday")%string).
Proof.
  split; [|split].
  - intros He. unfold render. rewrite He. reflexivity.
  - intros He Hs. unfold render. rewrite Hs.
    destruct (Config.endtime c) as [[[|e]]|]; [contradiction| |];
      eexists; split; reflexivity.
  - intros He Hs. unfold render.
    destruct (Config.endtime c) as [[[|e]]|]; [contradiction| |];
      destruct (Config.starttime c) as [[[|s]]|]; try contradiction;
      cbn [_formatDate toISOString DateValue];
      destruct (Config.timemode c =? "realtime")%string;
      try destruct (Config.timemode c =? "pastday")%string;
      eexists _, _, _; repeat split.
Qed.

(** X17.  What [render] does to the time controls.  It fails with a RangeError
    when the stored end or the stored start is an Invalid Date, whatever the
    mode, and in the second case after it has rewritten the end input.
    Otherwise it completes with the custom button checked for every mode other
    than realtime and pastday, the default 'pasthour' included, and leaves the
    error slot alone. *)
Theorem render_outcome (c : Config.t) (v : View) :
  (Config.endtime c = Some (mkDate NaN) -> render c v = Throw RangeError v)
  /\ (Config.endtime c <> Some (mkDate NaN) ->
      Config.starttime c = Some (mkDate NaN) ->
      exists text : string,
        _formatDate (Config.endtime c) = inl text
        /\ render c v = Throw RangeError (with_endTime_value text v))
  /\ (Config.endtime c <> Some (mkDate NaN) ->
      Config.starttime c <> Some (mkDate NaN) ->
      exists (v1 : View) (startText endText : string),
        render c v = Normal v1
        /\ _formatDate (Config.starttime c) = inl startText
        /\ _formatDate (Config.endtime c) = inl endText
        /\ _startTime_value v1 = startText
        /\ _endTime_value v1 = endText
        /\ _timeError v1 = _timeError v
        /\ _timeRealtime_checked v1
           = (Config.timemode c =? "realtime")%string
        /\ _timePastday_checked v1
           = negb (Config.timemode c =? "realtime")%string
             && (Config.timemode c =? "pastday")%string
        /\ _timeCustom_checked v1
           = negb (Config.timemode c =? "realtime")%string
             && negb (Config.timemode c =? "pastday")%string).
Proof. apply render_cases. Qed.

Lemma timemode_only_same (c : Config.t) :
  Config.anyChanged (Config.timemode_only (Config.timemode c)) c = false.
Proof.
  unfold Config.anyChanged, Config.named, Config.timemode_only.
  cbn [Config.set_channel Config.set_endtime Config.set_observatory
       Config.set_starttime Config.set_timemode orb].
  rewrite String.eqb_refl. reflexivity.
Qed.

Section AnyParser.

Variable Date_parse : string -> num.

(** X18.  In a live mode, after a completed [render]: an event of one of the
    two inputs or of the button makes the handler set the mode that is
    already stored, which changes no value, so the configuration is exactly
    as before and no cycle starts.  A change event of a radio button reaches
    the handler after the browser has checked that button: the realtime and
    the pastday button set their mode, the custom button sets nothing.  None
    of these events touches the stored times, the channel or the
    observatory. *)
Theorem render_then_event_live (c : Config.t) (v v1 : View) (e : target) :
  Config.timemode c = "realtime"%string
  \/ Config.timemode c = "pastday"%string ->
  render c v = Normal v1 ->
  let r := _onTimeChange Date_parse e (check_radio e v1) in
  let c' := commit (snd r) c in
  (Config.starttime c' = Config.starttime c
   /\ Config.endtime c' = Config.endtime c
   /\ Config.channel c' = Config.channel c
   /\ Config.observatory c' = Config.observatory c)
  /\ (e = StartTime \/ e = EndTime \/ e = TimeUpdate ->
      snd r = Some (Config.timemode_only (Config.timemode c))
      /\ Config.anyChanged (Config.timemode_only (Config.timemode c)) c
         = false
      /\ c' = c)
  /\ (e = TimeRealtime \/ e = TimePastday ->
      snd r = Some (Config.timemode_only (Selection.radio_mode e))
      /\ Config.timemode c' = Selection.radio_mode e)
  /\ (e = TimeCustom -> snd r = None /\ c' = c).
Proof.
  intros Hm Hr r c'.
  destruct (render_cases c v) as (H1 & H2 & H3).
  assert (He : Config.endtime c <> Some (mkDate NaN)).
  { intros E. rewrite (H1 E) in Hr. discriminate Hr. }
  assert (Hs : Config.starttime c <> Some (mkDate NaN)).
  { intros E. destruct (H2 He E) as (text & _ & H). rewrite H in Hr.
    discriminate Hr. }
  destruct (H3 He Hs) as (v1' & st & et & Hr' & _ & _ & _ & _ & _
                          & Hrt & Hpd & Hcu).
  rewrite Hr in Hr'. injection Hr' as <-.
  assert (Hcu' : _timeCustom_checked v1 = false).
  { rewrite Hcu. destruct Hm as [Hm|Hm]; rewrite Hm; reflexivity. }
  assert (Hlive : (_timeRealtime_checked v1 = true
                   /\ Config.timemode c = "realtime"%string)
                  \/ (_timeRealtime_checked v1 = false
                      /\ _timePastday_checked v1 = true
                      /\ Config.timemode c = "pastday"%string)).
  { rewrite Hrt, Hpd. destruct Hm as [Hm|Hm]; rewrite Hm;
      [left|right]; repeat split. }
  assert (Hinput : e = StartTime \/ e = EndTime \/ e = TimeUpdate ->
                   snd r = Some (Config.timemode_only (Config.timemode c))).
  { intros Hin. unfold r.
    assert (Ev : check_radio e v1 = v1)
      by (destruct Hin as [H|[H|H]]; rewrite H; reflexivity).
    rewrite Ev. unfold _onTimeChange. rewrite Hcu'.
    cbn [with_timeEl_custom _timeRealtime_checked _timePastday_checked].
    destruct Hlive as [[Ha Hb]|(Ha & Hb & Hc)].
    - rewrite Ha, Hb. reflexivity.
    - rewrite Ha, Hb, Hc. reflexivity. }
  assert (Hradio : e = TimeRealtime \/ e = TimePastday ->
                   snd r = Some (Config.timemode_only
                                   (Selection.radio_mode e))).
  { intros [H|H]; unfold r; rewrite H; reflexivity. }
  assert (Hcustom : e = TimeCustom -> snd r = None).
  { intros H. unfold r. rewrite H. reflexivity. }
  split; [|split; [|split]].
  - unfold c'.
    destruct e;
      first [rewrite Hradio by auto | rewrite Hcustom by auto
            | rewrite Hinput by auto];
      repeat split.
  - intros Hin. split; [exact (Hinput Hin)|].
    split; [apply timemode_only_same|].
    unfold c'. rewrite (Hinput Hin). apply Config_set_same_mode.
  - intros Hra. split; [exact (Hradio Hra)|].
    unfold c'. rewrite (Hradio Hra). reflexivity.
  - intros Hc. split; [exact (Hcustom Hc)|].
    unfold c'. rewrite (Hcustom Hc). reflexivity.
Qed.

End AnyParser.

(** X19.  Submitting what [render] shows: for a configuration whose start and
    end are valid dates with years of four digits, in order and at most 31
    days apart once truncated to the second, an event of the inputs or of the
    button, with the custom button checked and the inputs as [render] left
    them, commits the stored times truncated to the second with the mode
    custom; stored times without milliseconds are committed as they are. *)
Theorem render_then_submit
  (c : Config.t) (v : View) (e : target) (s en : Z) :
  Config.starttime c = Some (mkDate (Num s)) ->
  Config.endtime c = Some (mkDate (Num en)) ->
  0 <= YearFromTime s <= 9999 ->
  0 <= YearFromTime en <= 9999 ->
  msPerSecond * (s / msPerSecond)
  <= msPerSecond * (en / msPerSecond)
  <= msPerSecond * (s / msPerSecond) + 2678400000 ->
  is_timeCustom e = false ->
  exists v1 : View,
    render c v = Normal v1
    /\ _startTime_value v1 = seconds_text s
    /\ _endTime_value v1 = seconds_text en
    /\ (let r := _onTimeChange IsoFormat.parse e
                   (check_radio TimeCustom v1) in
        _timeError (fst r) = None
        /\ snd r
           = Some (Selection.custom_patch
                     (Some (mkDate (Num (msPerSecond * (s / msPerSecond)))))
                     (Some (mkDate (Num (msPerSecond * (en / msPerSecond))))))
        /\ (s mod msPerSecond = 0 -> en mod msPerSecond = 0 ->
            Config.starttime (commit (snd r) c) = Config.starttime c
            /\ Config.endtime (commit (snd r) c) = Config.endtime c
            /\ Config.timemode (commit (snd r) c) = "custom"%string
            /\ Config.channel (commit (snd r) c) = Config.channel c
            /\ Config.observatory (commit (snd r) c)
               = Config.observatory c)).
Proof.
  intros Hs He Hys Hye Hord Htarget.
  destruct (render_cases c v) as (_ & _ & H3).
  destruct H3 as (v1 & st & et & Hr & Hst & Het & Hsv & Hev & _).
  { rewrite He. discriminate. }
  { rewrite Hs. discriminate. }
  rewrite Hs, formatDate_text in Hst by exact Hys. injection Hst as <-.
  rewrite He, formatDate_text in Het by exact Hye. injection Het as <-.
  exists v1. split; [exact Hr|]. split; [exact Hsv|]. split; [exact Hev|].
  pose proof (parseDate_shown s Hys) as Hps.
  pose proof (parseDate_shown en Hye) as Hpe.
  set (w := check_radio TimeCustom v1).
  assert (Hw1 : _timeCustom_checked w = true) by reflexivity.
  assert (Hw2 : _startTime_value w = seconds_text s) by exact Hsv.
  assert (Hw3 : _endTime_value w = seconds_text en) by exact Hev.
  rewrite <- Hw2 in Hps. rewrite <- Hw3 in Hpe.
  cbv zeta.
  rewrite (onTimeChange_submit IsoFormat.parse e w Hw1 Htarget), Hps, Hpe.
  cbv zeta.
  destruct (Z.gtb_spec (msPerSecond * (s / msPerSecond))
              (msPerSecond * (en / msPerSecond))); [lia|].
  destruct (Z.gtb_spec (msPerSecond * (en / msPerSecond)
                        - msPerSecond * (s / msPerSecond)) 2678400000);
    [lia|].
  cbn [fst snd _timeError with_timeError].
  split; [reflexivity|]. split; [reflexivity|].
  intros Hms Hme.
  assert (Es : msPerSecond * (s / msPerSecond) = s)
    by (unfold msPerSecond in *; Z.div_mod_to_equations; lia).
  assert (Ee : msPerSecond * (en / msPerSecond) = en)
    by (unfold msPerSecond in *; Z.div_mod_to_equations; lia).
  rewrite Es, Ee. cbn. rewrite Hs, He. repeat split.
Qed.

(** X10.  The description of the application: the update fails, with a
    RangeError, exactly when the mode is neither realtime nor pastday and the
    stored start or end is an Invalid Date.  A successful answer is published,
    merged and sorted, either way; it clears the loading mark when the update
    completes and leaves the mark as it is when the update fails. *)
Theorem description_and_loading (response : list Timeseries.t) (a : App) :
  ((exists html : string, _updateDescription_html a = inl html)
   \/ _updateDescription_html a = inr RangeError)
  /\ (_updateDescription_html a = inr RangeError
      <-> Config.timemode (_config a) <> "realtime"%string
          /\ Config.timemode (_config a) <> "pastday"%string
          /\ (Config.starttime (_config a) = Some (mkDate NaN)
              \/ Config.endtime (_config a) = Some (mkDate NaN)))
  /\ (_updateDescription_html a = inr RangeError
      <-> _updateDescription a = Some RangeError)
  /\ ((exists html : string, _updateDescription_html a = inl html) ->
      exists a' : App,
        _onTimeseriesLoad response a = Normal a'
        /\ loading a' = false
        /\ _timeseries a'
           = Array_sort compare_timeseries
               (map (copy_metadata (_observatories a)) response))
  /\ (_updateDescription_html a = inr RangeError ->
      exists a' : App,
        _onTimeseriesLoad response a = Throw RangeError a'
        /\ loading a' = loading a
        /\ _timeseries a'
           = Array_sort compare_timeseries
               (map (copy_metadata (_observatories a)) response)).
Proof.
  assert (Habs : _updateDescription
                   (with_timeseries
                      (Array_sort compare_timeseries
                         (map (copy_metadata (_observatories a)) response)) a)
                 = _updateDescription a) by reflexivity.
  unfold _onTimeseriesLoad. rewrite Habs.
  unfold _updateDescription_html, _updateDescription, __formatDate.
  destruct (String.eqb_spec (Config.timemode (_config a)) "realtime")
    as [Hr|Hr].
  { destruct (Config.observatory (_config a));
      [destruct (Collection_get _ _)|destruct (Config.channel (_config a))];
      (split; [left; eexists; reflexivity|]);
      (split; [split; [discriminate|intros (H & _); contradiction]|]);
      (split; [split; discriminate|]);
      (split; [intros _; eexists; repeat split|discriminate]). }
  destruct (String.eqb_spec (Config.timemode (_config a)) "pastday")
    as [Hp|Hp].
  { destruct (Config.observatory (_config a));
      [destruct (Collection_get _ _)|destruct (Config.channel (_config a))];
      (split; [left; eexists; reflexivity|]);
      (split; [split; [discriminate|intros (_ & H & _); contradiction]|]);
      (split; [split; discriminate|]);
      (split; [intros _; eexists; repeat split|discriminate]). }
  destruct (Config.starttime (_config a)) as [[[|s]]|];
    destruct (Config.endtime (_config a)) as [[[|e]]|];
    cbn [_formatDate toISOString DateValue getTime isNaN];
    destruct (Config.observatory (_config a));
    try destruct (Collection_get _ _);
    try destruct (Config.channel (_config a));
    (split; [first [right; reflexivity|left; eexists; reflexivity]|]);
    (split;
     [split;
      [intros H;
       first [discriminate H|split; [exact Hr|split; [exact Hp|auto]]]
      |intros (_ & _ & [H|H]); try discriminate H; reflexivity]|]);
    (split; [split; intros H; try discriminate H; reflexivity|]);
    (split;
     [intros [html H]; try discriminate H; eexists; repeat split
     |intros H; try discriminate H; eexists; repeat split]).
Qed.

End FormatTheorems.

(** ** The further theorems at concrete inputs *)

Module FurtherExamples.

Import JS ESDate ESDateText TimeseriesApp TimeseriesSelectView Rendering
  Selection Order Text Examples MoreExamples TimerTheorems ValidationTheorems
  InterplayTheorems OrderTheorems FormatTheorems.

(** The refresh of the realtime application, five minutes after its
    first cycle. *)
Lemma refresh_rearms_witness :
  (Config.timemode (_config armed_app) = "realtime"%string
   /\ timers armed_app = [(0%nat, 300000)])
  /\ timers (step armed_app (TimeoutFires 0 (three_past_midnight + 300000)))
     = [(1%nat, 300000)]
  /\ List.length
       (requests
          (step armed_app (TimeoutFires 0 (three_past_midnight + 300000))))
     = 2%nat.
Proof.
  assert (H1 : Config.timemode (_config armed_app) = "realtime"%string)
    by reflexivity.
  assert (H2 : timers armed_app = [(0%nat, 300000)]) by reflexivity.
  split; [split; assumption|].
  destruct (refresh_rearms 0 (three_past_midnight + 300000) armed_app
              (or_introl H1) H2) as ((r & Hq & _) & _ & _ & Ht).
  split; [exact Ht|]. rewrite Hq. reflexivity.
Defined.

(** Realtime at three minutes past midnight. *)
Lemma live_window_brackets_now_witness :
  (0 <= three_past_midnight <= maxTimeValue - 300000
   /\ Config.timemode (_config realtime_app) = "realtime"%string)
  /\ exists (a' : App) (r : Request) (s e : Z),
       _onConfigChange three_past_midnight realtime_app = Normal a'
       /\ requests a' = r :: requests realtime_app
       /\ req_starttime r = mkDate (Num s)
       /\ req_endtime r = mkDate (Num e)
       /\ e - s = 900000
       /\ s < three_past_midnight < e
       /\ e - three_past_midnight <= 60000
       /\ req_seconds r = true.
Proof.
  assert (H1 : 0 <= three_past_midnight <= maxTimeValue - 300000)
    by (unfold three_past_midnight, maxTimeValue; lia).
  split; [split; [exact H1|reflexivity]|].
  exact (proj1 (live_window_brackets_now three_past_midnight realtime_app H1)
           eq_refl).
Defined.

(** Two readings a minute and a half apart, rounded to five minutes. *)
Lemma roundUp_monotone_witness :
  (0 < 5 /\ 60 mod 5 = 0
   /\ 0 <= three_past_midnight <= three_past_midnight + 90000
   /\ three_past_midnight + 90000 <= maxTimeValue - 3600000)
  /\ exists r1 r2 : Z,
       __roundUpToNearestNMinutes (mkDate (Num three_past_midnight)) 5
       = mkDate (Num r1)
       /\ __roundUpToNearestNMinutes
            (mkDate (Num (three_past_midnight + 90000))) 5
          = mkDate (Num r2)
       /\ r1 <= r2
       /\ three_past_midnight + 90000 < r2.
Proof.
  assert (H1 : 0 < 5) by lia.
  assert (H2 : 60 mod 5 = 0) by reflexivity.
  assert (H3 : 0 <= three_past_midnight <= three_past_midnight + 90000)
    by (unfold three_past_midnight; lia).
  assert (H4 : three_past_midnight + 90000 <= maxTimeValue - 3600000)
    by (unfold three_past_midnight, maxTimeValue; lia).
  split; [repeat split; assumption|].
  exact (roundUp_monotone three_past_midnight (three_past_midnight + 90000) 5
           H1 H2 H3 H4).
Defined.

(** An input typed with the T and without the Z. *)
Lemma parseDate_final_Z_witness :
  ("2021-01-01T00:00:00"%string <> ""%string
   /\ occurs "Z" "2021-01-01T00:00:00" = false)
  /\ _parseDate IsoFormat.parse "2021-01-01T00:00:00Z"
     = _parseDate IsoFormat.parse "2021-01-01T00:00:00".
Proof.
  assert (H1 : "2021-01-01T00:00:00"%string <> ""%string) by discriminate.
  assert (H2 : occurs "Z" "2021-01-01T00:00:00" = false) by reflexivity.
  split; [split; assumption|].
  exact (parseDate_final_Z IsoFormat.parse "2021-01-01T00:00:00" H1 H2).
Defined.

(** An empty start input. *)
Lemma invalid_time_rejected_witness :
  let v := custom_view "" "2021-01-01 00:00:00" in
  (_timeCustom_checked v = true
   /\ is_timeCustom TimeUpdate = false
   /\ forall s : Z,
        _parseDate IsoFormat.parse (_startTime_value v)
        <> Some (mkDate (Num s)))
  /\ _timeError (fst (_onTimeChange IsoFormat.parse TimeUpdate v))
     = Some valid_message
  /\ snd (_onTimeChange IsoFormat.parse TimeUpdate v) = None.
Proof.
  intros v.
  assert (H1 : _timeCustom_checked v = true) by reflexivity.
  assert (H2 : is_timeCustom TimeUpdate = false) by reflexivity.
  assert (H3 : forall s : Z,
             _parseDate IsoFormat.parse (_startTime_value v)
             <> Some (mkDate (Num s))) by (intros s; discriminate).
  split; [split; [exact H1|split; [exact H2|exact H3]]|].
  exact (invalid_time_rejected IsoFormat.parse TimeUpdate v H1 H2
           (or_introl H3)).
Defined.

(** A valid pair submitted while an old message is shown. *)
Lemma error_cleared_iff_committed_witness :
  let v := with_timeError (Some order_message)
             (custom_view "2021-01-01 00:00:00" "2021-01-02 00:00:00") in
  (_timeCustom_checked v = true /\ is_timeCustom StartTime = false)
  /\ _timeError (fst (_onTimeChange IsoFormat.parse StartTime v)) = None
  /\ exists p : Config.patch,
       snd (_onTimeChange IsoFormat.parse StartTime v) = Some p.
Proof.
  intros v.
  assert (H1 : _timeCustom_checked v = true) by reflexivity.
  assert (H2 : is_timeCustom StartTime = false) by reflexivity.
  split; [split; assumption|].
  destruct (error_cleared_iff_committed IsoFormat.parse StartTime v None
              H1 H2) as (Hiff & _ & _).
  assert (He : _timeError (fst (_onTimeChange IsoFormat.parse StartTime v))
               = None) by (vm_compute; reflexivity).
  split; [exact He|]. apply Hiff. exact He.
Defined.

(** The commit of the first two days of 2021. *)
Lemma time_handler_writes_witness :
  let v := custom_view "2021-01-01 00:00:00" "2021-01-02 00:00:00" in
  let p := custom_patch (Some (mkDate (Num 1609459200000)))
                        (Some (mkDate (Num 1609545600000))) in
  snd (_onTimeChange IsoFormat.parse TimeUpdate v) = Some p
  /\ Config.set_channel p = None
  /\ Config.set_observatory p = None.
Proof.
  intros v p.
  assert (H : snd (_onTimeChange IsoFormat.parse TimeUpdate v) = Some p)
    by (vm_compute; reflexivity).
  split; [exact H|].
  exact (proj1 (time_handler_writes IsoFormat.parse TimeUpdate v p H)).
Defined.

(** From realtime: a channel, an observatory, custom times, a rejected
    pair. *)
Lemma ui_never_breaks_cycle_witness :
  let evs := [ChannelClick (Some "E"%string);
              ObservatoryClick (Some "BOU"%string);
              TimeChange TimeUpdate
                (custom_view "2021-01-01 00:00:00" "2021-01-02 00:00:00");
              TimeChange TimeUpdate
                (custom_view "2021-01-03 00:00:00" "2021-01-02 00:00:00")] in
  resolvable (_config realtime_app)
  /\ Config.timemode (ui_run IsoFormat.parse (_config realtime_app) evs)
     = "custom"%string
  /\ exists (a' : App) (r : Request),
       _onConfigChange three_past_midnight
         (with_config (ui_run IsoFormat.parse (_config realtime_app) evs)
            realtime_app)
       = Normal a'
       /\ requests a' = r :: requests realtime_app.
Proof.
  intros evs.
  assert (H : resolvable (_config realtime_app)) by (left; reflexivity).
  split; [exact H|]. split; [vm_compute; reflexivity|].
  destruct (ui_never_breaks_cycle IsoFormat.parse evs three_past_midnight
              realtime_app H) as (_ & a' & r & H1 & H2 & _).
  exists a', r. split; [exact H1|exact H2].
Defined.

(** A click on Boulder in the realtime application, which shows channel
    H: a request for all the channels at Boulder. *)
Lemma selection_shapes_request_witness :
  ("BOU"%string <> ""%string
   /\ resolvable (_config realtime_app)
   /\ Config.channel (_config realtime_app) <> None)
  /\ exists (p : Config.patch) (r : Request),
       _onObservatoryClick (Some "BOU"%string) = Some p
       /\ requests (step realtime_app (ConfigSet p three_past_midnight))
          = r :: requests realtime_app
       /\ req_observatory r = Some "BOU"%string
       /\ req_channel r = None
       /\ req_channels r = Some ["H"; "E"; "Z"; "F"]%string.
Proof.
  assert (H1 : "BOU"%string <> ""%string) by discriminate.
  assert (H2 : resolvable (_config realtime_app)) by (left; reflexivity).
  assert (H3 : Config.channel (_config realtime_app) <> None)
    by discriminate.
  split; [split; [exact H1|split; [exact H2|exact H3]]|].
  destruct (proj1 (selection_shapes_request "BOU" three_past_midnight
                     realtime_app H1 H2)) as (p & Hp & Hnew & _).
  destruct (Hnew (or_intror H3)) as (r & Hr).
  exists p, r. split; [exact Hp|exact Hr].
Defined.

Lemma answer_has_latitudes :
  Forall has_latitude (map (copy_metadata reference) answer).
Proof.
  repeat apply Forall_cons; try apply Forall_nil;
    eexists; (split; [reflexivity|]); intros H; discriminate H.
Qed.

(** Honolulu, Barrow, Boulder: published from north to south. *)
Lemma published_by_descending_latitude_witness :
  Forall has_latitude (map (copy_metadata (_observatories reference_app)) answer)
  /\ map code_of
       (_timeseries (state_of (_onTimeseriesLoad answer reference_app)))
     = ["BRW"; "BOU"; "HON"]%string
  /\ StronglySorted (fun x y => (latitude_of y <= latitude_of x)%Q)
       (_timeseries (state_of (_onTimeseriesLoad answer reference_app))).
Proof.
  split; [exact answer_has_latitudes|].
  split; [vm_compute; reflexivity|].
  exact (published_by_descending_latitude answer reference_app
           answer_has_latitudes).
Defined.

Lemma answer_without_latitudes :
  Forall no_latitude (map (copy_metadata []) answer).
Proof. repeat apply Forall_cons; try apply Forall_nil; reflexivity. Qed.

(** The same answer with an empty reference collection: by code. *)
Lemma published_by_ascending_code_witness :
  Forall no_latitude (map (copy_metadata (_observatories custom_app)) answer)
  /\ map code_of
       (_timeseries (state_of (_onTimeseriesLoad answer custom_app)))
     = ["BOU"; "BRW"; "HON"]%string
  /\ StronglySorted (fun x y => String.leb (code_of x) (code_of y) = true)
       (_timeseries (state_of (_onTimeseriesLoad answer custom_app))).
Proof.
  split; [exact answer_without_latitudes|].
  split; [vm_compute; reflexivity|].
  exact (published_by_ascending_code answer custom_app
           answer_without_latitudes).
Defined.

Lemma year_of_half_past : 0 <= YearFromTime half_past <= 9999.
Proof. vm_compute. split; discriminate. Qed.

(** Half a second past midnight on 2021-01-01. *)
Lemma formatDate_outcome_witness :
  0 <= YearFromTime half_past <= 9999
  /\ _formatDate (Some (mkDate (Num half_past)))
     = inl "2021-01-01 00:00:00"%string.
Proof.
  split; [exact year_of_half_past|].
  destruct (formatDate_outcome half_past) as (_ & _ & _ & H).
  destruct (H year_of_half_past) as (Ht & _). rewrite Ht.
  vm_compute. reflexivity.
Defined.

(** The same instant read back: the half second is gone. *)
Lemma format_then_parse_witness :
  0 <= YearFromTime half_past <= 9999
  /\ exists text : string,
       _formatDate (Some (mkDate (Num half_past))) = inl text
       /\ _parseDate IsoFormat.parse text
          = Some (mkDate (Num 1609459200000)).
Proof.
  split; [exact year_of_half_past|].
  destruct (format_then_parse half_past year_of_half_past)
    as (text & H1 & H2 & _).
  exists text. split; [exact H1|exact H2].
Defined.

(** The default configuration rendered: no times, the custom button. *)
Lemma render_outcome_witness :
  (Config.endtime Config.defaults <> Some (mkDate NaN)
   /\ Config.starttime Config.defaults <> Some (mkDate NaN))
  /\ exists v1 : View,
       render Config.defaults (live_view TimeRealtime) = Normal v1
       /\ _startTime_value v1 = ""%string
       /\ _endTime_value v1 = ""%string
       /\ _timeCustom_checked v1 = true.
Proof.
  assert (H1 : Config.endtime Config.defaults <> Some (mkDate NaN))
    by discriminate.
  assert (H2 : Config.starttime Config.defaults <> Some (mkDate NaN))
    by discriminate.
  split; [split; assumption|].
  destruct (render_outcome Config.defaults (live_view TimeRealtime))
    as (_ & _ & H).
  destruct (H H1 H2) as (v1 & st & et & Hr & Hst & Het & Hs & He & _ & _ & _
                         & Hc).
  exists v1. split; [exact Hr|].
  injection Hst as <-. injection Het as <-.
  split; [exact Hs|]. split; [exact He|exact Hc].
Defined.

(** A change of the start input while realtime is configured. *)
Lemma render_then_event_live_witness :
  let c := Config.set (Config.timemode_only "realtime") custom_config in
  let v := custom_view "" "" in
  (Config.timemode c = "realtime"%string
   /\ render c v = Normal (state_of_view (render c v)))
  /\ commit (snd (_onTimeChange IsoFormat.parse StartTime
                    (check_radio StartTime (state_of_view (render c v))))) c
     = c.
Proof.
  intros c v.
  assert (H1 : Config.timemode c = "realtime"%string) by reflexivity.
  assert (H2 : render c v = Normal (state_of_view (render c v)))
    by reflexivity.
  split; [split; assumption|].
  destruct (render_then_event_live IsoFormat.parse c v _ StartTime
              (or_introl H1) H2) as (_ & Hin & _).
  exact (proj2 (proj2 (Hin (or_introl eq_refl)))).
Defined.

(** The same page when the pastday button is chosen: the mode changes. *)
Lemma pastday_button_after_render :
  let c := Config.set (Config.timemode_only "realtime") custom_config in
  let v1 := state_of_view (render c (custom_view "" "")) in
  Config.timemode
    (commit (snd (_onTimeChange IsoFormat.parse TimePastday
                    (check_radio TimePastday v1))) c)
  = "pastday"%string.
Proof. vm_compute. reflexivity. Qed.

(** The custom configuration rendered and submitted again. *)
Lemma render_then_submit_witness :
  (Config.starttime custom_config = Some (mkDate (Num 1609459200000))
   /\ Config.endtime custom_config = Some (mkDate (Num 1609545600000))
   /\ is_timeCustom TimeUpdate = false)
  /\ exists v1 : View,
       render custom_config (live_view TimeRealtime) = Normal v1
       /\ _startTime_value v1 = "2021-01-01 00:00:00"%string
       /\ _endTime_value v1 = "2021-01-02 00:00:00"%string
       /\ commit (snd (_onTimeChange IsoFormat.parse TimeUpdate
                         (check_radio TimeCustom v1))) custom_config
          = custom_config.
Proof.
  assert (H1 : Config.starttime custom_config
               = Some (mkDate (Num 1609459200000))) by reflexivity.
  assert (H2 : Config.endtime custom_config
               = Some (mkDate (Num 1609545600000))) by reflexivity.
  assert (H3 : 0 <= YearFromTime 1609459200000 <= 9999)
    by (vm_compute; split; discriminate).
  assert (H4 : 0 <= YearFromTime 1609545600000 <= 9999)
    by (vm_compute; split; discriminate).
  assert (H5 : msPerSecond * (1609459200000 / msPerSecond)
               <= msPerSecond * (1609545600000 / msPerSecond)
               <= msPerSecond * (1609459200000 / msPerSecond) + 2678400000)
    by (vm_compute; split; discriminate).
  assert (H6 : is_timeCustom TimeUpdate = false) by reflexivity.
  split; [split; [exact H1|split; [exact H2|exact H6]]|].
  destruct (render_then_submit custom_config (live_view TimeRealtime)
              TimeUpdate _ _ H1 H2 H3 H4 H5 H6)
    as (v1 & Hr & Hs & He & _ & Hp & _).
  exists v1. split; [exact Hr|].
  split; [rewrite Hs; vm_compute; reflexivity|].
  split; [rewrite He; vm_compute; reflexivity|].
  rewrite Hp. vm_compute. reflexivity.
Defined.

(** An answer while a custom start is the Invalid Date, and the same
    answer with the custom times of the examples. *)
Lemma description_and_loading_witness :
  let a := with_loading true
             (with_config
                (Config.set
                   (custom_patch (Some (mkDate NaN))
                      (Some (mkDate (Num 1609545600000))))
                   Config.defaults)
                custom_app) in
  let b := with_loading true custom_app in
  (_updateDescription_html a = inr RangeError
   /\ exists html : string, _updateDescription_html b = inl html)
  /\ (exists a' : App,
        _onTimeseriesLoad answer a = Throw RangeError a'
        /\ loading a' = true
        /\ List.length (_timeseries a') = 3%nat)
  /\ (exists b' : App,
        _onTimeseriesLoad answer b = Normal b'
        /\ loading b' = false
        /\ List.length (_timeseries b') = 3%nat).
Proof.
  intros a b.
  assert (H : _updateDescription_html a = inr RangeError) by reflexivity.
  assert (H' : exists html : string, _updateDescription_html b = inl html)
    by (eexists; reflexivity).
  split; [split; [exact H|exact H']|].
  split.
  - destruct (description_and_loading answer a) as (_ & _ & _ & _ & Hthrow).
    destruct (Hthrow H) as (a' & H1 & H2 & H3).
    exists a'. split; [exact H1|]. split; [exact H2|].
    rewrite H3. reflexivity.
  - destruct (description_and_loading answer b) as (_ & _ & _ & Hdone & _).
    destruct (Hdone H') as (b' & H1 & H2 & H3).
    exists b'. split; [exact H1|]. split; [exact H2|].
    rewrite H3. reflexivity.
Defined.

(** South, unplaced, north. *)
Lemma comparator_circle_witness :
  (has_latitude south /\ no_latitude unplaced /\ has_latitude north)
  /\ (compare_timeseries south unplaced < 0)%Q
  /\ (compare_timeseries unplaced north < 0)%Q
  /\ (compare_timeseries north south < 0)%Q.
Proof.
  assert (H1 : has_latitude south).
  { eexists. split; [reflexivity|]. intros H. discriminate H. }
  assert (H2 : no_latitude unplaced) by reflexivity.
  assert (H3 : has_latitude north).
  { eexists. split; [reflexivity|]. intros H. discriminate H. }
  split; [split; [exact H1|split; [exact H2|exact H3]]|].
  apply (comparator_circle south unplaced north H1 H2 H3);
    reflexivity.
Defined.

(** The application switched to realtime and then to custom times: the
    refresh is gone and its old timeout does nothing. *)
Lemma config_change_settles_timers_witness :
  let a := run default_app [ConfigSet (Config.timemode_only "realtime")
                              three_past_midnight] in
  let p := custom_patch (Some (mkDate (Num 1609459200000)))
                        (Some (mkDate (Num 1609545600000))) in
  let a' := step a (ConfigSet p three_past_midnight) in
  (Config.anyChanged p (_config a) = true
   /\ In (0%nat, 300000) (timers a))
  /\ timers a' = []
  /\ step a' (TimeoutFires 0 (three_past_midnight + 300000)) = a'.
Proof.
  intros a p a'.
  assert (Hch : Config.anyChanged p (_config a) = true) by reflexivity.
  assert (Hin : In (0%nat, 300000) (timers a)) by (left; reflexivity).
  split; [split; [exact Hch|exact Hin]|].
  destruct (config_change_settles_timers
              ["H"; "E"; "Z"; "F"]%string Config.defaults
              [] [ConfigSet (Config.timemode_only "realtime")
                    three_past_midnight]
              p three_past_midnight (three_past_midnight + 300000) 0 300000)
    as (Hset & _).
  destruct (Hset Hch) as (_ & _ & Hother & Hold).
  split; [|exact (Hold Hin)].
  apply Hother; cbn; discriminate.
Defined.

(** Realtime set again while realtime is configured: nothing happens,
    the timeout stays. *)
Lemma same_mode_set_again :
  let a := run default_app [ConfigSet (Config.timemode_only "realtime")
                              three_past_midnight] in
  step a (ConfigSet (Config.timemode_only "realtime")
            (three_past_midnight + 1000)) = a
  /\ timers a = [(0%nat, 300000)]
  /\ List.length (requests a) = 1%nat.
Proof. vm_compute. repeat split. Qed.

End FurtherExamples.

(** ** Switching the mode and coming back *)

Module ModeSwitchTheorems.

Import JS ESDate ESDateText TimeseriesApp TimeseriesSelectView Rendering
  Selection RoundUpFacts SelectViewTheorems ValidationTheorems FormatTheorems.

(** What a change event of the realtime or the pastday button makes the
    handler do, on any page: the button is checked when the handler runs,
    and the handler sets the mode and nothing else. *)
Lemma live_button_sets_mode
  (Date_parse : string -> num) (live : target) (v : View) :
  live = TimeRealtime \/ live = TimePastday ->
  snd (_onTimeChange Date_parse live (check_radio live v))
  = Some (Config.timemode_only (radio_mode live)).
Proof. intros [H|H]; rewrite H; reflexivity. Qed.

(** C9 (as amended).  For a configuration with custom times, a switch to
    realtime or to pastday writes the timemode and no other attribute, so
    the stored start and end, the channel and the observatory are as
    before, after one switch and after any number of them.  The way back
    is not a write of the timemode alone: checking the custom button
    writes nothing, and the mode becomes custom again only when the inputs
    are submitted, in one [set] with the start and the end read from them.
    With the inputs as [render] filled them, from stored times that are
    valid dates with years of four digits, in order and at most 31 days
    apart once truncated to the second, the times written are the stored
    ones truncated to the second: the stored ones themselves when they have
    no milliseconds. *)
Theorem mode_switch_and_back
  (Date_parse : string -> num) (c : Config.t) (v0 v : View)
  (live e : target) (events : list (target * View)) (s en : Z) :
  Config.starttime c = Some (mkDate (Num s)) ->
  Config.endtime c = Some (mkDate (Num en)) ->
  0 <= YearFromTime s <= 9999 ->
  0 <= YearFromTime en <= 9999 ->
  msPerSecond * (s / msPerSecond)
  <= msPerSecond * (en / msPerSecond)
  <= msPerSecond * (s / msPerSecond) + 2678400000 ->
  live = TimeRealtime \/ live = TimePastday ->
  e = StartTime \/ e = EndTime \/ e = TimeUpdate ->
  Forall mode_switch events ->
  let r1 := _onTimeChange Date_parse live (check_radio live v0) in
  let c1 := commit (snd r1) c in
  (snd r1 = Some (Config.timemode_only (radio_mode live))
   /\ Config.timemode c1 = radio_mode live
   /\ Config.starttime c1 = Config.starttime c
   /\ Config.endtime c1 = Config.endtime c
   /\ Config.channel c1 = Config.channel c
   /\ Config.observatory c1 = Config.observatory c)
  /\ (Config.starttime (handle_all Date_parse events c) = Config.starttime c
      /\ Config.endtime (handle_all Date_parse events c) = Config.endtime c)
  /\ exists v1 : View,
       render c1 v = Normal v1
       /\ _timeCustom_checked v1 = false
       /\ _startTime_value v1 = seconds_text s
       /\ _endTime_value v1 = seconds_text en
       /\ (let r := _onTimeChange Date_parse TimeCustom
                      (check_radio TimeCustom v1) in
           snd r = None /\ commit (snd r) c1 = c1)
       /\ (let r2 := _onTimeChange IsoFormat.parse e
                       (check_radio TimeCustom v1) in
           let c2 := commit (snd r2) c1 in
           _timeError (fst r2) = None
           /\ snd r2
              = Some (custom_patch
                        (Some (mkDate (Num (msPerSecond * (s / msPerSecond)))))
                        (Some (mkDate
                                 (Num (msPerSecond * (en / msPerSecond))))))
           /\ Config.timemode c2 = "custom"%string
           /\ Config.starttime c2
              = Some (mkDate (Num (msPerSecond * (s / msPerSecond))))
           /\ Config.endtime c2
              = Some (mkDate (Num (msPerSecond * (en / msPerSecond))))
           /\ Config.channel c2 = Config.channel c
           /\ Config.observatory c2 = Config.observatory c
           /\ (s mod msPerSecond = 0 -> en mod msPerSecond = 0 ->
               Config.starttime c2 = Config.starttime c
               /\ Config.endtime c2 = Config.endtime c)).
Proof.
  intros Hs He Hys Hye Hord Hlive Hin Hall r1 c1.
  assert (Hr1 : snd r1 = Some (Config.timemode_only (radio_mode live)))
    by (apply live_button_sets_mode; exact Hlive).
  assert (Hc1 : c1 = Config.set (Config.timemode_only (radio_mode live)) c)
    by (unfold c1; rewrite Hr1; reflexivity).
  assert (Hm1 : Config.timemode c1 = radio_mode live)
    by (rewrite Hc1; reflexivity).
  assert (Hs1 : Config.starttime c1 = Some (mkDate (Num s)))
    by (rewrite Hc1; exact Hs).
  assert (He1 : Config.endtime c1 = Some (mkDate (Num en)))
    by (rewrite Hc1; exact He).
  split.
  { split; [exact Hr1|]. split; [exact Hm1|]. rewrite Hc1. repeat split. }
  split.
  { destruct (handle_all_mode_switches Date_parse events c Hall)
      as (A1 & A2 & _). split; assumption. }
  destruct (render_cases c1 v) as (_ & _ & H3).
  destruct H3 as (v1 & st & et & Hr & Hst & Het & Hsv & Hev & _ & _ & _ & Hcu).
  { rewrite He1. discriminate. }
  { rewrite Hs1. discriminate. }
  rewrite Hs1, formatDate_text in Hst by exact Hys. injection Hst as <-.
  rewrite He1, formatDate_text in Het by exact Hye. injection Het as <-.
  exists v1. split; [exact Hr|].
  split.
  { rewrite Hcu, Hm1. destruct Hlive as [H|H]; rewrite H; reflexivity. }
  split; [exact Hsv|]. split; [exact Hev|].
  split; [split; reflexivity|].
  pose proof (parseDate_shown s Hys) as Hps.
  pose proof (parseDate_shown en Hye) as Hpe.
  set (w := check_radio TimeCustom v1).
  assert (Hw1 : _timeCustom_checked w = true) by reflexivity.
  assert (Hw2 : _startTime_value w = seconds_text s) by exact Hsv.
  assert (Hw3 : _endTime_value w = seconds_text en) by exact Hev.
  assert (Htarget : is_timeCustom e = false)
    by (destruct Hin as [H|[H|H]]; rewrite H; reflexivity).
  rewrite <- Hw2 in Hps. rewrite <- Hw3 in Hpe.
  cbv zeta.
  rewrite (onTimeChange_submit IsoFormat.parse e w Hw1 Htarget), Hps, Hpe.
  cbv zeta.
  destruct (Z.gtb_spec (msPerSecond * (s / msPerSecond))
              (msPerSecond * (en / msPerSecond))); [lia|].
  destruct (Z.gtb_spec (msPerSecond * (en / msPerSecond)
                        - msPerSecond * (s / msPerSecond)) 2678400000);
    [lia|].
  cbn [fst snd _timeError with_timeError commit].
  split; [reflexivity|]. split; [reflexivity|].
  split; [reflexivity|]. split; [reflexivity|]. split; [reflexivity|].
  split; [rewrite Hc1; reflexivity|]. split; [rewrite Hc1; reflexivity|].
  intros Hms Hme.
  assert (Es : msPerSecond * (s / msPerSecond) = s)
    by (unfold msPerSecond in *; Z.div_mod_to_equations; lia).
  assert (Ee : msPerSecond * (en / msPerSecond) = en)
    by (unfold msPerSecond in *; Z.div_mod_to_equations; lia).
  cbn [Config.set custom_patch Config.starttime Config.endtime
       Config.set_starttime Config.set_endtime Config.upd].
  rewrite Es, Ee, Hs, He. split; reflexivity.
Qed.

End ModeSwitchTheorems.

Module ModeSwitchExamples.

Import JS ESDate ESDateText TimeseriesApp TimeseriesSelectView Rendering
  Selection Examples MoreExamples ModeSwitchTheorems.

(** The custom configuration of the examples with a start half a second
    past midnight. *)
Lemma year_of_times :
  0 <= YearFromTime 1609459200000 <= 9999
  /\ 0 <= YearFromTime 1609545600000 <= 9999
  /\ 0 <= YearFromTime half_past <= 9999.
Proof. vm_compute. repeat split; discriminate. Qed.

(** From the custom times of the examples to realtime and back by the
    Update button: the times come back as they were. *)
Lemma mode_switch_and_back_witness :
  let c1 := Config.set (Config.timemode_only "realtime") custom_config in
  (Config.starttime custom_config = Some (mkDate (Num 1609459200000))
   /\ Config.endtime custom_config = Some (mkDate (Num 1609545600000))
   /\ 1609459200000 mod msPerSecond = 0
   /\ 1609545600000 mod msPerSecond = 0)
  /\ commit (snd (_onTimeChange IsoFormat.parse TimeRealtime
                    (check_radio TimeRealtime (custom_view "" ""))))
       custom_config
     = c1
  /\ exists v1 : View,
       render c1 (custom_view "" "") = Normal v1
       /\ _startTime_value v1 = "2021-01-01 00:00:00"%string
       /\ (let c2 := commit (snd (_onTimeChange IsoFormat.parse TimeUpdate
                                    (check_radio TimeCustom v1))) c1 in
           Config.timemode c2 = "custom"%string
           /\ Config.starttime c2 = Config.starttime custom_config
           /\ Config.endtime c2 = Config.endtime custom_config).
Proof.
  intros c1.
  assert (H1 : Config.starttime custom_config
               = Some (mkDate (Num 1609459200000))) by reflexivity.
  assert (H2 : Config.endtime custom_config
               = Some (mkDate (Num 1609545600000))) by reflexivity.
  assert (H3 : 1609459200000 mod msPerSecond = 0) by reflexivity.
  assert (H4 : 1609545600000 mod msPerSecond = 0) by reflexivity.
  assert (H5 : msPerSecond * (1609459200000 / msPerSecond)
               <= msPerSecond * (1609545600000 / msPerSecond)
               <= msPerSecond * (1609459200000 / msPerSecond) + 2678400000)
    by (vm_compute; split; discriminate).
  destruct year_of_times as (Hy1 & Hy2 & _).
  split; [split; [exact H1|split; [exact H2|split; [exact H3|exact H4]]]|].
  split; [reflexivity|].
  destruct (mode_switch_and_back IsoFormat.parse custom_config
              (custom_view "" "") (custom_view "" "")
              TimeRealtime TimeUpdate [] _ _ H1 H2 Hy1 Hy2 H5
              (or_introl eq_refl) (or_intror (or_intror eq_refl))
              (Forall_nil _))
    as (_ & _ & v1 & Hr & _ & Hsv & _ & _ & _ & _ & Hm & _ & _ & _ & _ & Hsame).
  exists v1. split; [exact Hr|].
  split; [rewrite Hsv; vm_compute; reflexivity|].
  destruct (Hsame H3 H4) as [Ha Hb].
  split; [exact Hm|]. split; [exact Ha|exact Hb].
Defined.

(** C9 as stated fails for a stored time with milliseconds.  The start is
    half a second past midnight; the mode is switched to realtime, the
    page is rendered, the custom button is checked and Update is clicked.
    The switch back is a [set] that names the start and the end besides
    the timemode, and the stored start is midnight afterwards. *)
Lemma switch_back_rewrites_times_counterexample :
  let c := {| Config.channel := Some "H"%string;
              Config.endtime := Some (mkDate (Num 1609545600000));
              Config.observatory := None;
              Config.starttime := Some (mkDate (Num half_past));
              Config.timemode := "custom"%string |} in
  let c1 := commit (snd (_onTimeChange IsoFormat.parse TimeRealtime
                           (check_radio TimeRealtime (custom_view "" ""))))
              c in
  let v1 := state_of_view (render c1 (custom_view "" "")) in
  let c1' := commit (snd (_onTimeChange IsoFormat.parse TimeCustom
                            (check_radio TimeCustom v1))) c1 in
  let r2 := _onTimeChange IsoFormat.parse TimeUpdate
              (check_radio TimeCustom v1) in
  let c2 := commit (snd r2) c1' in
  Config.timemode c1 = "realtime"%string
  /\ Config.starttime c1 = Config.starttime c
  /\ Config.timemode c1' = "realtime"%string
  /\ _startTime_value v1 = "2021-01-01 00:00:00"%string
  /\ snd r2
     = Some (custom_patch (Some (mkDate (Num 1609459200000)))
                          (Some (mkDate (Num 1609545600000))))
  /\ snd r2 <> Some (Config.timemode_only "custom")
  /\ Config.timemode c2 = "custom"%string
  /\ Config.starttime c2 = Some (mkDate (Num 1609459200000))
  /\ Config.starttime c2 <> Config.starttime c.
Proof.
  vm_compute. repeat split; discriminate.
Qed.

End ModeSwitchExamples.
